(** * Quest screen capture over adb: a shallow embedding of [quest_screen_cap.py]

    The program is an orchestration layer over the [adb] executable.  The
    embedding keeps the Python text recognisable:

    - [str] values are [string]s (ASCII; the byte strings read from
      [screencap -p] are [string]s as well, one character per byte);
    - Python [float]s are IEEE-754 binary64 numbers, computed with the
      reference implementation [SpecFloat] of the standard library;
    - everything the program does to the outside world ([subprocess.run],
      [time.sleep], [print]) is recorded as an event of a trace, and the
      outside world answers through a [Host] oracle;
    - exceptions are values of an error monad;
    - the live viewer is a transition system whose steps interleave the
      background capture thread, the tkinter timer and the user;
    - the top level of the program (the constructor and [main]) runs in
      a monad of its own, over the terminal, the standard input and the
      disk. *)

From Stdlib Require Import ZArith List Bool Ascii String Lia.
From Stdlib Require Import DecimalString.
From Stdlib Require Import Floats.SpecFloat.
Import ListNotations.

Local Open Scope string_scope.
Local Open Scope Z_scope.

(** ** Python strings *)

Module Py.

Definition TAB : string := String (ascii_of_nat 9) EmptyString.
Definition LF : string := String (ascii_of_nat 10) EmptyString.
Definition CR : string := String (ascii_of_nat 13) EmptyString.

(** [c.lower()] on one ASCII character. *)
Definition lower_ascii (c : ascii) : ascii :=
  let n := nat_of_ascii c in
  if andb (Nat.leb 65 n) (Nat.leb n 90) then ascii_of_nat (n + 32) else c.

(** [s.lower()] *)
Fixpoint lower (s : string) : string :=
  match s with
  | EmptyString => EmptyString
  | String c r => String (lower_ascii c) (lower r)
  end.

(** [s.startswith(p)] *)
Fixpoint startswith (s p : string) : bool :=
  match p, s with
  | EmptyString, _ => true
  | String _ _, EmptyString => false
  | String a p', String b s' => andb (Ascii.eqb a b) (startswith s' p')
  end.

(** [s.endswith(p)] *)
Definition endswith (s p : string) : bool :=
  let n := String.length s in
  let k := String.length p in
  andb (Nat.leb k n) (String.eqb (substring (n - k) k s) p).

(** [p in s] *)
Fixpoint contains (s p : string) : bool :=
  match s with
  | EmptyString => startswith EmptyString p
  | String _ r => orb (startswith s p) (contains r p)
  end.

(** [s.replace(old, new)] for a non-empty [old]: the leftmost occurrences,
    not overlapping.  [skip] counts the characters of a match still to be
    dropped. *)
Fixpoint replace_from (skip : nat) (s old new : string) : string :=
  match s with
  | EmptyString => EmptyString
  | String c r =>
      match skip with
      | S k => replace_from k r old new
      | O =>
          if startswith s old
          then new ++ replace_from (String.length old - 1) r old new
          else String c (replace_from O r old new)
      end
  end.

Definition replace (s old new : string) : string := replace_from O s old new.

Definition is_ascii_digit (c : ascii) : bool :=
  let n := nat_of_ascii c in andb (Nat.leb 48 n) (Nat.leb n 57).

Fixpoint all_digits (s : string) : bool :=
  match s with
  | EmptyString => true
  | String c r => andb (is_ascii_digit c) (all_digits r)
  end.

(** [s.isdigit()]: every character is a digit and there is at least one. *)
Definition isdigit (s : string) : bool :=
  match s with
  | EmptyString => false
  | _ => all_digits s
  end.

(** Whitespace as [str.strip()] understands it on ASCII text. *)
Definition is_space (c : ascii) : bool :=
  let n := nat_of_ascii c in
  orb (andb (Nat.leb 9 n) (Nat.leb n 13))
      (orb (andb (Nat.leb 28 n) (Nat.leb n 31)) (Nat.eqb n 32)).

Fixpoint lstrip (s : string) : string :=
  match s with
  | EmptyString => EmptyString
  | String c r => if is_space c then lstrip r else s
  end.

(** [rstrip] keeps a character when something that is not a space follows
    it or it is not a space itself. *)
Fixpoint rstrip (s : string) : string :=
  match s with
  | EmptyString => EmptyString
  | String c r =>
      match rstrip r with
      | EmptyString => if is_space c then EmptyString else String c EmptyString
      | r' => String c r'
      end
  end.

(** [s.strip()] *)
Definition strip (s : string) : string := rstrip (lstrip s).

(** [s.split(sep)] for a one-character separator: never an empty list. *)
Fixpoint split (sep : ascii) (s : string) : list string :=
  match s with
  | EmptyString => [EmptyString]
  | String c r =>
      if Ascii.eqb c sep then EmptyString :: split sep r
      else match split sep r with
           | [] => [String c EmptyString]
           | w :: ws => String c w :: ws
           end
  end.

(** [sep.join(parts)] *)
Fixpoint join (sep : string) (parts : list string) : string :=
  match parts with
  | [] => EmptyString
  | [p] => p
  | p :: ps => p ++ sep ++ join sep ps
  end.

(** [str(n)] for an [int]. *)
Definition str_of_int (n : Z) : string :=
  NilZero.string_of_int (Z.to_int n).

Fixpoint zeros (k : nat) : string :=
  match k with O => EmptyString | S k' => String "0" (zeros k') end.

(** [f"{n:06d}"] and the like, for a non-negative [n]. *)
Definition zfill (width : nat) (n : Z) : string :=
  let d := str_of_int n in
  zeros (width - String.length d) ++ d.

(** A truth test as [if not s] makes it: the empty string is false. *)
Definition truthy (s : string) : bool :=
  match s with EmptyString => false | _ => true end.

(** [os.path.join(a, b)] on a POSIX host. *)
Definition path_join (a b : string) : string :=
  if startswith b "/" then b
  else if orb (negb (truthy a)) (endswith a "/") then a ++ b
  else a ++ "/" ++ b.

(** Two lower-case hexadecimal digits, as in the escape [\x1b]. *)
Definition hex_digit (n : nat) : ascii :=
  ascii_of_nat (if Nat.ltb n 10 then 48 + n else 87 + n).

Definition hex2 (n : nat) : string :=
  String (hex_digit (Nat.div n 16)) (String (hex_digit (Nat.modulo n 16)) EmptyString).

Definition QUOTE : ascii := ascii_of_nat 39.
Definition DQUOTE : ascii := ascii_of_nat 34.
Definition BACKSLASH : ascii := ascii_of_nat 92.

(** One character of [repr(s)] between the quotes: the quote in use and
    the backslash are escaped, tab, line feed and carriage return have
    their letters, and what is not printable is written [\xNN]. *)
Definition repr_char (quote c : ascii) : string :=
  let n := nat_of_ascii c in
  if orb (Ascii.eqb c quote) (Ascii.eqb c BACKSLASH)
  then String BACKSLASH (String c EmptyString)
  else if Nat.eqb n 9 then String BACKSLASH "t"
  else if Nat.eqb n 10 then String BACKSLASH "n"
  else if Nat.eqb n 13 then String BACKSLASH "r"
  else if orb (Nat.ltb n 32)
              (orb (andb (Nat.leb 127 n) (Nat.leb n 160)) (Nat.eqb n 173))
  then String BACKSLASH (String "x" (hex2 n))
  else String c EmptyString.

Fixpoint repr_chars (quote : ascii) (s : string) : string :=
  match s with
  | EmptyString => EmptyString
  | String c r => repr_char quote c ++ repr_chars quote r
  end.

(** [repr(s)] for a [str] of code points below 256: between double
    quotes when the text holds a single quote and no double one, between
    single quotes otherwise. *)
Definition repr (s : string) : string :=
  let quote :=
    if andb (contains s (String QUOTE EmptyString))
            (negb (contains s (String DQUOTE EmptyString)))
    then DQUOTE else QUOTE in
  String quote (repr_chars quote s ++ String quote EmptyString).

(** [repr(l)] for a list of [str]. *)
Definition repr_list (l : list string) : string :=
  "[" ++ join ", " (map repr l) ++ "]".

End Py.

(** ** Exceptions *)

(** The exceptions that can travel through the program.  All of them but
    [KeyboardInterrupt] are subclasses of [Exception]. *)
Inductive Exn : Type :=
| CalledProcessError (argv : list string) (returncode : Z)
| FileNotFoundError (what : string)
| OSError (what : string)
| ValueError (what : string)
| ZeroDivisionError (what : string)
| OverflowError (what : string)
| ImageError (what : string)
| KeyboardInterrupt.

Definition is_Exception (e : Exn) : bool :=
  match e with KeyboardInterrupt => false | _ => true end.

Definition is_CalledProcessError (e : Exn) : bool :=
  match e with CalledProcessError _ _ => true | _ => false end.

Definition is_FileNotFoundError (e : Exn) : bool :=
  match e with FileNotFoundError _ => true | _ => false end.

Definition is_KeyboardInterrupt (e : Exn) : bool :=
  match e with KeyboardInterrupt => true | _ => false end.

(** The names [signal.Signals] gives the signals of Linux. *)
Definition SIGNALS : list (Z * string) :=
  [(1, "SIGHUP"); (2, "SIGINT"); (3, "SIGQUIT"); (4, "SIGILL"); (5, "SIGTRAP");
   (6, "SIGABRT"); (7, "SIGBUS"); (8, "SIGFPE"); (9, "SIGKILL"); (10, "SIGUSR1");
   (11, "SIGSEGV"); (12, "SIGUSR2"); (13, "SIGPIPE"); (14, "SIGALRM"); (15, "SIGTERM");
   (16, "SIGSTKFLT"); (17, "SIGCHLD"); (18, "SIGCONT"); (19, "SIGSTOP"); (20, "SIGTSTP");
   (21, "SIGTTIN"); (22, "SIGTTOU"); (23, "SIGURG"); (24, "SIGXCPU"); (25, "SIGXFSZ");
   (26, "SIGVTALRM"); (27, "SIGPROF"); (28, "SIGWINCH"); (29, "SIGIO"); (30, "SIGPWR");
   (31, "SIGSYS"); (34, "SIGRTMIN"); (64, "SIGRTMAX")].

Definition signal_name (n : Z) : option string :=
  option_map snd (find (fun entry => Z.eqb (fst entry) n) SIGNALS).

(** [str(e)], as the [print] calls of the handlers show it.  A
    [CalledProcessError] shows the argument list as [repr] writes it; a
    negative exit status is the signal that ended the command. *)
Definition str_of_exn (e : Exn) : string :=
  match e with
  | CalledProcessError argv rc =>
      if Z.ltb rc 0
      then match signal_name (- rc) with
           | Some name =>
               "Command '" ++ Py.repr_list argv ++ "' died with <Signals." ++ name
                 ++ ": " ++ Py.str_of_int (- rc) ++ ">."
           | None =>
               "Command '" ++ Py.repr_list argv ++ "' died with unknown signal "
                 ++ Py.str_of_int (- rc) ++ "."
           end
      else "Command '" ++ Py.repr_list argv ++ "' returned non-zero exit status "
             ++ Py.str_of_int rc ++ "."
  | FileNotFoundError w | OSError w | ValueError w | ZeroDivisionError w
  | OverflowError w | ImageError w => w
  | KeyboardInterrupt => ""
  end.

(** ** Python floats *)

Module Float.

Definition float : Type := spec_float.

Definition prec : Z := 53.
Definition emax : Z := 1024.

(** [float(n)] for an [int] that fits; the nearest double otherwise. *)
Definition of_int (n : Z) : float := binary_normalize prec emax n 0 false.

Definition mul (x y : float) : float := SFmul prec emax x y.
Definition div (x y : float) : float := SFdiv prec emax x y.
Definition eqb (x y : float) : bool := SFeqb x y.
Definition ltb (x y : float) : bool := SFltb x y.

Definition is_zero (x : float) : bool :=
  match x with S754_zero _ => true | _ => false end.

Definition is_nan (x : float) : bool :=
  match x with S754_nan => true | _ => false end.

(** The double nearest to [m / 10^k] (ties to even), for [0 <= m]: what
    [float] returns for the decimal numeral with digits [m] and [k]
    digits after the point. *)
Definition of_decimal (m : Z) (k : nat) : float :=
  match m with
  | Zpos _ =>
      let '(q, e, l) := SFdiv_core_binary prec emax m 0 (10 ^ Z.of_nat k) 0 in
      binary_round_aux prec emax false q e l
  | _ => S754_zero false
  end.

(** The integer part of a finite double, towards zero. *)
Definition trunc (x : float) : option Z :=
  match x with
  | S754_zero _ => Some 0
  | S754_finite s m e =>
      let a := if Z.leb 0 e then Z.shiftl (Zpos m) e
               else Z.shiftr (Zpos m) (- e) in
      Some (if s then - a else a)
  | _ => None
  end.

(** [floor (w * x)] for the exact real product of the integer [w] and the
    real number the finite double [x] stands for. *)
Definition floor_mul_exact (w : Z) (x : float) : option Z :=
  match x with
  | S754_zero _ => Some 0
  | S754_finite s m e =>
      let p := w * (if s then Zneg m else Zpos m) in
      Some (if Z.leb 0 e then Z.shiftl p e else Z.shiftr p (- e))
  | _ => None
  end.

(** [floor (x * 1000)]: a finite non-negative duration in whole
    milliseconds. *)
Definition millis (x : float) : Z :=
  match floor_mul_exact 1000 x with Some n => n | None => 0 end.

Definition one : float := of_int 1.
Definition half : float := of_decimal 5 1.

End Float.

(** [float(s)].  The numerals modelled are the plain ones, digits with at
    most one point: [float] accepts more (a sign, an exponent, blanks,
    [inf], [nan], underscores), but no such text passes the test
    [s.replace('.', '').isdigit()] that guards both calls in the program. *)
Fixpoint digits_value (acc : Z) (s : string) : Z :=
  match s with
  | EmptyString => acc
  | String c r => digits_value (10 * acc + (Z.of_nat (nat_of_ascii c) - 48)) r
  end.

Fixpoint before_point (s : string) : string :=
  match s with
  | EmptyString => EmptyString
  | String c r => if Ascii.eqb c "." then EmptyString else String c (before_point r)
  end.

Fixpoint after_point (s : string) : option string :=
  match s with
  | EmptyString => None
  | String c r => if Ascii.eqb c "." then Some r else after_point r
  end.

Definition py_float (s : string) : Exn + Float.float :=
  let bad := inl (ValueError ("could not convert string to float: '" ++ s ++ "'")) in
  let ip := before_point s in
  let fp := match after_point s with Some f => f | None => EmptyString end in
  if andb (andb (Py.all_digits ip) (Py.all_digits fp))
          (Py.truthy (ip ++ fp))
  then inr (Float.of_decimal (digits_value 0 (ip ++ fp)) (String.length fp))
  else bad.

(** [int(x)] for a [float]. *)
Definition py_int (x : Float.float) : Exn + Z :=
  match Float.trunc x with
  | Some n => inr n
  | None =>
      if Float.is_nan x
      then inl (ValueError "cannot convert float NaN to integer")
      else inl (OverflowError "cannot convert float infinity to integer")
  end.

(** [x / y] on floats. *)
Definition py_truediv (x y : Float.float) : Exn + Float.float :=
  if Float.is_zero y then inl (ZeroDivisionError "float division by zero")
  else inr (Float.div x y).

(** ** The outside world *)

(** What a child process gives back: [subprocess.run] either returns a
    [CompletedProcess] (with the time the process took, in milliseconds) or
    raises, e.g. when the executable cannot be started. *)
Inductive Reply : Type :=
| Completed (returncode : Z) (stdout : string) (millis : N)
| Raised (e : Exn).

(** One thing the program did to its environment. *)
Inductive Event : Type :=
| Run (argv : list string) (reply : Reply)
| Sleep (seconds : Float.float)
| Print (line : string).

(** The environment: it answers from the history of the run so far, so it
    may pass a command once and fail it the next time. *)
Record Host : Type := {
  (** the answer of the process started now *)
  adb : list Event -> list string -> Reply;
  (** [datetime.now().strftime(fmt)] *)
  strftime : list Event -> string -> string;
  (** whether Ctrl+C arrives during the [time.sleep] that starts now *)
  ctrl_c : list Event -> bool;
  (** the module-level [GUI_AVAILABLE]: tkinter and Pillow were imported *)
  GUI_AVAILABLE : bool
}.

(** The object [self]. *)
Record QuestADBCapture : Type := {
  device_ip : option string;
  adb_port : Z;
  connected : bool;
  streaming : bool;
  output_folder : string
}.

Definition set_connected (b : bool) (q : QuestADBCapture) : QuestADBCapture :=
  {| device_ip := device_ip q; adb_port := adb_port q; connected := b;
     streaming := streaming q; output_folder := output_folder q |}.

Definition set_streaming (b : bool) (q : QuestADBCapture) : QuestADBCapture :=
  {| device_ip := device_ip q; adb_port := adb_port q; connected := connected q;
     streaming := b; output_folder := output_folder q |}.

(** The state a method runs in: the object and the trace so far (oldest
    event first). *)
Record World : Type := {
  self : QuestADBCapture;
  trace : list Event
}.

Definition with_self (f : QuestADBCapture -> QuestADBCapture) (w : World) : World :=
  {| self := f (self w); trace := trace w |}.

Definition emit (e : Event) (w : World) : World :=
  {| self := self w; trace := trace w ++ [e] |}.

(** *** Readings of a trace *)

Definition command_of (e : Event) : option (list string) :=
  match e with Run argv _ => Some argv | _ => None end.

(** The bridge commands issued, in order. *)
Fixpoint commands (t : list Event) : list (list string) :=
  match t with
  | [] => []
  | Run argv _ :: r => argv :: commands r
  | _ :: r => commands r
  end.

(** The lines printed, in order. *)
Fixpoint printed (t : list Event) : list string :=
  match t with
  | [] => []
  | Print l :: r => l :: printed r
  | _ :: r => printed r
  end.

(** The local files the run has written.  The program never opens a file
    itself: a local file appears when an [adb pull REMOTE LOCAL] exits
    with status 0. *)
Definition pulled_to (e : Event) : option string :=
  match e with
  | Run [a; b; _; local] (Completed rc _ _) =>
      if andb (andb (String.eqb a "adb") (String.eqb b "pull")) (Z.eqb rc 0)
      then Some local else None
  | _ => None
  end.

Fixpoint files_written (t : list Event) : list string :=
  match t with
  | [] => []
  | e :: r =>
      match pulled_to e with
      | Some local => local :: files_written r
      | None => files_written r
      end
  end.

(** Wall-clock time of a trace in milliseconds: the waits and the time the
    child processes took. *)
Fixpoint elapsed_ms (t : list Event) : Z :=
  match t with
  | [] => 0
  | Sleep d :: r => Float.millis d + elapsed_ms r
  | Run _ (Completed _ _ ms) :: r => Z.of_N ms + elapsed_ms r
  | _ :: r => elapsed_ms r
  end.

(** Time spent inside child processes only. *)
Fixpoint bridge_ms (t : list Event) : Z :=
  match t with
  | [] => 0
  | Run _ (Completed _ _ ms) :: r => Z.of_N ms + bridge_ms r
  | _ :: r => bridge_ms r
  end.

(** ** The monad of methods: state, exceptions, and fuel for loops *)

Inductive Res (A : Type) : Type :=
| Val (a : A)
| Exc (e : Exn)
| OutOfFuel.
Arguments Val {A} a.
Arguments Exc {A} e.
Arguments OutOfFuel {A}.

Definition M (A : Type) : Type := World -> Res A * World.

Definition ret {A} (a : A) : M A := fun w => (Val a, w).

Definition bind {A B} (c : M A) (k : A -> M B) : M B :=
  fun w =>
    match c w with
    | (Val a, w') => k a w'
    | (Exc e, w') => (Exc e, w')
    | (OutOfFuel, w') => (OutOfFuel, w')
    end.

Definition raise {A} (e : Exn) : M A := fun w => (Exc e, w).

Definition out_of_fuel {A} : M A := fun w => (OutOfFuel, w).

(** [try: c  except <class> as e: h e] *)
Definition try_except {A} (c : M A) (caught : Exn -> bool) (h : Exn -> M A) : M A :=
  fun w =>
    match c w with
    | (Exc e, w') => if caught e then h e w' else (Exc e, w')
    | r => r
    end.

Definition lift {A} (r : Exn + A) : M A :=
  match r with inl e => raise e | inr a => ret a end.

Definition get_self : M QuestADBCapture := fun w => (Val (self w), w).

Definition update_self (f : QuestADBCapture -> QuestADBCapture) : M unit :=
  fun w => (Val tt, with_self f w).

Declare Scope py_scope.
Delimit Scope py_scope with py.
Notation "x <- c ;; k" := (bind c (fun x => k))
  (at level 61, c at next level, right associativity) : py_scope.
Notation "c ;;; k" := (bind c (fun _ => k))
  (at level 61, right associativity) : py_scope.
Local Open Scope py_scope.

Record CompletedProcess : Type := {
  returncode : Z;
  stdout : string
}.

(** Control leaving the body of a loop. *)
Inductive Flow (R : Type) : Type :=
| Continue
| Break
| Return (r : R).
Arguments Continue {R}.
Arguments Break {R}.
Arguments Return {R} r.

(** [range(n)] *)
Definition range (n : nat) : list Z := map Z.of_nat (seq 0 n).

(** [for x in xs: body]: [None] when the loop ended (or broke), [Some r]
    when the body returned [r] from the enclosing function. *)
Fixpoint for_in {X R} (xs : list X) (body : X -> M (Flow R)) : M (option R) :=
  match xs with
  | [] => ret None
  | x :: rest =>
      f <- body x ;;
      match f with
      | Continue => for_in rest body
      | Break => ret None
      | Return r => ret (Some r)
      end
  end.

(** ** The methods of [QuestADBCapture] *)

Section Methods.

Variable host : Host.

(** [print(line)] *)
Definition print (line : string) : M unit :=
  fun w => (Val tt, emit (Print line) w).

(** [subprocess.run(argv, ..., check=check)] *)
Definition subprocess_run (argv : list string) (check : bool) : M CompletedProcess :=
  fun w =>
    let r := adb host (trace w) argv in
    let w' := emit (Run argv r) w in
    match r with
    | Raised e => (Exc e, w')
    | Completed rc out _ =>
        if andb check (negb (Z.eqb rc 0))
        then (Exc (CalledProcessError argv rc), w')
        else (Val {| returncode := rc; stdout := out |}, w')
    end.

(** [datetime.now().strftime(fmt)] *)
Definition now_strftime (fmt : string) : M string :=
  fun w => (Val (strftime host (trace w) fmt), w).

(** The longest wait CPython's 64-bit nanosecond clock can hold:
    [time.sleep] raises [OverflowError] from there on.  The model has no
    clock reading: a wait that fits is taken, also in the last seconds
    below the bound, where the real call fails once the wait is added to
    the clock (see [modest_wait]). *)
Definition sleep_fits (d : Float.float) : bool :=
  Float.ltb (Float.mul d (Float.of_int 1000000000)) (Float.of_int (2 ^ 63)).

(** [time.sleep(d)].  Ctrl+C reaches the main thread only: a wait of the
    background thread is not [interruptible]. *)
Definition time_sleep (interruptible : bool) (d : Float.float) : M unit :=
  fun w =>
    if Float.is_nan d then (Exc (ValueError "Invalid value NaN (not a number)"), w)
    else if Float.ltb d (Float.of_int 0)
    then (Exc (ValueError "sleep length must be non-negative"), w)
    else if negb (sleep_fits d)
    then (Exc (OverflowError "timestamp too large to convert to C _PyTime_t"), w)
    else
      let w' := emit (Sleep d) w in
      if andb interruptible (ctrl_c host (trace w))
      then (Exc KeyboardInterrupt, w') else (Val tt, w').

(** *** [check_adb_installed] *)

Definition NO_ADB : string :=
  "ADB not found. Please install Android SDK Platform Tools".

Definition check_adb_installed : M bool :=
  try_except
    (result <- subprocess_run ["adb"; "version"] false ;;
     if Z.eqb (returncode result) 0
     then print "ADB is installed and accessible" ;;; ret true
     else print NO_ADB ;;; ret false)
    is_FileNotFoundError
    (fun _ => print NO_ADB ;;; ret false).

(** *** [connect_device] *)

Definition target (q : QuestADBCapture) (ip : string) : string :=
  ip ++ ":" ++ Py.str_of_int (adb_port q).

(** [lines = result.stdout.strip().split('\n')[1:]] *)
Definition device_lines (out : string) : list string :=
  tl (Py.split (ascii_of_nat 10) (Py.strip out)).

(** [[line.split('\t')[0] for line in lines if '\tdevice' in line]] *)
Definition devices_of (out : string) : list string :=
  map (fun line => hd EmptyString (Py.split (ascii_of_nat 9) line))
      (filter (fun line => Py.contains line (Py.TAB ++ "device")) (device_lines out)).

Definition max_attempts : nat := 3.

(** The body of [for attempt in range(max_attempts)]. *)
Definition usb_attempt (attempt : Z) : M (Flow bool) :=
  result <- subprocess_run ["adb"; "devices"] false ;;
  let devices := devices_of (stdout result) in
  match devices with
  | _ :: _ =>
      print ("Found " ++ Py.str_of_int (Z.of_nat (List.length devices))
               ++ " device(s): " ++ Py.join ", " devices) ;;;
      update_self (set_connected true) ;;;
      ret Break
  | [] =>
      if Z.ltb attempt (Z.of_nat max_attempts - 1)
      then
        print ("No devices found (attempt " ++ Py.str_of_int (attempt + 1) ++ "/"
                 ++ Py.str_of_int (Z.of_nat max_attempts) ++ "). Waiting 5 seconds...") ;;;
        print "Make sure your Quest is connected and developer mode is enabled" ;;;
        time_sleep true (Float.of_int 5) ;;;
        ret Continue
      else
        print "No devices found after multiple attempts. Please check connection and try again." ;;;
        ret (Return false)
  end.

Definition connect_wifi (ip : string) : M (option bool) :=
  q <- get_self ;;
  print ("Connecting to " ++ target q ip) ;;;
  result <- subprocess_run ["adb"; "connect"; target q ip] false ;;
  if Py.contains (Py.lower (stdout result)) "connected"
  then
    print "Successfully connected via WiFi" ;;;
    update_self (set_connected true) ;;;
    ret None
  else
    print ("Failed to connect: " ++ stdout result) ;;;
    ret (Some false).

(** [if self.device_ip:] *)
Definition wifi_target (q : QuestADBCapture) : option string :=
  match device_ip q with
  | Some ip => if Py.truthy ip then Some ip else None
  | None => None
  end.

Definition connect_device : M bool :=
  installed <- check_adb_installed ;;
  if negb installed then ret false
  else
    try_except
      (q <- get_self ;;
       returned <- match wifi_target q with
                   | Some ip => connect_wifi ip
                   | None => for_in (range max_attempts) usb_attempt
                   end ;;
       match returned with
       | Some r => ret r
       | None => ret true
       end)
      is_Exception
      (fun e => print ("Error connecting to device: " ++ str_of_exn e) ;;; ret false).

(** *** [get_device_info] *)

Record DeviceInfo : Type := {
  model : string;
  android_version : string;
  resolution : string
}.

Definition get_device_info : M (option DeviceInfo) :=
  q <- get_self ;;
  if negb (connected q)
  then print "Device not connected" ;;; ret None
  else
    try_except
      (model_result <- subprocess_run ["adb"; "shell"; "getprop"; "ro.product.model"] false ;;
       let model := Py.strip (stdout model_result) in
       version_result <-
         subprocess_run ["adb"; "shell"; "getprop"; "ro.build.version.release"] false ;;
       let android_version := Py.strip (stdout version_result) in
       res_result <- subprocess_run ["adb"; "shell"; "wm"; "size"] false ;;
       let resolution := Py.strip (stdout res_result) in
       let info := {| model := model; android_version := android_version;
                      resolution := resolution |} in
       print "Device Info:" ;;;
       print ("  Model: " ++ model) ;;;
       print ("  Android Version: " ++ android_version) ;;;
       print ("  " ++ resolution) ;;;
       ret (Some info))
      is_Exception
      (fun e => print ("Error getting device info: " ++ str_of_exn e) ;;; ret None).

(** *** [take_screenshot] and [start_screen_recording] *)

(** What these two return: [False], or the path of the saved file. *)
Inductive Saved : Type :=
| PyFalse
| Path (full_path : string).

(** [if not filename: filename = f"{prefix}_{timestamp}{ext}"], then
    [if not filename.lower().endswith(ext): filename += ext]. *)
Definition output_name (pre ext : string) (filename : option string) : M string :=
  name <- match filename with
          | Some f =>
              if Py.truthy f then ret f
              else timestamp <- now_strftime "%Y%m%d_%H%M%S" ;;
                   ret (pre ++ "_" ++ timestamp ++ ext)
          | None =>
              timestamp <- now_strftime "%Y%m%d_%H%M%S" ;;
              ret (pre ++ "_" ++ timestamp ++ ext)
          end ;;
  if negb (Py.endswith (Py.lower name) ext) then ret (name ++ ext) else ret name.

Definition REMOTE_SHOT : string := "/sdcard/screenshot.png".

(** The [try] statement of [take_screenshot]. *)
Definition save_screenshot (full_path : string) : M Saved :=
  try_except
    (print "Taking screenshot..." ;;;
     subprocess_run ["adb"; "shell"; "screencap"; "-p"; REMOTE_SHOT] true ;;;
     subprocess_run ["adb"; "pull"; REMOTE_SHOT; full_path] true ;;;
     subprocess_run ["adb"; "shell"; "rm"; REMOTE_SHOT] true ;;;
     print ("Screenshot saved as: " ++ full_path) ;;;
     ret (Path full_path))
    is_CalledProcessError
    (fun e => print ("Error taking screenshot: " ++ str_of_exn e) ;;; ret PyFalse).

Definition take_screenshot (filename : option string) : M Saved :=
  q <- get_self ;;
  if negb (connected q)
  then print "Device not connected" ;;; ret PyFalse
  else
    filename <- output_name "quest_screenshot" ".png" filename ;;
    let full_path := Py.path_join (output_folder q) filename in
    save_screenshot full_path.

Definition REMOTE_REC : string := "/sdcard/recording.mp4".

(** [subprocess.Popen(argv)] followed by [.wait()]: the exit status is
    not looked at. *)
Definition popen_wait (argv : list string) : M unit :=
  subprocess_run argv false ;;; ret tt.

Definition start_screen_recording (filename : option string) (duration : Z) : M Saved :=
  q <- get_self ;;
  if negb (connected q)
  then print "Device not connected" ;;; ret PyFalse
  else
    filename <- output_name "quest_recording" ".mp4" filename ;;
    let full_path := Py.path_join (output_folder q) filename in
    try_except
      (print ("Starting screen recording for " ++ Py.str_of_int duration ++ " seconds...") ;;;
       popen_wait ["adb"; "shell"; "screenrecord";
                   "--time-limit=" ++ Py.str_of_int duration; REMOTE_REC] ;;;
       print "Recording complete, downloading..." ;;;
       subprocess_run ["adb"; "pull"; REMOTE_REC; full_path] true ;;;
       subprocess_run ["adb"; "shell"; "rm"; REMOTE_REC] true ;;;
       print ("Recording saved as: " ++ full_path) ;;;
       ret (Path full_path))
      is_CalledProcessError
      (fun e => print ("Error recording screen: " ++ str_of_exn e) ;;; ret PyFalse).

(** *** [start_live_stream] *)

(** An [int] turned into a [float] for an arithmetic operation. *)
Definition float_of_int (n : Z) : Exn + Float.float :=
  match Float.of_int n with
  | S754_infinity _ => inl (OverflowError "int too large to convert to float")
  | x => inr x
  end.

Definition REMOTE_FRAME : string := "/sdcard/temp_frame.png".

(** [while self.streaming: ...], with the local [frame_count]. *)
Fixpoint live_stream_loop (fuel : nat) (fps frame_count : Z) : M unit :=
  q <- get_self ;;
  if negb (streaming q) then ret tt
  else
    match fuel with
    | O => out_of_fuel
    | S fuel' =>
        timestamp <- now_strftime "%H:%M:%S" ;;
        let filename := "frame_" ++ Py.zfill 6 frame_count ++ ".png" in
        let full_path := Py.path_join (output_folder q) filename in
        subprocess_run ["adb"; "shell"; "screencap"; "-p"; REMOTE_FRAME] true ;;;
        subprocess_run ["adb"; "pull"; REMOTE_FRAME; full_path] true ;;;
        print ("Frame " ++ Py.str_of_int frame_count ++ " captured at " ++ timestamp) ;;;
        f <- lift (float_of_int fps) ;;
        d <- lift (py_truediv Float.one f) ;;
        time_sleep true d ;;;
        live_stream_loop fuel' fps (frame_count + 1)
    end.

(** Returns [Some false] for [False] and [None] for the [None] of a
    function that falls off its end. *)
Definition start_live_stream (fuel : nat) (fps : Z) : M (option bool) :=
  q <- get_self ;;
  if negb (connected q)
  then print "Device not connected" ;;; ret (Some false)
  else
    print ("Starting live stream at " ++ Py.str_of_int fps ++ " FPS. Press Ctrl+C to stop.") ;;;
    print ("Frames will be saved to: " ++ output_folder q) ;;;
    update_self (set_streaming true) ;;;
    try_except
      (live_stream_loop fuel fps 0 ;;; ret None)
      is_KeyboardInterrupt
      (fun _ =>
         print (Py.LF ++ "Stopping live stream...") ;;;
         update_self (set_streaming false) ;;;
         subprocess_run ["adb"; "shell"; "rm"; REMOTE_FRAME] false ;;;
         ret None).

(** *** [disconnect] *)

Definition disconnect : M unit :=
  q <- get_self ;;
  match wifi_target q with
  | Some ip =>
      subprocess_run ["adb"; "disconnect"; target q ip] false ;;;
      print "Disconnected from device"
  | None => ret tt
  end ;;;
  update_self (set_connected false).

(** *** [view_screen_realtime] *)

(** A decoded bitmap, as far as the program looks at it. *)
Record Image : Type := {
  width : Z;
  height : Z;
  pixels : string
}.

(** Pillow, as the viewer uses it.  Each function either returns or
    raises an exception (a subclass of [Exception]) whose text is the
    left value. *)
Record Pillow : Type := {
  (** [Image.open(io.BytesIO(data))] *)
  Image_open : string -> string + Image;
  (** [img.resize((w, h), Image.Resampling.LANCZOS)] *)
  Image_resize : Image -> Z * Z -> string + Image;
  (** [ImageTk.PhotoImage(img)]: whether the bitmap can be shown *)
  PhotoImage : Image -> string + unit;
  (** nothing is an image of no bytes *)
  open_empty : forall img, Image_open EmptyString <> inr img;
  (** a resized image has the size asked for *)
  resize_size : forall img w h img',
      Image_resize img (w, h) = inr img' -> width img' = w /\ height img' = h
}.

Variable pil : Pillow.

(** Where the background thread [capture_frames] stands. *)
Inductive Thread : Type :=
| AtWhile                                        (* [while self.streaming:] *)
| AtControls                                     (* reading fps and scale *)
| AtScreencap (current_fps current_scale : Float.float)
| AtDecode (current_fps current_scale : Float.float) (result : CompletedProcess)
| AtStore (current_fps : Float.float) (img : Image)  (* [current_image[0] = img] *)
| AtCount (current_fps : Float.float)                (* [frame_count[0] += 1] *)
| AtSleep (current_fps : Float.float)
| Finished                                       (* the function returned *)
| Died (e : Exn).                                (* an exception left the thread *)

(** The window, the variables the two closures share, and the thread. *)
Record Viewer : Type := {
  world : World;
  current_image : option Image;     (* [current_image[0]] *)
  frame_count : Z;                  (* [frame_count[0]] *)
  fps_var : string;
  scale_var : string;
  label_image : option Image;       (* what [image_label] shows *)
  status_text : string;             (* the text of [status_label] *)
  timer : option Z;                 (* a pending [root.after(ms, update_display)] *)
  in_mainloop : bool;               (* [root.mainloop()] is running *)
  thread : Thread
}.

Definition set_world (w : World) (v : Viewer) : Viewer :=
  {| world := w; current_image := current_image v; frame_count := frame_count v;
     fps_var := fps_var v; scale_var := scale_var v; label_image := label_image v;
     status_text := status_text v; timer := timer v; in_mainloop := in_mainloop v;
     thread := thread v |}.

Definition set_thread (t : Thread) (v : Viewer) : Viewer :=
  {| world := world v; current_image := current_image v; frame_count := frame_count v;
     fps_var := fps_var v; scale_var := scale_var v; label_image := label_image v;
     status_text := status_text v; timer := timer v; in_mainloop := in_mainloop v;
     thread := t |}.

Definition set_current_image (i : option Image) (v : Viewer) : Viewer :=
  {| world := world v; current_image := i; frame_count := frame_count v;
     fps_var := fps_var v; scale_var := scale_var v; label_image := label_image v;
     status_text := status_text v; timer := timer v; in_mainloop := in_mainloop v;
     thread := thread v |}.

Definition set_frame_count (n : Z) (v : Viewer) : Viewer :=
  {| world := world v; current_image := current_image v; frame_count := n;
     fps_var := fps_var v; scale_var := scale_var v; label_image := label_image v;
     status_text := status_text v; timer := timer v; in_mainloop := in_mainloop v;
     thread := thread v |}.

Definition set_controls (f s : string) (v : Viewer) : Viewer :=
  {| world := world v; current_image := current_image v; frame_count := frame_count v;
     fps_var := f; scale_var := s; label_image := label_image v;
     status_text := status_text v; timer := timer v; in_mainloop := in_mainloop v;
     thread := thread v |}.

Definition set_label (i : option Image) (txt : string) (v : Viewer) : Viewer :=
  {| world := world v; current_image := current_image v; frame_count := frame_count v;
     fps_var := fps_var v; scale_var := scale_var v; label_image := i;
     status_text := txt; timer := timer v; in_mainloop := in_mainloop v;
     thread := thread v |}.

Definition set_timer (t : option Z) (v : Viewer) : Viewer :=
  {| world := world v; current_image := current_image v; frame_count := frame_count v;
     fps_var := fps_var v; scale_var := scale_var v; label_image := label_image v;
     status_text := status_text v; timer := t; in_mainloop := in_mainloop v;
     thread := thread v |}.

Definition set_in_mainloop (b : bool) (v : Viewer) : Viewer :=
  {| world := world v; current_image := current_image v; frame_count := frame_count v;
     fps_var := fps_var v; scale_var := scale_var v; label_image := label_image v;
     status_text := status_text v; timer := timer v; in_mainloop := b;
     thread := thread v |}.

(** [self.streaming], read from either closure. *)
Definition active (v : Viewer) : bool := streaming (self (world v)).

(** [float(var.get()) if var.get().replace('.', '').isdigit() else default] *)
Definition control_value (text : string) (default : Float.float) : Exn + Float.float :=
  if Py.isdigit (Py.replace text "." "") then py_float text else inr default.

Definition DEFAULT_FPS : Float.float := Float.of_int 10.
Definition DEFAULT_SCALE : Float.float := Float.half.

(** [except Exception as e:] of [capture_frames]: log, clear the flag, end
    the thread.  What is no [Exception] leaves the thread uncaught. *)
Definition capture_failed (e : Exn) (v : Viewer) : Viewer :=
  if is_Exception e
  then
    let w := emit (Print ("Error in capture thread: " ++ str_of_exn e)) (world v) in
    set_thread Finished (set_world (with_self (set_streaming false) w) v)
  else set_thread (Died e) v.

(** The size the viewer asks [resize] for. *)
Definition scaled_size (img : Image) (current_scale : Float.float) : Exn + Z * Z :=
  match py_int (Float.mul (Float.of_int (width img)) current_scale) with
  | inl e => inl e
  | inr new_width =>
      match py_int (Float.mul (Float.of_int (height img)) current_scale) with
      | inl e => inl e
      | inr new_height => inr (new_width, new_height)
      end
  end.

(** The body of the inner [try], up to the image that is published. *)
Definition process_image (raw_data : string) (current_scale : Float.float) : Exn + Image :=
  match Image_open pil raw_data with
  | inl msg => inl (ImageError msg)
  | inr img =>
      if negb (Float.eqb current_scale Float.one)
      then match scaled_size img current_scale with
           | inl e => inl e
           | inr size =>
               match Image_resize pil img size with
               | inl msg => inl (ImageError msg)
               | inr img' => inr img'
               end
           end
      else inr img
  end.

(** One step of the capture thread. *)
Definition capture_step (v : Viewer) : Viewer :=
  match thread v with
  | AtWhile =>
      if active v then set_thread AtControls v else set_thread Finished v
  | AtControls =>
      match control_value (fps_var v) DEFAULT_FPS with
      | inl e => capture_failed e v
      | inr current_fps =>
          match control_value (scale_var v) DEFAULT_SCALE with
          | inl e => capture_failed e v
          | inr current_scale => set_thread (AtScreencap current_fps current_scale) v
          end
      end
  | AtScreencap current_fps current_scale =>
      match subprocess_run ["adb"; "shell"; "screencap"; "-p"] false (world v) with
      | (Val result, w) =>
          if Z.eqb (returncode result) 0
          then set_thread (AtDecode current_fps current_scale result) (set_world w v)
          else set_thread (AtSleep current_fps) (set_world w v)
      | (Exc e, w) => capture_failed e (set_world w v)
      | (OutOfFuel, w) => set_world w v
      end
  | AtDecode current_fps current_scale result =>
      let raw_data := Py.replace (stdout result) (Py.CR ++ Py.LF) Py.LF in
      match process_image raw_data current_scale with
      | inr img => set_thread (AtStore current_fps img) v
      | inl e =>
          set_thread (AtSleep current_fps)
            (set_world (emit (Print ("Error processing image: " ++ str_of_exn e)) (world v)) v)
      end
  | AtStore current_fps img =>
      set_thread (AtCount current_fps) (set_current_image (Some img) v)
  | AtCount current_fps =>
      set_thread (AtSleep current_fps) (set_frame_count (frame_count v + 1) v)
  | AtSleep current_fps =>
      match (d <- lift (py_truediv Float.one current_fps) ;; time_sleep false d) (world v) with
      | (Val _, w) => set_thread AtWhile (set_world w v)
      | (Exc e, w) => capture_failed e (set_world w v)
      | (OutOfFuel, w) => set_world w v
      end
  | Finished => v
  | Died _ => v
  end.

(** [update_display], one tick of the preview. *)
Definition update_display (v : Viewer) : Viewer :=
  let v1 :=
    match current_image v with
    | Some img =>
        if active v
        then match PhotoImage pil img with
             | inr _ =>
                 let timestamp := strftime host (trace (world v)) "%H:%M:%S" in
                 set_label (Some img)
                   ("Frame " ++ Py.str_of_int (frame_count v) ++ " - " ++ timestamp
                      ++ " - " ++ Py.str_of_int (width img) ++ "x"
                      ++ Py.str_of_int (height img)) v
             | inl msg => set_label (label_image v) ("Display error: " ++ msg) v
             end
        else v
    | None => v
    end in
  if active v1 then set_timer (Some 50) v1 else v1.

(** What can happen next while the window is up. *)
Inductive Action : Type :=
| Capture                      (* the capture thread takes a step *)
| Tick                         (* the pending timer fires *)
| ClickStop                    (* the Stop button: [stop_viewing] *)
| TypeFps (text : string)      (* the user edits the FPS entry *)
| TypeScale (text : string)    (* the user edits the Scale entry *)
| CloseWindow                  (* the window is closed *)
| CtrlC.                       (* KeyboardInterrupt in [mainloop] *)

(** The event loop does something only while [mainloop] runs; the
    daemon thread steps whenever it is scheduled. *)
Definition act (a : Action) (v : Viewer) : Viewer :=
  match a with
  | Capture => capture_step v
  | _ =>
      if in_mainloop v
      then match a with
           | Tick =>
               match timer v with
               | Some _ => update_display (set_timer None v)
               | None => v
               end
           | ClickStop =>
               set_in_mainloop false (set_world (with_self (set_streaming false) (world v)) v)
           | TypeFps text => set_controls text (scale_var v) v
           | TypeScale text => set_controls (fps_var v) text v
           | CloseWindow | CtrlC => set_in_mainloop false v
           | Capture => v
           end
      else v
  end.

Definition run_actions (l : list Action) (v : Viewer) : Viewer :=
  fold_left (fun v a => act a v) l v.

(** [root.mainloop()]: the actions up to the one that ends the loop.  The
    schedule may end with the window still up: [in_mainloop] tells. *)
Fixpoint mainloop (sched : list Action) (v : Viewer) : Viewer :=
  if in_mainloop v
  then match sched with
       | [] => v
       | a :: rest => mainloop rest (act a v)
       end
  else v.

(** The window as [view_screen_realtime] sets it up, the thread started
    and the first tick scheduled.  [fps] and [scale] are the texts
    [str(fps)] and [str(scale)] of the arguments. *)
Definition open_viewer (fps scale : string) (w : World) : Viewer :=
  {| world := w; current_image := None; frame_count := 0;
     fps_var := fps; scale_var := scale; label_image := None;
     status_text := "Initializing..."; timer := Some 100; in_mainloop := true;
     thread := AtWhile |}.

(** The result, the world at the return, and the window (with the daemon
    thread, which may still be running) when one was opened. *)
Definition view_screen_realtime (fps scale : string) (sched : list Action) (w : World)
  : Res bool * World * option Viewer :=
  if negb (GUI_AVAILABLE host)
  then
    let w1 := emit (Print "Real-time viewer not available. Please install required packages:") w in
    (Val false, emit (Print "pip install pillow") w1, None)
  else if negb (connected (self w))
  then (Val false, emit (Print "Device not connected") w, None)
  else
    let w1 := with_self (set_streaming true) w in
    let w2 := emit (Print ("Starting real-time viewer at " ++ fps ++ " FPS, scale " ++ scale)) w1 in
    let w3 := emit (Print "Close the window or click 'Stop' to exit") w2 in
    let v := mainloop sched (open_viewer fps scale w3) in
    if in_mainloop v then (OutOfFuel, world v, Some v)
    else
      let w4 := emit (Print "Real-time viewer stopped")
                     (with_self (set_streaming false) (world v)) in
      (Val true, w4, Some (set_world w4 v)).

(** [n] steps of the capture thread in a row. *)
Fixpoint capture_steps (n : nat) (v : Viewer) : Viewer :=
  match n with
  | O => v
  | S n' => capture_steps n' (capture_step v)
  end.

(** The thread has left [capture_frames]. *)
Definition ended (t : Thread) : bool :=
  match t with Finished | Died _ => true | _ => false end.

(** With the flag cleared: how many steps the thread is from its end at
    most, and how many frames it can still publish on the way (the one
    of the cycle in progress, when the cycle has not passed that point). *)
Definition steps_left (t : Thread) : nat :=
  match t with
  | AtControls => 7
  | AtScreencap _ _ => 6
  | AtDecode _ _ _ => 5
  | AtStore _ _ => 4
  | AtCount _ => 3
  | AtSleep _ => 2
  | AtWhile => 1
  | Finished | Died _ => 0
  end.

Definition stores_left (t : Thread) : nat :=
  match t with
  | AtControls | AtScreencap _ _ | AtDecode _ _ _ | AtStore _ _ => 1
  | _ => 0
  end.

Definition counts_left (t : Thread) : Z :=
  match t with
  | AtControls | AtScreencap _ _ | AtDecode _ _ _ | AtStore _ _ | AtCount _ => 1
  | _ => 0
  end.

(** [time.sleep(d)] takes [d]. *)
Definition can_sleep (d : Float.float) : bool :=
  andb (negb (Float.is_nan d))
       (andb (negb (Float.ltb d (Float.of_int 0))) (sleep_fits d)).

(** The next step of the thread raises [e] outside the inner [try]:
    reading a control, running the bridge, or computing and taking the
    wait. *)
Inductive step_raises (v : Viewer) (e : Exn) : Prop :=
| raises_fps :
    thread v = AtControls ->
    control_value (fps_var v) DEFAULT_FPS = inl e ->
    step_raises v e
| raises_scale (current_fps : Float.float) :
    thread v = AtControls ->
    control_value (fps_var v) DEFAULT_FPS = inr current_fps ->
    control_value (scale_var v) DEFAULT_SCALE = inl e ->
    step_raises v e
| raises_bridge (current_fps current_scale : Float.float) :
    thread v = AtScreencap current_fps current_scale ->
    adb host (trace (world v)) ["adb"; "shell"; "screencap"; "-p"] = Raised e ->
    step_raises v e
| raises_division (current_fps : Float.float) :
    thread v = AtSleep current_fps ->
    py_truediv Float.one current_fps = inl e ->
    step_raises v e
| raises_sleep (current_fps d : Float.float) (w : World) :
    thread v = AtSleep current_fps ->
    py_truediv Float.one current_fps = inr d ->
    time_sleep false d (world v) = (Exc e, w) ->
    step_raises v e.

Definition count_captures (l : list Action) : nat :=
  List.length (filter (fun a => match a with Capture => true | _ => false end) l).

(** *** Vocabulary of the statements below *)

(** The wait between two enumerations. *)
Definition FIVE : Float.float := Float.of_int 5.


(** The lines the two handlers of [capture_frames] print. *)
Definition CAPTURE_ERROR (e : Exn) : Event :=
  Print ("Error in capture thread: " ++ str_of_exn e).

Definition IMAGE_ERROR (e : Exn) : Event :=
  Print ("Error processing image: " ++ str_of_exn e).

(** The state the outer handler of [capture_frames] leaves: flag
    cleared, thread ended for good, nothing published, the error logged
    after the events [ran] of the failing step. *)
Definition stopped_by (e : Exn) (ran : list Event) (v v' : Viewer) : Prop :=
  active v' = false
  /\ thread v' = Finished
  /\ (forall n, capture_steps n v' = v')
  /\ frame_count v' = frame_count v
  /\ current_image v' = current_image v
  /\ trace (world v') = (trace (world v) ++ ran ++ [CAPTURE_ERROR e])%list.


(** The three commands of a screenshot. *)
Definition SHOT : list string := ["adb"; "shell"; "screencap"; "-p"; REMOTE_SHOT].
Definition PULL (full_path : string) : list string := ["adb"; "pull"; REMOTE_SHOT; full_path].
Definition RM : list string := ["adb"; "shell"; "rm"; REMOTE_SHOT].

Definition VERSION : list string := ["adb"; "version"].
Definition SCREENCAP : list string := ["adb"; "shell"; "screencap"; "-p"].

(** The trace once [take_screenshot] has announced itself. *)
Definition started (w : World) : list Event :=
  (trace w ++ [Print "Taking screenshot..."])%list.

(** The file [take_screenshot] is going to write, from the name it is
    given and the clock. *)
Definition planned_path (filename : option string) (w : World) : string :=
  match output_name "quest_screenshot" ".png" filename w with
  | (Val name, _) => Py.path_join (output_folder (self w)) name
  | _ => EmptyString
  end.

End Methods.

(** A run that changed nothing but the terminal: the object is as it was,
    no command went to the bridge, no file was written. *)
Definition untouched (w w' : World) : Prop :=
  self w' = self w
  /\ commands (trace w') = commands (trace w)
  /\ files_written (trace w') = files_written (trace w).






(** *** The commands of the other operations *)

Definition CONNECT (target : string) : list string := ["adb"; "connect"; target].
Definition DISCONNECT (target : string) : list string := ["adb"; "disconnect"; target].

Definition GET_MODEL : list string := ["adb"; "shell"; "getprop"; "ro.product.model"].
Definition GET_RELEASE : list string :=
  ["adb"; "shell"; "getprop"; "ro.build.version.release"].
Definition WM_SIZE : list string := ["adb"; "shell"; "wm"; "size"].

(** The three commands of a recording. *)
Definition SCREENRECORD (duration : Z) : list string :=
  ["adb"; "shell"; "screenrecord"; "--time-limit=" ++ Py.str_of_int duration; REMOTE_REC].
Definition PULL_REC (full_path : string) : list string :=
  ["adb"; "pull"; REMOTE_REC; full_path].
Definition RM_REC : list string := ["adb"; "shell"; "rm"; REMOTE_REC].

(** The file [start_screen_recording] is going to write. *)
Definition planned_recording (host : Host) (filename : option string) (w : World) : string :=
  match output_name host "quest_recording" ".mp4" filename w with
  | (Val name, _) => Py.path_join (output_folder (self w)) name
  | _ => EmptyString
  end.

(** The trace once [start_screen_recording] has announced itself. *)
Definition recording (duration : Z) (w : World) : list Event :=
  (trace w ++ [Print ("Starting screen recording for " ++ Py.str_of_int duration
                        ++ " seconds...")])%list.

(** The commands of one frame of the live stream, and the file the frame
    is pulled to. *)
Definition CAP_FRAME : list string := ["adb"; "shell"; "screencap"; "-p"; REMOTE_FRAME].
Definition PULL_FRAME (full_path : string) : list string :=
  ["adb"; "pull"; REMOTE_FRAME; full_path].
Definition RM_FRAME : list string := ["adb"; "shell"; "rm"; REMOTE_FRAME].

Definition frame_path (q : QuestADBCapture) (frame_count : Z) : string :=
  Py.path_join (output_folder q) ("frame_" ++ Py.zfill 6 frame_count ++ ".png").

(** The files and the commands of the frames [n], [n + 1], ... of [k]
    cycles in a row. *)
Definition frames_from (q : QuestADBCapture) (n : Z) (k : nat) : list string :=
  map (fun i => frame_path q (n + Z.of_nat i)) (seq 0 k).

Definition frame_commands (q : QuestADBCapture) (n : Z) (k : nat) : list (list string) :=
  flat_map (fun i => [CAP_FRAME; PULL_FRAME (frame_path q (n + Z.of_nat i))]) (seq 0 k).

(** The waits a trace has taken (or begun). *)
Fixpoint sleeps (t : list Event) : nat :=
  match t with
  | [] => O
  | Sleep _ :: r => S (sleeps r)
  | _ :: r => sleeps r
  end.

(** The line [start_live_stream] prints when Ctrl+C arrives. *)
Definition STOPPING : string := Py.LF ++ "Stopping live stream...".

(** The events of a cycle of the live stream whose two commands pass,
    with the wait [d] at its end. *)
Definition cycle_events (host : Host) (d : Float.float) (q : QuestADBCapture) (n : Z)
           (t : list Event) (o1 o2 : string) (m1 m2 : N) : list Event :=
  [Run CAP_FRAME (Completed 0 o1 m1);
   Run (PULL_FRAME (frame_path q n)) (Completed 0 o2 m2);
   Print ("Frame " ++ Py.str_of_int n ++ " captured at " ++ strftime host t "%H:%M:%S");
   Sleep d].

(** An event of the viewer: its only command is [screencap -p], whose
    output stays in memory. *)
Definition reads_screen (e : Event) : Prop :=
  match e with
  | Run argv _ => argv = SCREENCAP
  | _ => True
  end.

(** The actions that end [root.mainloop()]. *)
Definition ends_mainloop (a : Action) : bool :=
  match a with
  | ClickStop | CloseWindow | CtrlC => true
  | _ => false
  end.

(** The two bytes a terminal writes for a line feed. *)
Definition CRLF : string := Py.CR ++ Py.LF.

(** The eight bytes every PNG file starts with: 137 P N G 13 10 26 10. *)
Definition PNG_SIGNATURE : string :=
  String (ascii_of_nat 137) ("PNG" ++ Py.CR ++ Py.LF ++ String (ascii_of_nat 26) Py.LF).

(** A line of [adb devices]: serial number, tab, state. *)
Definition device_line (entry : string * string) : string :=
  fst entry ++ Py.TAB ++ snd entry.


(** A store whose count is the next step of the thread. *)
Definition uncounted (t : Thread) : Z :=
  match t with AtCount _ => 1 | _ => 0 end.

(** The frames published over a schedule: the steps of the capture
    thread that execute [current_image[0] = img]. *)
Fixpoint published (host : Host) (pil : Pillow) (l : list Action) (v : Viewer) : Z :=
  match l with
  | [] => 0
  | a :: rest =>
      match a, thread v with
      | Capture, AtStore _ _ => 1
      | _, _ => 0
      end + published host pil rest (act host pil a v)
  end.

(** [get_device_info] ends in its handler: after the events [sent] it
    prints the error and returns [None], the object as it was. *)
Definition gives_up (host : Host) (w : World) (e : Exn) (sent : list Event) : Prop :=
  get_device_info host w
  = (Val None,
     {| self := self w;
        trace := (trace w ++ sent ++ [Print ("Error getting device info: " ++ str_of_exn e)])%list |}).

(** ** The program as it starts: [__init__], [setup_output_folder], [main] *)

(** Exceptions that only the top level of the program sees. *)
Inductive Uncaught : Type :=
| UnboundLocalError (name : string)   (* a local variable read before it is bound *)
| EOFError                            (* [input()] at the end of the input *)
| Escaped (e : Exn).                  (* an exception of the methods, not handled *)

(** What the program does to the file system. *)
Inductive FsOp : Type :=
| Makedirs (path : string)
| Wrote (path text : string)
| Removed (path : string).

(** The module [os], as far as the program uses it.  An operation on the
    file system answers from the operations done so far: [Some what]
    when it raises an [OSError] (or a subclass) with that text. *)
Record Os : Type := {
  path_join : string -> string -> string;
  path_expanduser : string -> string;
  makedirs : list FsOp -> string -> option string;
  remove : list FsOp -> string -> option string
}.

(** The machine the program runs on. *)
Record Machine : Type := {
  (** [platform.system()] *)
  platform_system : string;
  (** what [import os] binds *)
  os_module : Os;
  (** [with open(path, 'w') as f: f.write(text)] *)
  open_write : list FsOp -> string -> string -> option string;
  (** [str(x)] for a [float] *)
  float_repr : Float.float -> string;
  (** [sys.get_int_max_str_digits()]; [0] for no limit *)
  int_max_str_digits : nat
}.

(** The terminal and the disk, outside the object: the trace on the
    screen, the lines of the standard input not read yet, the prompts
    [input] has shown, and the file operations done. *)
Record Process : Type := {
  screen : list Event;
  typed : list string;
  asked : list string;
  disk : list FsOp
}.

Inductive Ended (A : Type) : Type :=
| Returned (a : A)
| Crashed (e : Uncaught)
| Unfinished.
Arguments Returned {A} a.
Arguments Crashed {A} e.
Arguments Unfinished {A}.

(** The monad of the top level. *)
Definition Proc (A : Type) : Type := Process -> Ended A * Process.

Definition yield {A} (a : A) : Proc A := fun s => (Returned a, s).

Definition andthen {A B} (c : Proc A) (k : A -> Proc B) : Proc B :=
  fun s =>
    match c s with
    | (Returned a, s') => k a s'
    | (Crashed e, s') => (Crashed e, s')
    | (Unfinished, s') => (Unfinished, s')
    end.

Definition crash {A} (e : Uncaught) : Proc A := fun s => (Crashed e, s).

Definition unfinished {A} : Proc A := fun s => (Unfinished, s).

Declare Scope top_scope.
Delimit Scope top_scope with top.
Notation "x <- c ;; k" := (andthen c (fun x => k))
  (at level 61, c at next level, right associativity) : top_scope.
Notation "c ;;; k" := (andthen c (fun _ => k))
  (at level 61, right associativity) : top_scope.

(** [try: c  except <class>: h] *)
Definition attempt {A} (c : Proc A) (caught : Uncaught -> bool) (h : Proc A) : Proc A :=
  fun s =>
    match c s with
    | (Crashed e, s') => if caught e then h s' else (Crashed e, s')
    | r => r
    end.

(** [except (PermissionError, OSError)]: [OSError] and its subclasses. *)
Definition is_OSError (e : Uncaught) : bool :=
  match e with
  | Escaped (OSError _) | Escaped (FileNotFoundError _) => true
  | _ => false
  end.

(** [print(line)] at the top level. *)
Definition say (line : string) : Proc unit :=
  fun s => (Returned tt,
            {| screen := screen s ++ [Print line]; typed := typed s;
               asked := asked s; disk := disk s |}).

(** [input(prompt)]: the next line typed, or [EOFError] at the end of the
    input.  An interrupt at the prompt is not modelled. *)
Definition input (prompt : string) : Proc string :=
  fun s =>
    match typed s with
    | [] => (Crashed EOFError,
             {| screen := screen s; typed := []; asked := asked s ++ [prompt];
                disk := disk s |})
    | line :: rest =>
        (Returned line,
         {| screen := screen s; typed := rest; asked := asked s ++ [prompt];
            disk := disk s |})
    end.

(** Reading a local variable of a function.  A name that the body of a
    function binds anywhere (by an assignment or an [import]) is local
    to the whole body; it has no value until the binding statement has
    run, and the module-level variable of the same name is not seen. *)
Definition load {A} (name : string) (local : option A) : Proc A :=
  match local with
  | Some a => yield a
  | None => crash (UnboundLocalError name)
  end.

(** An operation on the file system. *)
Definition fs (op : FsOp) (answer : list FsOp -> option string) : Proc unit :=
  fun s =>
    match answer (disk s) with
    | Some what => (Crashed (Escaped (OSError what)), s)
    | None => (Returned tt,
               {| screen := screen s; typed := typed s; asked := asked s;
                  disk := disk s ++ [op] |})
    end.

(** A method called on the object [capture]: it runs on the screen of
    the process and leaves the object as it has made it. *)
Definition call {A} (method : M A) (capture : QuestADBCapture)
  : Proc (A * QuestADBCapture) :=
  fun s =>
    let back t := {| screen := t; typed := typed s; asked := asked s; disk := disk s |} in
    match method {| self := capture; trace := screen s |} with
    | (Val a, w) => (Returned (a, self w), back (trace w))
    | (Exc e, w) => (Crashed (Escaped e), back (trace w))
    | (OutOfFuel, w) => (Unfinished, back (trace w))
    end.

Definition lift_exn {A} (r : Exn + A) : Proc A :=
  match r with inl e => crash (Escaped e) | inr a => yield a end.

Section Startup.

Local Open Scope top_scope.

Variable m : Machine.

Definition PROGRAM_FILES : string := "C:\Program Files\Quest Screen Capture".

(** [setup_output_folder].  The [import os] of its handler makes [os] a
    local variable of the function: [os] is bound after that statement
    only. *)
Definition setup_output_folder : Proc string :=
  let os : option Os := None in
  let system := Py.lower (platform_system m) in
  if String.eqb system "windows"
  then
    attempt
      (let base_path := PROGRAM_FILES in
       os1 <- load "os" os ;;
       fs (Makedirs base_path) (fun d => makedirs os1 d base_path) ;;;
       os2 <- load "os" os ;;
       let test_file := path_join os2 base_path "test_write.tmp" in
       fs (Wrote test_file "test") (fun d => open_write m d test_file "test") ;;;
       os3 <- load "os" os ;;
       fs (Removed test_file) (fun d => remove os3 d test_file) ;;;
       say ("Output folder: " ++ base_path) ;;;
       yield base_path)
      is_OSError
      (let os := Some (os_module m) in
       os1 <- load "os" os ;;
       os2 <- load "os" os ;;
       let fallback_path :=
         path_join os1 (path_join os1 (path_expanduser os2 "~") "Documents")
                   "Quest Screen Capture" in
       os3 <- load "os" os ;;
       fs (Makedirs fallback_path) (fun d => makedirs os3 d fallback_path) ;;;
       say ("No permission for Program Files. Using: " ++ fallback_path) ;;;
       yield fallback_path)
  else if String.eqb system "darwin"
  then
    os1 <- load "os" os ;;
    os2 <- load "os" os ;;
    let base_path := path_join os1 (path_expanduser os2 "~") "Quest Screen Capture" in
    os3 <- load "os" os ;;
    fs (Makedirs base_path) (fun d => makedirs os3 d base_path) ;;;
    say ("Output folder: " ++ base_path) ;;;
    yield base_path
  else
    os1 <- load "os" os ;;
    os2 <- load "os" os ;;
    let base_path := path_join os1 (path_expanduser os2 "~") "Quest Screen Capture" in
    os3 <- load "os" os ;;
    fs (Makedirs base_path) (fun d => makedirs os3 d base_path) ;;;
    say ("Output folder: " ++ base_path) ;;;
    yield base_path.

(** [QuestADBCapture(device_ip, adb_port)] *)
Definition __init__ (device_ip : option string) (adb_port : Z) : Proc QuestADBCapture :=
  folder <- setup_output_folder ;;
  yield {| device_ip := device_ip; adb_port := adb_port; connected := false;
          streaming := false; output_folder := folder |}.

Variable host : Host.
Variable pil : Pillow.

(** How long a live stream started from the menu is followed, and what
    happens while a viewer opened from the menu is up. *)
Variable stream_fuel : nat.
Variable gui_user : list Event -> list Action.

(** [int(text)] for a text of digits. *)
Definition int_of_digits (text : string) : Exn + Z :=
  let limit := int_max_str_digits m in
  if andb (negb (Nat.eqb limit 0)) (Nat.ltb limit (String.length text))
  then inl (ValueError
              ("Exceeds the limit (" ++ Py.str_of_int (Z.of_nat limit)
                 ++ " digits) for integer string conversion: value has "
                 ++ Py.str_of_int (Z.of_nat (String.length text))
                 ++ " digits; use sys.set_int_max_str_digits() to increase the limit"))
  else inr (digits_value 0 text).

(** [int(text) if text.isdigit() else default] *)
Definition int_or (text : string) (default : Z) : Proc Z :=
  if Py.isdigit text then lift_exn (int_of_digits text) else yield default.

(** [filename = input(...).strip()], then [if not filename: filename = None] *)
Definition ask_filename : Proc (option string) :=
  filename <- input "Enter filename (or press Enter for auto): " ;;
  let filename := Py.strip filename in
  yield (if Py.truthy filename then Some filename else None).

(** [capture.view_screen_realtime(fps, scale)] from the menu.  What the
    capture thread still does once the call has returned is not
    followed. *)
Definition view (fps : Z) (scale : Float.float) (capture : QuestADBCapture)
  : Proc (bool * QuestADBCapture) :=
  fun s =>
    let back t := {| screen := t; typed := typed s; asked := asked s; disk := disk s |} in
    match view_screen_realtime host pil (Py.str_of_int fps) (float_repr m scale)
            (gui_user (screen s)) {| self := capture; trace := screen s |} with
    | (Val b, w, _) => (Returned (b, self w), back (trace w))
    | (Exc e, w, _) => (Crashed (Escaped e), back (trace w))
    | (OutOfFuel, w, _) => (Unfinished, back (trace w))
    end.

Definition OPTIONS : list string :=
  [Py.LF ++ "Options:";
   "1. Take screenshot";
   "2. Record screen (30 seconds)";
   "3. Start live stream (save frames)";
   "4. View screen in real-time";
   "5. Get device info";
   "6. Disconnect and exit"].

Fixpoint say_all (lines : list string) : Proc unit :=
  match lines with
  | [] => yield tt
  | l :: rest => say l ;;; say_all rest
  end.

(** The [while True:] of [main]; [fuel] bounds the number of rounds. *)
Fixpoint menu (fuel : nat) (capture : QuestADBCapture) : Proc unit :=
  match fuel with
  | O => unfinished
  | S fuel' =>
      say_all OPTIONS ;;;
      choice <- input "Enter your choice (1-6): " ;;
      let choice := Py.strip choice in
      if String.eqb choice "1" then
        filename <- ask_filename ;;
        r <- call (take_screenshot host filename) capture ;;
        menu fuel' (snd r)
      else if String.eqb choice "2" then
        filename <- ask_filename ;;
        duration <- input "Enter duration in seconds (default 30): " ;;
        duration <- int_or (Py.strip duration) 30 ;;
        r <- call (start_screen_recording host filename duration) capture ;;
        menu fuel' (snd r)
      else if String.eqb choice "3" then
        fps <- input "Enter FPS (default 10): " ;;
        fps <- int_or (Py.strip fps) 10 ;;
        r <- call (start_live_stream host stream_fuel fps) capture ;;
        menu fuel' (snd r)
      else if String.eqb choice "4" then
        if negb (GUI_AVAILABLE host)
        then
          say "Real-time viewer not available. Please install: pip install pillow" ;;;
          menu fuel' capture
        else
          fps <- input "Enter FPS (default 10): " ;;
          fps <- int_or (Py.strip fps) 10 ;;
          scale <- input "Enter scale factor (default 0.5): " ;;
          scale <- lift_exn (control_value (Py.strip scale) DEFAULT_SCALE) ;;
          r <- view fps scale capture ;;
          menu fuel' (snd r)
      else if String.eqb choice "5" then
        r <- call (get_device_info host) capture ;;
        menu fuel' (snd r)
      else if String.eqb choice "6" then
        r <- call (disconnect host) capture ;;
        yield tt
      else
        say "Invalid choice. Please enter 1-6." ;;;
        menu fuel' capture
  end.

Definition main (fuel : nat) : Proc unit :=
  say "Oculus Quest ADB Screen Capture Tool" ;;;
  say "=====================================" ;;;
  connection_type <- input "Connect via (1) USB or (2) WiFi? Enter 1 or 2: " ;;
  let connection_type := Py.strip connection_type in
  capture <- (if String.eqb connection_type "2"
              then
                device_ip <- input "Enter Quest IP address: " ;;
                __init__ (Some (Py.strip device_ip)) 5555
              else __init__ None 5555) ;;
  r <- call (connect_device host) capture ;;
  if negb (fst r)
  then say "Failed to connect to device"
  else
    r <- call (get_device_info host) (snd r) ;;
    let capture := snd r in
    say (Py.LF ++ "All captures will be saved to: " ++ output_folder capture) ;;;
    menu fuel capture.

(** The choices of the menu. *)
Definition CHOICES : list string := ["1"; "2"; "3"; "4"; "5"; "6"].

End Startup.

(** ** Concrete environments

    Hosts and a Pillow small enough to run the model on. *)

Module Lab.

(** A host that answers the n-th command of a run with the n-th reply of
    a script, and with a plain success once the script is used up. *)
Definition scripted (replies : list Reply) (gui : bool) : Host :=
  {| adb := fun t _ => nth (List.length (commands t)) replies (Completed 0 EmptyString 0);
     strftime := fun _ fmt =>
                   if String.eqb fmt "%H:%M:%S" then "12:00:00" else "20250101_120000";
     ctrl_c := fun _ => false;
     GUI_AVAILABLE := gui |}.

(** The same, with Ctrl+C pressed during every wait. *)
Definition impatient (replies : list Reply) : Host :=
  {| adb := adb (scripted replies true);
     strftime := strftime (scripted replies true);
     ctrl_c := fun _ => true;
     GUI_AVAILABLE := true |}.

(** A toy image format: the text [WxH:] followed by the pixels. *)
Definition toy_open (data : string) : string + Image :=
  let head := before_point (Py.replace data ":" ".") in
  match Py.split "x" head with
  | [w; h] =>
      if andb (Py.isdigit w) (Py.isdigit h)
      then inr {| width := digits_value 0 w; height := digits_value 0 h;
                  pixels := data |}
      else inl "cannot identify image file"
  | _ => inl "cannot identify image file"
  end.

Definition toy_resize (img : Image) (size : Z * Z) : string + Image :=
  if orb (Z.ltb (fst size) 1) (Z.ltb (snd size) 1)
  then inl "height and width must be > 0"
  else inr {| width := fst size; height := snd size; pixels := pixels img |}.

(** Nothing is an image of no bytes: [toy_open ""] is an error. *)
Definition toy_open_empty : forall img, toy_open EmptyString <> inr img :=
  fun img H =>
    eq_ind (toy_open EmptyString)
           (fun r => match r with inl _ => True | inr _ => False end)
           I (inr img) H.

(** A resized toy image has the size asked for. *)
Definition toy_resize_size :
  forall img w h img',
    toy_resize img (w, h) = inr img' -> width img' = w /\ height img' = h :=
  fun img w h img' =>
    match orb (Z.ltb w 1) (Z.ltb h 1) as b
          return ((if b then inl "height and width must be > 0"
                   else inr {| width := w; height := h; pixels := pixels img |})
                  = inr img' -> width img' = w /\ height img' = h)
    with
    | true => fun H =>
        match H in (_ = r)
              return (match r with
                      | inl _ => True
                      | inr i => width i = w /\ height i = h
                      end)
        with eq_refl => I end
    | false => fun H =>
        match H in (_ = r)
              return (match r with
                      | inl _ => True
                      | inr i => width i = w /\ height i = h
                      end)
        with eq_refl => conj eq_refl eq_refl end
    end.

Definition toy : Pillow :=
  {| Image_open := toy_open;
     Image_resize := toy_resize;
     PhotoImage := fun _ => inr tt;
     open_empty := toy_open_empty;
     resize_size := toy_resize_size |}.

Definition quest (linked : bool) : QuestADBCapture :=
  {| device_ip := None; adb_port := 5555; connected := linked;
     streaming := false; output_folder := "/home/user/Quest Screen Capture" |}.

Definition fresh (linked : bool) : World := {| self := quest linked; trace := [] |}.



(** The session of the viewer, streaming, with nothing in its trace. *)
Definition streaming_world : World :=
  {| self := set_streaming true (quest true); trace := [] |}.

(** A viewer with the given controls whose capture thread stands at [at_]. *)
Definition viewer (fps scale : string) (on : bool) (at_ : Thread) : Viewer :=
  {| world := {| self := set_streaming on (quest true); trace := [] |};
     current_image := None; frame_count := 0;
     fps_var := fps; scale_var := scale; label_image := None;
     status_text := "Initializing..."; timer := Some 50; in_mainloop := true;
     thread := at_ |}.

(** The output of [screencap -p] in the toy format, and an empty one. *)
Definition capture (out : string) : CompletedProcess :=
  {| returncode := 0; stdout := out |}.

(** One capture in the toy format. *)
Definition FRAME : string := "3664x1920:pixels".

(** A scale of 310 digits, which [float] turns into infinity, and the
    viewer that starts with it. *)
Definition HUGE : string := "1" ++ Py.zeros 309.

Definition oversized : Viewer := viewer "10" HUGE true AtWhile.

(** The viewer that starts with the scale [0]. *)
Definition flattened : Viewer := viewer "10" "0" true AtWhile.

(** A headset reached over the network. *)
Definition wifi_quest (linked : bool) : QuestADBCapture :=
  {| device_ip := Some "192.168.1.20"; adb_port := 5555; connected := linked;
     streaming := false; output_folder := "/home/user/Quest Screen Capture" |}.

Definition wifi (linked : bool) : World := {| self := wifi_quest linked; trace := [] |}.

(** A bridge that always succeeds, with Ctrl+C arriving during the wait
    that follows [k] earlier ones. *)
Definition interrupted_at (k : nat) : Host :=
  {| adb := fun _ _ => Completed 0 EmptyString 0;
     strftime := strftime (scripted [] true);
     ctrl_c := fun t => Nat.eqb (sleeps t) k;
     GUI_AVAILABLE := true |}.

(** A bridge whose commands exit with [rc] once [k] waits have been
    taken. *)
Definition failing_at (k : nat) (rc : Z) : Host :=
  {| adb := fun t _ => if Nat.eqb (sleeps t) k
                       then Completed rc EmptyString 0
                       else Completed 0 EmptyString 0;
     strftime := strftime (scripted [] true);
     ctrl_c := fun _ => false;
     GUI_AVAILABLE := true |}.

(** A listing of [adb devices] with one headset ready and one not yet
    authorised. *)
Definition TWO_LISTED : string :=
  "List of devices attached" ++ Py.LF ++ "1WMHH1234" ++ Py.TAB ++ "device" ++ Py.LF
    ++ "2G0YC5678" ++ Py.TAB ++ "unauthorized" ++ Py.LF ++ Py.LF.

(** A Linux machine with a disk that takes everything, and a terminal
    on which the given lines are typed. *)
Definition posix : Os :=
  {| path_join := Py.path_join;
     path_expanduser := fun p => if String.eqb p "~" then "/home/user" else p;
     makedirs := fun _ _ => None;
     remove := fun _ _ => None |}.

Definition linux : Machine :=
  {| platform_system := "Linux";
     os_module := posix;
     open_write := fun _ _ _ => None;
     float_repr := fun _ => "0.5";
     int_max_str_digits := 4300 |}.

Definition console (lines : list string) : Process :=
  {| screen := []; typed := lines; asked := []; disk := [] |}.

End Lab.

(** * Properties *)

(** ** Facts about strings *)

Section StringFacts.

Lemma length_app (s t : string) :
  String.length (s ++ t) = (String.length s + String.length t)%nat.
Proof. induction s as [|c s IH]; cbn; [reflexivity | now rewrite IH]. Qed.

Lemma app_assoc_str (a b c : string) : (a ++ b) ++ c = a ++ (b ++ c).
Proof. induction a as [|x a IH]; cbn; [reflexivity | now rewrite IH]. Qed.

Lemma substring_whole (s : string) : substring 0 (String.length s) s = s.
Proof. induction s as [|c s IH]; cbn; [reflexivity | now rewrite IH]. Qed.

Lemma substring_skip (a s : string) (k : nat) :
  substring (String.length a) k (a ++ s) = substring 0 k s.
Proof. induction a as [|c a IH]; cbn; [reflexivity | exact IH]. Qed.

(** A string is its first [i] characters followed by the rest. *)
Lemma substring_split (s : string) :
  forall i, (i <= String.length s)%nat ->
            s = substring 0 i s ++ substring i (String.length s - i) s.
Proof.
  induction s as [|c s IH]; intros i Hi.
  - cbn in Hi. assert (i = O) by lia. subst i. reflexivity.
  - destruct i as [|i].
    + rewrite Nat.sub_0_r, substring_whole. reflexivity.
    + cbn in Hi. cbn [substring String.length Nat.sub append].
      f_equal. apply IH. lia.
Qed.

Lemma endswith_app (a p : string) : Py.endswith (a ++ p) p = true.
Proof.
  unfold Py.endswith. rewrite length_app.
  replace (String.length a + String.length p - String.length p)%nat
    with (String.length a) by lia.
  rewrite substring_skip, substring_whole, String.eqb_refl.
  rewrite andb_true_r. apply Nat.leb_le. lia.
Qed.

Lemma endswith_inv (s p : string) :
  Py.endswith s p = true -> exists a, s = a ++ p.
Proof.
  unfold Py.endswith. intros H. apply andb_true_iff in H. destruct H as [Hk He].
  apply Nat.leb_le in Hk. apply String.eqb_eq in He.
  exists (substring 0 (String.length s - String.length p) s).
  remember (String.length s - String.length p)%nat as i eqn:Hi.
  assert (Hp : String.length p = (String.length s - i)%nat) by lia.
  rewrite Hp in He. rewrite <- He.
  apply substring_split. lia.
Qed.

Lemma endswith_app_l (a s p : string) :
  Py.endswith s p = true -> Py.endswith (a ++ s) p = true.
Proof.
  intros H. destruct (endswith_inv _ _ H) as [b ->].
  rewrite <- app_assoc_str. apply endswith_app.
Qed.

Lemma lower_app (a b : string) : Py.lower (a ++ b) = Py.lower a ++ Py.lower b.
Proof. induction a as [|c a IH]; cbn; [reflexivity | now rewrite IH]. Qed.

(** Whatever the folder, the joined path ends with the file name. *)
Lemma path_join_suffix (a b : string) : exists d, Py.path_join a b = d ++ b.
Proof.
  unfold Py.path_join.
  destruct (Py.startswith b "/"); [exists EmptyString; reflexivity|].
  destruct (orb _ _); [exists a; reflexivity|].
  exists (a ++ "/"). now rewrite app_assoc_str.
Qed.

End StringFacts.

(** ** Facts about traces *)

Section TraceFacts.

Lemma commands_app (a b : list Event) : commands (a ++ b) = (commands a ++ commands b)%list.
Proof.
  induction a as [|e a IH]; [reflexivity|].
  destruct e; cbn; rewrite IH; reflexivity.
Qed.

Lemma printed_app (a b : list Event) : printed (a ++ b) = (printed a ++ printed b)%list.
Proof.
  induction a as [|e a IH]; [reflexivity|].
  destruct e; cbn; rewrite IH; reflexivity.
Qed.

Lemma files_written_app (a b : list Event) :
  files_written (a ++ b) = (files_written a ++ files_written b)%list.
Proof.
  induction a as [|e a IH]; [reflexivity|].
  cbn [app files_written]. destruct (pulled_to e); rewrite IH; reflexivity.
Qed.

Lemma elapsed_ms_app (a b : list Event) : elapsed_ms (a ++ b) = elapsed_ms a + elapsed_ms b.
Proof.
  induction a as [|e a IH]; [reflexivity|].
  destruct e as [argv [rc out ms|x]|d|l]; cbn [app elapsed_ms]; rewrite IH; lia.
Qed.

Lemma bridge_ms_app (a b : list Event) : bridge_ms (a ++ b) = bridge_ms a + bridge_ms b.
Proof.
  induction a as [|e a IH]; [reflexivity|].
  destruct e as [argv [rc out ms|x]|d|l]; cbn [app bridge_ms]; rewrite IH; lia.
Qed.


Lemma commands_prints (lines : list string) : commands (map Print lines) = [].
Proof. induction lines; [reflexivity | exact IHlines]. Qed.

Lemma files_written_prints (lines : list string) : files_written (map Print lines) = [].
Proof. induction lines; [reflexivity | exact IHlines]. Qed.

End TraceFacts.

Lemma untouched_prints (w : World) (lines : list string) :
  untouched w {| self := self w; trace := trace w ++ map Print lines |}.
Proof.
  unfold untouched; cbn [self trace].
  rewrite commands_app, files_written_app, commands_prints, files_written_prints,
    !app_nil_r.
  repeat split.
Qed.

(** ** The sequential operations *)

Lemma untouched_refl (w : World) : untouched w w.
Proof. repeat split. Qed.

Lemma untouched_print (w w1 : World) (l : string) :
  untouched w w1 -> untouched w (emit (Print l) w1).
Proof.
  intros (Hs & Hc & Hf). unfold untouched, emit; cbn [self trace].
  rewrite commands_app, files_written_app, app_nil_r. cbn [files_written pulled_to].
  rewrite app_nil_r. auto.
Qed.

Section MethodFacts.

Variable host : Host.
Variable pil : Pillow.

(** The name [output_name] settles on: it reads the clock at most, and
    the name ends in the extension whatever the case of the letters. *)
Lemma output_name_run (pre ext : string) (filename : option string) (w : World) :
  Py.lower ext = ext ->
  exists name,
    output_name host pre ext filename w = (Val name, w)
    /\ Py.endswith (Py.lower name) ext = true
    /\ (forall f, filename = Some f -> Py.truthy f = true ->
                  name = if Py.endswith (Py.lower f) ext then f else f ++ ext).
Proof.
  intros Hext. unfold output_name, bind, now_strftime.
  set (auto := pre ++ "_" ++ strftime host (trace w) "%Y%m%d_%H%M%S" ++ ext).
  assert (Hcase : forall n,
             exists name,
               (if negb (Py.endswith (Py.lower n) ext) then ret (n ++ ext) else ret n) w
               = (Val name, w)
               /\ Py.endswith (Py.lower name) ext = true
               /\ name = if Py.endswith (Py.lower n) ext then n else n ++ ext).
  { intros n. destruct (Py.endswith (Py.lower n) ext) eqn:E; cbn [negb].
    - exists n. auto.
    - exists (n ++ ext). repeat split.
      rewrite lower_app, Hext. apply endswith_app. }
  destruct filename as [f|]; [destruct (Py.truthy f) eqn:Ef|]; cbn [ret].
  - destruct (Hcase f) as (name & H1 & H2 & H3). exists name.
    split; [exact H1|]. split; [exact H2|].
    intros f' Hf' _. inversion Hf'; subst f'. exact H3.
  - destruct (Hcase auto) as (name & H1 & H2 & H3). exists name.
    split; [exact H1|]. split; [exact H2|].
    intros f' Hf' Ht. inversion Hf'; subst f'. congruence.
  - destruct (Hcase auto) as (name & H1 & H2 & H3). exists name.
    split; [exact H1|]. split; [exact H2|].
    intros f' Hf'. discriminate Hf'.
Qed.

Lemma take_screenshot_connected (w : World) (filename : option string) (name : string) :
  connected (self w) = true ->
  output_name host "quest_screenshot" ".png" filename w = (Val name, w) ->
  take_screenshot host filename w
  = save_screenshot host (Py.path_join (output_folder (self w)) name) w.
Proof.
  intros Hc Hn. unfold take_screenshot, bind, get_self.
  rewrite Hc. cbn [negb]. rewrite Hn. reflexivity.
Qed.

(** The screenshot command fails: the method prints, returns [False]
    and has run nothing else. *)
Lemma save_screenshot_shot_fails (w : World) (p : string) (rc : Z) (out : string) (ms : N) :
  rc <> 0 ->
  adb host (started w) SHOT = Completed rc out ms ->
  save_screenshot host p w
  = (Val PyFalse,
     {| self := self w;
        trace := (started w
                  ++ [Run SHOT (Completed rc out ms);
                      Print ("Error taking screenshot: "
                               ++ str_of_exn (CalledProcessError SHOT rc))])%list |}).
Proof.
  intros Hrc Hr. apply Z.eqb_neq in Hrc.
  unfold save_screenshot, try_except, bind, print, subprocess_run, emit, ret.
  cbn [trace self]. fold SHOT. fold (started w). rewrite Hr.
  cbn [andb negb]. rewrite Hrc. cbn [negb is_CalledProcessError trace self].
  rewrite <- app_assoc. reflexivity.
Qed.

(** The pull fails: the same, one command later. *)
Lemma save_screenshot_pull_fails (w : World) (p : string) (rc : Z) (out out0 : string)
      (ms ms0 : N) :
  rc <> 0 ->
  adb host (started w) SHOT = Completed 0 out0 ms0 ->
  adb host (started w ++ [Run SHOT (Completed 0 out0 ms0)]) (PULL p) = Completed rc out ms ->
  save_screenshot host p w
  = (Val PyFalse,
     {| self := self w;
        trace := (started w
                  ++ [Run SHOT (Completed 0 out0 ms0);
                      Run (PULL p) (Completed rc out ms);
                      Print ("Error taking screenshot: "
                               ++ str_of_exn (CalledProcessError (PULL p) rc))])%list |}).
Proof.
  intros Hrc Hr0 Hr. apply Z.eqb_neq in Hrc.
  unfold save_screenshot, try_except, bind, print, subprocess_run, emit, ret.
  cbn [trace self]. fold SHOT. fold (started w). rewrite Hr0.
  cbn [andb negb Z.eqb trace self]. fold (PULL p). rewrite Hr.
  cbn [andb negb]. rewrite Hrc. cbn [negb is_CalledProcessError trace self].
  rewrite <- !app_assoc. reflexivity.
Qed.

(** All three commands pass: the path comes back and the file is there. *)
Lemma save_screenshot_succeeds (w : World) (p : string) (o1 o2 o3 : string) (m1 m2 m3 : N) :
  adb host (started w) SHOT = Completed 0 o1 m1 ->
  adb host (started w ++ [Run SHOT (Completed 0 o1 m1)]) (PULL p) = Completed 0 o2 m2 ->
  adb host (started w ++ [Run SHOT (Completed 0 o1 m1); Run (PULL p) (Completed 0 o2 m2)]) RM
  = Completed 0 o3 m3 ->
  save_screenshot host p w
  = (Val (Path p),
     {| self := self w;
        trace := (started w
                  ++ [Run SHOT (Completed 0 o1 m1);
                      Run (PULL p) (Completed 0 o2 m2);
                      Run RM (Completed 0 o3 m3);
                      Print ("Screenshot saved as: " ++ p)])%list |}).
Proof.
  intros H1 H2 H3.
  unfold save_screenshot, try_except, bind, print, subprocess_run, emit, ret.
  cbn [trace self]. fold SHOT. fold (started w). rewrite H1.
  cbn [andb negb Z.eqb trace self]. fold (PULL p). rewrite H2.
  cbn [andb negb Z.eqb trace self]. fold RM.
  rewrite <- !app_assoc. cbn [app].
  rewrite H3. cbn [andb negb Z.eqb trace self].
  rewrite <- !app_assoc. reflexivity.
Qed.

Lemma take_screenshot_planned (w : World) (filename : option string) :
  connected (self w) = true ->
  take_screenshot host filename w = save_screenshot host (planned_path host filename w) w.
Proof.
  intros Hc.
  destruct (output_name_run "quest_screenshot" ".png" filename w eq_refl)
    as (name & Hn & _).
  unfold planned_path. rewrite Hn. now apply take_screenshot_connected.
Qed.

Lemma files_written_failed_shot (rc : Z) (out l : string) (ms : N) :
  files_written [Print "Taking screenshot..."; Run SHOT (Completed rc out ms); Print l] = [].
Proof. reflexivity. Qed.

Lemma files_written_failed_pull (p : string) (rc : Z) (out out0 l : string) (ms ms0 : N) :
  rc <> 0 ->
  files_written [Print "Taking screenshot..."; Run SHOT (Completed 0 out0 ms0);
                 Run (PULL p) (Completed rc out ms); Print l] = [].
Proof.
  intros Hrc. apply Z.eqb_neq in Hrc.
  cbn [files_written pulled_to SHOT PULL String.eqb Ascii.eqb Bool.eqb andb].
  rewrite Hrc. reflexivity.
Qed.

(** C1, as amended.  On a connected session, when the remote screenshot
    command or the local pull exits non-zero, [take_screenshot] returns
    [False], no local file has been written, and the failing command is
    the last one sent to the bridge: the removal of the remote temporary
    file is not issued. *)
Theorem screenshot_failure_skips_cleanup
        (w : World) (filename : option string) (rc : Z) (out : string) (ms : N) :
  connected (self w) = true ->
  rc <> 0 ->
  let p := planned_path host filename w in
  (adb host (started w) SHOT = Completed rc out ms
   \/ exists out0 ms0,
       adb host (started w) SHOT = Completed 0 out0 ms0
       /\ adb host (started w ++ [Run SHOT (Completed 0 out0 ms0)]) (PULL p)
          = Completed rc out ms) ->
  exists new,
    take_screenshot host filename w
    = (Val PyFalse, {| self := self w; trace := (trace w ++ new)%list |})
    /\ files_written new = []
    /\ ~ In RM (commands new)
    /\ (commands new = [SHOT] \/ commands new = [SHOT; PULL p]).
Proof.
  intros Hc Hrc p [H | (out0 & ms0 & H0 & H)].
  - rewrite (take_screenshot_planned w filename Hc). fold p.
    rewrite (save_screenshot_shot_fails w p rc out ms Hrc H).
    eexists. split.
    + unfold started. rewrite <- app_assoc. reflexivity.
    + cbn [app]. split; [apply files_written_failed_shot|].
      cbn [commands]. split; [|left; reflexivity].
      intros [E|[]]. discriminate E.
  - rewrite (take_screenshot_planned w filename Hc). fold p.
    rewrite (save_screenshot_pull_fails w p rc out out0 ms ms0 Hrc H0 H).
    eexists. split.
    + unfold started. rewrite <- app_assoc. reflexivity.
    + cbn [app]. split; [now apply files_written_failed_pull|].
      cbn [commands]. split; [|right; reflexivity].
      intros [E|[E|[]]]; discriminate E.
Qed.

(** C3.  A name given by the user is used as it is when it ends in
    [.png] in whatever letter case, and gets exactly one [.png] appended
    otherwise; the file [take_screenshot] saves, and returns when the
    three commands pass, carries that name under the output folder. *)
Theorem screenshot_name_gets_one_png_suffix (w : World) (f : string) :
  connected (self w) = true ->
  Py.truthy f = true ->
  let name := if Py.endswith (Py.lower f) ".png" then f else f ++ ".png" in
  let p := Py.path_join (output_folder (self w)) name in
  Py.endswith (Py.lower name) ".png" = true
  /\ Py.endswith (Py.lower p) ".png" = true
  /\ take_screenshot host (Some f) w = save_screenshot host p w
  /\ forall o1 o2 o3 m1 m2 m3,
      adb host (started w) SHOT = Completed 0 o1 m1 ->
      adb host (started w ++ [Run SHOT (Completed 0 o1 m1)]) (PULL p) = Completed 0 o2 m2 ->
      adb host (started w ++ [Run SHOT (Completed 0 o1 m1);
                              Run (PULL p) (Completed 0 o2 m2)]) RM = Completed 0 o3 m3 ->
      exists w',
        take_screenshot host (Some f) w = (Val (Path p), w')
        /\ files_written (trace w') = (files_written (trace w) ++ [p])%list.
Proof.
  intros Hc Hf name p.
  destruct (output_name_run "quest_screenshot" ".png" (Some f) w eq_refl)
    as (n & Hn & Hend & Hname).
  specialize (Hname f eq_refl Hf). fold name in Hname. subst n.
  assert (Hrun : take_screenshot host (Some f) w = save_screenshot host p w)
    by now apply take_screenshot_connected.
  split; [exact Hend|]. split.
  { unfold p. destruct (path_join_suffix (output_folder (self w)) name) as [d ->].
    rewrite lower_app. now apply endswith_app_l. }
  split; [exact Hrun|].
  intros o1 o2 o3 m1 m2 m3 H1 H2 H3.
  rewrite Hrun, (save_screenshot_succeeds w p o1 o2 o3 m1 m2 m3 H1 H2 H3).
  eexists. split; [reflexivity|].
  cbn [trace]. unfold started. rewrite !files_written_app, <- app_assoc. reflexivity.
Qed.

(** C10.  With the connected flag false, each of the five operations
    that need the device returns its failure value ([None] or [False])
    having sent nothing to the bridge, changed nothing in the object and
    written no file. *)
Theorem operations_refuse_when_not_connected
        (w : World) (filename : option string) (duration fps : Z) (fuel : nat)
        (fps_text scale_text : string) (sched : list Action) :
  connected (self w) = false ->
  (exists w', get_device_info host w = (Val None, w') /\ untouched w w')
  /\ (exists w', take_screenshot host filename w = (Val PyFalse, w') /\ untouched w w')
  /\ (exists w', start_screen_recording host filename duration w = (Val PyFalse, w')
                 /\ untouched w w')
  /\ (exists w', start_live_stream host fuel fps w = (Val (Some false), w')
                 /\ untouched w w')
  /\ (exists w', view_screen_realtime host pil fps_text scale_text sched w
                 = (Val false, w', None)
                 /\ untouched w w').
Proof.
  intros Hc.
  assert (Hu : untouched w (emit (Print "Device not connected") w))
    by apply untouched_print, untouched_refl.
  repeat split.
  - eexists. split; [|exact Hu].
    unfold get_device_info, bind, get_self. rewrite Hc. reflexivity.
  - eexists. split; [|exact Hu].
    unfold take_screenshot, bind, get_self. rewrite Hc. reflexivity.
  - eexists. split; [|exact Hu].
    unfold start_screen_recording, bind, get_self. rewrite Hc. reflexivity.
  - eexists. split; [|exact Hu].
    unfold start_live_stream, bind, get_self. rewrite Hc. reflexivity.
  - unfold view_screen_realtime. destruct (GUI_AVAILABLE host); cbn [negb].
    + rewrite Hc. cbn [negb]. eexists. split; [reflexivity | exact Hu].
    + eexists. split; [reflexivity|].
      apply untouched_print, untouched_print, untouched_refl.
Qed.

(** *** Connecting over USB *)

Lemma five_seconds (interruptible : bool) (w : World) :
  time_sleep host interruptible FIVE w
  = (if andb interruptible (ctrl_c host (trace w)) then Exc KeyboardInterrupt else Val tt,
     emit (Sleep FIVE) w).
Proof.
  unfold time_sleep.
  replace (Float.is_nan FIVE) with false by reflexivity.
  replace (Float.ltb FIVE (Float.of_int 0)) with false by reflexivity.
  replace (sleep_fits FIVE) with true by reflexivity.
  cbn [negb]. destruct (andb interruptible (ctrl_c host (trace w))); reflexivity.
Qed.

Lemma check_adb_installed_ok (q : QuestADBCapture) (t : list Event) (out : string) (ms : N) :
  adb host t VERSION = Completed 0 out ms ->
  check_adb_installed host {| self := q; trace := t |}
  = (Val true,
     {| self := q;
        trace := (t ++ [Run VERSION (Completed 0 out ms);
                        Print "ADB is installed and accessible"])%list |}).
Proof.
  intros H.
  unfold check_adb_installed, try_except, bind, subprocess_run, print, emit, ret.
  cbn [trace self]. fold VERSION. rewrite H.
  cbn [andb returncode Z.eqb trace self]. rewrite <- app_assoc. reflexivity.
Qed.






End MethodFacts.

(** ** Facts about doubles *)

Section FloatFacts.

Lemma digits2_size (p : positive) : digits2_pos p = Pos.size p.
Proof. induction p; cbn; congruence. Qed.

Lemma digits2_bound (p : positive) : Zpos p < 2 ^ 53 -> Zpos (digits2_pos p) <= 53.
Proof.
  intros H. rewrite digits2_size.
  pose proof (Pos.size_le p) as L.
  destruct (Z.le_gt_cases (Zpos (Pos.size p)) 53) as [|G]; [assumption|exfalso].
  assert (2 ^ 54 <= 2 ^ Zpos (Pos.size p)) by (apply Z.pow_le_mono_r; lia).
  assert (Zpos (2 ^ Pos.size p) = 2 ^ Zpos (Pos.size p)) by (now rewrite Pos2Z.inj_pow).
  assert (Zpos (2 ^ Pos.size p) <= Zpos p~0) by (apply Pos2Z.pos_le_pos; exact L).
  change (2 ^ 54) with (2 * 2 ^ 53) in *. lia.
Qed.

Lemma iter_xO_value (p n : positive) : Zpos (Pos.iter xO p n) = Zpos p * 2 ^ Zpos n.
Proof.
  rewrite (Pos.iter_swap_gen _ _ Zpos xO (Z.mul 2)) by reflexivity.
  change (Pos.iter (Z.mul 2) (Zpos p) n) with (Z.shiftl (Zpos p) (Zpos n)).
  apply Z.shiftl_mul_pow2. lia.
Qed.

Lemma iter_xO_digits (p n : positive) :
  digits2_pos (Pos.iter xO p n) = (digits2_pos p + n)%positive.
Proof.
  rewrite (Pos.iter_swap_gen _ _ digits2_pos xO Pos.succ) by reflexivity.
  revert p. induction n using Pos.peano_ind; intros p.
  - cbn. lia.
  - rewrite Pos.iter_succ, IHn. lia.
Qed.

Lemma fexp_normal (e : Z) : -1074 <= e -> fexp 53 1024 (53 + e) = e.
Proof. intros H. unfold fexp, emin. lia. Qed.

Lemma round_aux_canonical (m : positive) (e : Z) :
  Zpos (digits2_pos m) = 53 -> -1074 <= e <= 971 ->
  binary_round_aux 53 1024 false (Zpos m) e loc_Exact = S754_finite false m e.
Proof.
  intros Hd He. unfold binary_round_aux, shr_fexp. cbn [Zdigits2].
  rewrite Hd, fexp_normal, Z.sub_diag by lia.
  cbn [shr shr_record_of_loc shr_m loc_of_shr_record round_nearest_even Zdigits2].
  rewrite Hd, fexp_normal, Z.sub_diag by lia.
  cbn [shr shr_record_of_loc shr_m].
  replace (e <=? 1024 - 53) with true by (symmetry; apply Z.leb_le; lia).
  reflexivity.
Qed.

Lemma of_int_normal (p : positive) :
  Zpos (digits2_pos p) <= 53 ->
  exists m,
    Float.of_int (Zpos p) = S754_finite false m (Zpos (digits2_pos p) - 53)
    /\ Zpos m = Zpos p * 2 ^ (53 - Zpos (digits2_pos p))
    /\ Zpos (digits2_pos m) = 53.
Proof.
  intros Hd. unfold Float.of_int, binary_normalize, binary_round, shl_align.
  unfold Float.prec, Float.emax.
  assert (Hf : fexp 53 1024 (Zpos (digits2_pos p) + 0) = Zpos (digits2_pos p) - 53).
  { unfold fexp, emin. lia. }
  rewrite Hf, Z.sub_0_r.
  destruct (Zpos (digits2_pos p) - 53) as [|k|k] eqn:E; [|lia|].
  - exists p. rewrite round_aux_canonical by lia.
    replace (53 - Zpos (digits2_pos p)) with 0 by lia. repeat split; lia.
  - exists (Pos.iter xO p k).
    assert (D : Zpos (digits2_pos (Pos.iter xO p k)) = 53)
      by (rewrite iter_xO_digits; lia).
    rewrite round_aux_canonical by lia.
    split; [reflexivity|]. split; [|exact D].
    rewrite iter_xO_value. f_equal. f_equal. lia.
Qed.

Lemma half_value : Float.half = S754_finite false 4503599627370496 (-53).
Proof. reflexivity. Qed.

Lemma mul_half (m : positive) (e : Z) :
  Zpos (digits2_pos m) = 53 -> -1073 <= e <= 972 ->
  Float.mul (S754_finite false m e) Float.half = S754_finite false m (e - 1).
Proof.
  intros Hd He. rewrite half_value. unfold Float.mul, SFmul. cbn [xorb].
  rewrite Pos.mul_comm. cbn [Pos.mul].
  unfold binary_round_aux, shr_fexp. cbn [Zdigits2 digits2_pos].
  rewrite !Pos2Z.inj_succ, Hd.
  unfold Float.prec, Float.emax.
  replace (fexp 53 1024 _) with (e - 1) by (unfold fexp, emin; lia).
  replace (e - 1 - (e + -53)) with 52 by lia.
  cbn [shr iter_pos shr_1 shr_record_of_loc orb shr_m loc_of_shr_record round_nearest_even Zdigits2].
  rewrite Hd.
  replace (e + -53 + 52) with (e - 1) by lia.
  rewrite fexp_normal, Z.sub_diag by lia.
  cbn [shr shr_record_of_loc shr_m].
  replace (e - 1 <=? 1024 - 53) with true by (symmetry; apply Z.leb_le; lia).
  reflexivity.
Qed.

(** Halving a whole number below [2^53] in double precision is exact:
    [int(n * 0.5)] is [floor (n / 2)]. *)
Lemma halving_is_exact (n : Z) :
  0 <= n < 2 ^ 53 ->
  Float.trunc (Float.mul (Float.of_int n) Float.half) = Some (n / 2).
Proof.
  intros [Hpos Hlt]. destruct n as [|p|p]; [reflexivity| |lia].
  pose proof (digits2_bound p Hlt) as Hd.
  destruct (of_int_normal p Hd) as (m & -> & Hm & Hdm).
  assert (1 <= Zpos (digits2_pos p)) by lia.
  rewrite mul_half by lia.
  unfold Float.trunc.
  replace (0 <=? Zpos (digits2_pos p) - 53 - 1) with false
    by (symmetry; apply Z.leb_gt; lia).
  rewrite Z.shiftr_div_pow2 by lia. rewrite Hm. f_equal.
  replace (- (Zpos (digits2_pos p) - 53 - 1)) with (1 + (53 - Zpos (digits2_pos p))) by lia.
  rewrite Z.pow_add_r by lia. change (2 ^ 1) with 2.
  rewrite Z.div_mul_cancel_r; [reflexivity | lia | apply Z.pow_nonzero; lia].
Qed.

(** [int(x)] of a double that is not negative is the floor of its value. *)
Lemma trunc_is_floor (x : Float.float) :
  Float.ltb x (Float.of_int 0) = false ->
  Float.trunc x = Float.floor_mul_exact 1 x.
Proof.
  destruct x as [s|s| |s m e]; try reflexivity.
  destruct s; [discriminate|]. intros _. reflexivity.
Qed.

End FloatFacts.

(** ** The live viewer *)

Section ViewerFacts.

Variable host : Host.
Variable pil : Pillow.

Local Abbreviation step := (capture_step host pil).
Local Abbreviation steps := (capture_steps host pil).
Local Abbreviation go := (run_actions host pil).

Ltac fields :=
  unfold active in *;
  cbn [world current_image frame_count fps_var scale_var label_image status_text
       timer in_mainloop thread set_world set_thread set_current_image
       set_frame_count set_controls set_label set_timer set_in_mainloop
       self trace with_self emit set_streaming streaming connected] in *.

(** *** What the primitives do to the world *)

Lemma subprocess_run_effect (argv : list string) (check : bool) (w w' : World)
      (r : Res CompletedProcess) :
  subprocess_run host argv check w = (r, w') ->
  self w' = self w
  /\ trace w' = (trace w ++ [Run argv (adb host (trace w) argv)])%list
  /\ r <> OutOfFuel.
Proof.
  unfold subprocess_run. intros H.
  destruct (adb host (trace w) argv) as [rc out ms|e].
  - destruct (andb check (negb (rc =? 0))); inversion H; subst;
      repeat split; discriminate.
  - inversion H; subst; repeat split; discriminate.
Qed.

Lemma time_sleep_cases (b : bool) (d : Float.float) (w : World) :
  (can_sleep d = true
   /\ time_sleep host b d w
      = (if andb b (ctrl_c host (trace w)) then Exc KeyboardInterrupt else Val tt,
         emit (Sleep d) w))
  \/ (can_sleep d = false
      /\ exists e, is_Exception e = true /\ time_sleep host b d w = (Exc e, w)).
Proof.
  unfold time_sleep, can_sleep.
  destruct (Float.is_nan d); cbn [negb andb].
  { right. split; [reflexivity|]. eexists. split; [|reflexivity]. reflexivity. }
  destruct (Float.ltb d (Float.of_int 0)); cbn [negb andb].
  { right. split; [reflexivity|]. eexists. split; [|reflexivity]. reflexivity. }
  destruct (sleep_fits d); cbn [negb andb].
  - left. split; [reflexivity|].
    destruct (andb b (ctrl_c host (trace w))); reflexivity.
  - right. split; [reflexivity|]. eexists. split; [|reflexivity]. reflexivity.
Qed.

Lemma division_raises_Exception (x y : Float.float) (e : Exn) :
  py_truediv x y = inl e -> is_Exception e = true.
Proof.
  unfold py_truediv. destruct (Float.is_zero y); intros H; inversion H; reflexivity.
Qed.

Lemma py_float_raises_Exception (s : string) (e : Exn) :
  py_float s = inl e -> is_Exception e = true.
Proof.
  unfold py_float.
  destruct (andb _ _); intros H; inversion H; reflexivity.
Qed.

Lemma control_raises_Exception (s : string) (d : Float.float) (e : Exn) :
  control_value s d = inl e -> is_Exception e = true.
Proof.
  unfold control_value. destruct (Py.isdigit _); [apply py_float_raises_Exception|].
  discriminate.
Qed.

(** *** One step of the capture thread *)

(** What a step leaves of the shared variables: it stores an image at
    [AtStore] only, counts at [AtCount] only, adds to the trace, and
    touches the object only to clear the flag when it ends in the
    handler. *)
Lemma step_shape (v : Viewer) :
  exists t w,
    step v
    = set_thread t
        (set_world w
           (set_frame_count
              (match thread v with AtCount _ => frame_count v + 1 | _ => frame_count v end)
              (set_current_image
                 (match thread v with AtStore _ img => Some img | _ => current_image v end)
                 v)))
    /\ (exists new, trace w = (trace (world v) ++ new)%list)
    /\ (self w = self (world v)
        \/ (self w = set_streaming false (self (world v)) /\ t = Finished)).
Proof.
  destruct v as [w0 ci fc fv sv li st tm ml th].
  assert (Hfail : forall th' e w1,
             (exists new, trace w1 = (trace w0 ++ new)%list) ->
             self w1 = self w0 ->
             exists t w,
               capture_failed e
                 {| world := w1; current_image := ci; frame_count := fc; fps_var := fv;
                    scale_var := sv; label_image := li; status_text := st; timer := tm;
                    in_mainloop := ml; thread := th' |}
               = {| world := w; current_image := ci; frame_count := fc; fps_var := fv;
                    scale_var := sv; label_image := li; status_text := st; timer := tm;
                    in_mainloop := ml; thread := t |}
               /\ (exists new, trace w = (trace w0 ++ new)%list)
               /\ (self w = self w0
                   \/ (self w = set_streaming false (self w0) /\ t = Finished))).
  { intros th' e w1 [new Hnew] Hself. unfold capture_failed.
    destruct (is_Exception e); fields.
    - do 2 eexists. split; [reflexivity|]. fields. split.
      + rewrite Hnew, <- app_assoc. eexists. reflexivity.
      + right. rewrite Hself. split; reflexivity.
    - do 2 eexists. split; [reflexivity|]. split; [eauto | left; assumption]. }
  assert (Hnil : exists new, trace w0 = (trace w0 ++ new)%list)
    by (exists []; now rewrite app_nil_r).
  unfold capture_step, set_thread, set_world, set_frame_count, set_current_image. fields.
  destruct th; fields.
  - (* AtWhile *)
    destruct (streaming (self w0)); fields; do 2 eexists;
      (split; [reflexivity|]); split; auto.
  - (* AtControls *)
    destruct (control_value fv DEFAULT_FPS) as [e|f]; [now apply Hfail|].
    destruct (control_value sv DEFAULT_SCALE) as [e|sc]; [now apply Hfail|].
    do 2 eexists. split; [reflexivity|]. split; auto.
  - (* AtScreencap *)
    destruct (subprocess_run host _ false w0) as [[c|e|] w1] eqn:E;
      destruct (subprocess_run_effect _ _ _ _ _ E) as (Hs & Ht & Hf).
    + destruct (returncode c =? 0); fields; do 2 eexists;
        (split; [reflexivity|]); split; eauto.
    + apply Hfail; eauto.
    + congruence.
  - (* AtDecode *)
    destruct (process_image _ _ _) as [e|img]; fields; do 2 eexists;
      (split; [reflexivity|]); fields; split; eauto.
  - (* AtStore *)
    do 2 eexists. split; [reflexivity|]. split; auto.
  - (* AtCount *)
    do 2 eexists. split; [reflexivity|]. split; auto.
  - (* AtSleep *)
    unfold bind, lift.
    destruct (py_truediv Float.one current_fps) as [e|d].
    + unfold raise. now apply Hfail.
    + unfold ret.
      destruct (time_sleep_cases false d w0) as [[_ ->] | [_ (e & _ & ->)]].
      * cbn [andb]. do 2 eexists. split; [reflexivity|]. fields. split; eauto.
      * now apply Hfail.
  - (* Finished *)
    do 2 eexists. split; [reflexivity|]. split; auto.
  - (* Died *)
    do 2 eexists. split; [reflexivity|]. split; auto.
Qed.

Lemma failed_thread (e : Exn) (v : Viewer) :
  thread (capture_failed e v) = Finished \/ thread (capture_failed e v) = Died e.
Proof. unfold capture_failed. destruct (is_Exception e); fields; auto. Qed.

(** With the flag cleared, every step brings the thread nearer to its
    end, and past the point where it counts a frame at most once. *)
Lemma step_winds_down (v : Viewer) :
  active v = false ->
  (ended (thread v) = true /\ step v = v)
  \/ ((steps_left (thread (step v)) < steps_left (thread v))%nat
      /\ counts_left (thread (step v))
         + (match thread v with AtCount _ => 1 | _ => 0 end)
         <= counts_left (thread v)
      /\ (stores_left (thread (step v)) <= stores_left (thread v))%nat
      /\ (match thread v with AtStore _ _ => stores_left (thread v) = 1%nat | _ => True end)).
Proof.
  intros Hflag.
  assert (Hfail : forall e v',
             (0 < steps_left (thread v))%nat ->
             (steps_left (thread (capture_failed e v')) < steps_left (thread v))%nat
             /\ counts_left (thread (capture_failed e v')) + 0 <= counts_left (thread v)
             /\ (stores_left (thread (capture_failed e v')) <= stores_left (thread v))%nat).
  { intros e v' Hpos.
    destruct (failed_thread e v') as [-> | ->]; cbn [steps_left counts_left stores_left];
      (split; [lia | split; [destruct (thread v); cbn; lia | lia]]). }
  unfold capture_step. destruct (thread v) eqn:T; cbn [ended].
  - right. rewrite Hflag. fields. cbn. (split; [lia | split; [lia | split; [lia | auto]]]).
  - right.
    destruct (control_value (fps_var v) DEFAULT_FPS) as [e|f];
      [destruct (Hfail e v ltac:(rewrite ?T; cbn; lia)) as (A & B & C);
       rewrite ?T in *; cbn in *; (split; [lia | split; [lia | split; [lia | exact I]]])|].
    destruct (control_value (scale_var v) DEFAULT_SCALE) as [e|sc];
      [destruct (Hfail e v ltac:(rewrite ?T; cbn; lia)) as (A & B & C);
       rewrite ?T in *; cbn in *; (split; [lia | split; [lia | split; [lia | exact I]]])|].
    fields. cbn. (split; [lia | split; [lia | split; [lia | auto]]]).
  - right.
    destruct (subprocess_run host _ false (world v)) as [[c|e|] w1] eqn:E.
    + destruct (returncode c =? 0); fields; cbn; (split; [lia | split; [lia | split; [lia | auto]]]).
    + destruct (Hfail e (set_world w1 v) ltac:(rewrite ?T; cbn; lia)) as (A & B & C);
        rewrite ?T in *; cbn in *; (split; [lia | split; [lia | split; [lia | exact I]]]).
    + destruct (subprocess_run_effect _ _ _ _ _ E) as (_ & _ & Hf). congruence.
  - right. destruct (process_image _ _ _); fields; cbn; (split; [lia | split; [lia | split; [lia | auto]]]).
  - right. fields. cbn. (split; [lia | split; [lia | split; [lia | auto]]]).
  - right. fields. cbn. (split; [lia | split; [lia | split; [lia | auto]]]).
  - right. unfold bind, lift.
    destruct (py_truediv Float.one current_fps) as [e|d].
    + unfold raise.
      destruct (Hfail e (set_world (world v) v) ltac:(rewrite ?T; cbn; lia)) as (A & B & C);
        rewrite ?T in *; cbn in *; (split; [lia | split; [lia | split; [lia | exact I]]]).
    + unfold ret.
      destruct (time_sleep_cases false d (world v)) as [[_ ->] | [_ (e & _ & ->)]].
      * cbn [andb]. fields. cbn. (split; [lia | split; [lia | split; [lia | auto]]]).
      * destruct (Hfail e (set_world (world v) v) ltac:(rewrite ?T; cbn; lia)) as (A & B & C);
          rewrite ?T in *; cbn in *; (split; [lia | split; [lia | split; [lia | exact I]]]).
  - left. split; reflexivity.
  - left. split; reflexivity.
Qed.

(** *** The window's own actions *)

(** A tick with the flag cleared draws nothing and schedules nothing. *)
Lemma update_display_idle (v : Viewer) : active v = false -> update_display host pil v = v.
Proof.
  intros H. unfold update_display. rewrite H.
  destruct (current_image v); rewrite H; reflexivity.
Qed.

(** The window never touches what the thread publishes, nor the thread. *)
Lemma gui_action_keeps_frames (a : Action) (v : Viewer) :
  a <> Capture ->
  thread (act host pil a v) = thread v
  /\ frame_count (act host pil a v) = frame_count v
  /\ current_image (act host pil a v) = current_image v.
Proof.
  intros Ha. unfold act.
  destruct a; try congruence; destruct (in_mainloop v); fields; auto.
  destruct (timer v) eqn:T; auto.
  unfold update_display; fields.
  destruct (current_image v) eqn:C; fields;
    repeat match goal with
           | |- context [if ?c then _ else _] => destruct c; fields
           | |- context [match ?c with _ => _ end] => destruct c; fields
           end; auto.
Qed.

Lemma gui_action_when_stopped (a : Action) (v : Viewer) :
  a <> Capture ->
  active v = false ->
  active (act host pil a v) = false
  /\ label_image (act host pil a v) = label_image v
  /\ status_text (act host pil a v) = status_text v
  /\ (timer (act host pil a v) = timer v \/ timer (act host pil a v) = None).
Proof.
  intros Ha H. unfold act.
  destruct a; try congruence; destruct (in_mainloop v); fields; auto.
  destruct (timer v) eqn:T.
  - rewrite update_display_idle by (fields; exact H). fields. auto.
  - repeat split; auto.
Qed.

Lemma steps_left_ended (t : Thread) : steps_left t = 0%nat <-> ended t = true.
Proof. destruct t; cbn; split; intros; congruence. Qed.

(** One action of any kind, flag cleared. *)
Lemma act_winds_down (a : Action) (v : Viewer) :
  active v = false ->
  let v1 := act host pil a v in
  active v1 = false
  /\ label_image v1 = label_image v
  /\ status_text v1 = status_text v
  /\ (timer v1 = timer v \/ timer v1 = None)
  /\ frame_count v <= frame_count v1
  /\ frame_count v1 + counts_left (thread v1) <= frame_count v + counts_left (thread v)
  /\ (stores_left (thread v) = 0%nat ->
      current_image v1 = current_image v /\ stores_left (thread v1) = 0%nat)
  /\ (steps_left (thread v1)
      <= steps_left (thread v) - count_captures [a])%nat.
Proof.
  intros H v1.
  assert (Hgui : a <> Capture ->
                 active v1 = false
                 /\ label_image v1 = label_image v
                 /\ status_text v1 = status_text v
                 /\ (timer v1 = timer v \/ timer v1 = None)
                 /\ frame_count v <= frame_count v1
                 /\ frame_count v1 + counts_left (thread v1)
                    <= frame_count v + counts_left (thread v)
                 /\ (stores_left (thread v) = 0%nat ->
                     current_image v1 = current_image v
                     /\ stores_left (thread v1) = 0%nat)
                 /\ (steps_left (thread v1)
                     <= steps_left (thread v) - count_captures [a])%nat).
  { intros Ha. destruct (gui_action_keeps_frames a v Ha) as (T & F & C).
    destruct (gui_action_when_stopped a v Ha H) as (A & L & S & M).
    subst v1. rewrite T, F, C.
    assert (N : count_captures [a] = 0%nat) by (destruct a; try reflexivity; congruence).
    split; [exact A|]. split; [exact L|]. split; [exact S|]. split; [exact M|].
    split; [lia|]. split; [lia|].
    split; [intros Z; split; [reflexivity | exact Z] | lia]. }
  destruct a; try (apply Hgui; discriminate). clear Hgui.
  subst v1. cbn [act count_captures filter List.length].
  destruct (step_shape v) as (t & w & E & _ & Hself).
  assert (L : label_image (step v) = label_image v) by (rewrite E; reflexivity).
  assert (S : status_text (step v) = status_text v) by (rewrite E; reflexivity).
  assert (M : timer (step v) = timer v) by (rewrite E; reflexivity).
  assert (A : active (step v) = false).
  { rewrite E. fields. destruct Hself as [-> | [-> _]]; [exact H | reflexivity]. }
  assert (F : frame_count (step v)
              = match thread v with AtCount _ => frame_count v + 1 | _ => frame_count v end)
    by (rewrite E; reflexivity).
  assert (C : current_image (step v)
              = match thread v with AtStore _ img => Some img | _ => current_image v end)
    by (rewrite E; reflexivity).
  destruct (step_winds_down v H) as [[He Hv] | (P & Q & R & U)].
  - rewrite Hv. apply steps_left_ended in He.
    split; [exact H|]. split; [reflexivity|]. split; [reflexivity|].
    split; [left; reflexivity|]. split; [lia|]. split; [lia|].
    split; [intros Z; split; [reflexivity | exact Z] | lia].
  - split; [exact A|]. split; [exact L|]. split; [exact S|]. split; [auto|].
    rewrite F, C. destruct (thread v); cbn [counts_left stores_left] in *;
      (split; [lia|]); (split; [lia|]); (split; [|lia]); intros Z; split;
      first [reflexivity | lia | discriminate].
Qed.

(** Any schedule, flag cleared. *)
Lemma run_winds_down (l : list Action) :
  forall v,
    active v = false ->
    let v' := go l v in
    active v' = false
    /\ label_image v' = label_image v
    /\ status_text v' = status_text v
    /\ (timer v' = timer v \/ timer v' = None)
    /\ frame_count v <= frame_count v'
    /\ frame_count v' + counts_left (thread v') <= frame_count v + counts_left (thread v)
    /\ (stores_left (thread v) = 0%nat ->
        current_image v' = current_image v /\ stores_left (thread v') = 0%nat)
    /\ (steps_left (thread v') <= steps_left (thread v) - count_captures l)%nat.
Proof.
  induction l as [|a l IH]; intros v H.
  - cbn. split; [exact H|]. split; [reflexivity|]. split; [reflexivity|].
    split; [left; reflexivity|]. split; [lia|]. split; [lia|].
    split; [intros Z; split; [reflexivity | exact Z] | lia].
  - destruct (act_winds_down a v H) as (A & L & S & M & F1 & F2 & C & P).
    destruct (IH _ A) as (A' & L' & S' & M' & F1' & F2' & C' & P').
    change (go (a :: l) v) with (go l (act host pil a v)). cbv zeta.
    split; [exact A'|]. split; [congruence|]. split; [congruence|].
    split; [destruct M' as [-> | ->]; auto|].
    split; [lia|]. split; [lia|]. split.
    + intros Z. destruct (C Z) as [C1 C2]. destruct (C' C2) as [C3 C4].
      split; congruence.
    + assert (count_captures (a :: l) = (count_captures [a] + count_captures l)%nat).
      { unfold count_captures. cbn [filter]. destruct a; reflexivity. }
      lia.
Qed.

(** C7.  Once the streaming flag is false, whatever happens next: the flag
    stays false; the capture thread counts at most the one frame of the
    cycle it is in (none when it stands at the loop test or in its
    wait), stores no image once past the store of that cycle, and has
    left its loop after at most the steps that remain of that cycle
    (seven at most); the preview draws nothing, changes no status text
    and schedules no tick, a tick being a no-op from then on. *)
Theorem cleared_flag_stops_capture_and_preview (v : Viewer) (l : list Action) :
  active v = false ->
  let v' := go l v in
  active v' = false
  /\ frame_count v <= frame_count v' <= frame_count v + counts_left (thread v)
  /\ counts_left (thread v) <= 1
  /\ (stores_left (thread v) = 0%nat -> current_image v' = current_image v)
  /\ ((steps_left (thread v) <= count_captures l)%nat -> ended (thread v') = true)
  /\ (steps_left (thread v) <= 7)%nat
  /\ label_image v' = label_image v
  /\ status_text v' = status_text v
  /\ (timer v' = timer v \/ timer v' = None)
  /\ update_display host pil v' = v'.
Proof.
  intros H v'.
  destruct (run_winds_down l v H) as (A & L & S & M & F1 & F2 & C & P).
  fold v' in A, L, S, M, F1, F2, C, P.
  split; [exact A|]. split.
  { assert (0 <= counts_left (thread v')) by (destruct (thread v'); cbn; lia). lia. }
  split; [destruct (thread v); cbn; lia|].
  split; [intros Z; apply (C Z)|].
  split; [intros Hn; apply steps_left_ended; lia|].
  split; [destruct (thread v); cbn; lia|].
  split; [exact L|]. split; [exact S|]. split; [exact M|].
  now apply update_display_idle.
Qed.

(** *** The steps of a cycle *)



Lemma step_at_screencap (v : Viewer) (cf cs : Float.float) (rc : Z) (out : string) (ms : N) :
  thread v = AtScreencap cf cs ->
  adb host (trace (world v)) SCREENCAP = Completed rc out ms ->
  step v
  = set_thread (if Z.eqb rc 0
                then AtDecode cf cs {| returncode := rc; stdout := out |}
                else AtSleep cf)
      (set_world (emit (Run SCREENCAP (Completed rc out ms)) (world v)) v).
Proof.
  intros T R. unfold capture_step, subprocess_run. rewrite T. fold SCREENCAP. rewrite R.
  cbn [andb returncode]. destruct (rc =? 0); reflexivity.
Qed.

Lemma step_at_decode (v : Viewer) (cf cs : Float.float) (result : CompletedProcess) :
  thread v = AtDecode cf cs result ->
  step v
  = match process_image pil (Py.replace (stdout result) CRLF Py.LF) cs with
    | inr img => set_thread (AtStore cf img) v
    | inl e => set_thread (AtSleep cf) (set_world (emit (IMAGE_ERROR e) (world v)) v)
    end.
Proof. intros T. unfold capture_step. rewrite T. reflexivity. Qed.

Lemma step_at_store (v : Viewer) (cf : Float.float) (img : Image) :
  thread v = AtStore cf img ->
  step v = set_thread (AtCount cf) (set_current_image (Some img) v).
Proof. intros T. unfold capture_step. rewrite T. reflexivity. Qed.

Lemma step_at_count (v : Viewer) (cf : Float.float) :
  thread v = AtCount cf ->
  step v = set_thread (AtSleep cf) (set_frame_count (frame_count v + 1) v).
Proof. intros T. unfold capture_step. rewrite T. reflexivity. Qed.



(** A capture that exits with 0 and fails in the inner [try]: two steps
    from the command to the wait. *)
Lemma failed_capture (v : Viewer) (cf cs : Float.float) (out : string) (ms : N) (e : Exn) :
  thread v = AtScreencap cf cs ->
  adb host (trace (world v)) SCREENCAP = Completed 0 out ms ->
  process_image pil (Py.replace out CRLF Py.LF) cs = inl e ->
  step (step v)
  = set_thread (AtSleep cf)
      (set_world (emit (IMAGE_ERROR e) (emit (Run SCREENCAP (Completed 0 out ms)) (world v)))
         v).
Proof.
  intros T R P.
  pose (v1 := set_thread (AtDecode cf cs {| returncode := 0; stdout := out |})
                (set_world (emit (Run SCREENCAP (Completed 0 out ms)) (world v)) v)).
  assert (E1 : step v = v1)
    by (rewrite (step_at_screencap v cf cs 0 out ms T R); reflexivity).
  assert (E2 : step v1
               = set_thread (AtSleep cf) (set_world (emit (IMAGE_ERROR e) (world v1)) v1)).
  { rewrite (step_at_decode v1 cf cs {| returncode := 0; stdout := out |} eq_refl).
    cbn [stdout]. rewrite P. reflexivity. }
  rewrite E1, E2. reflexivity.
Qed.

(** A capture that exits with 0 and passes the inner [try]: four steps
    from the command to the wait, the store third and the count fourth. *)
Lemma published_capture (v : Viewer) (cf cs : Float.float) (out : string) (ms : N)
      (img : Image) :
  thread v = AtScreencap cf cs ->
  adb host (trace (world v)) SCREENCAP = Completed 0 out ms ->
  process_image pil (Py.replace out CRLF Py.LF) cs = inr img ->
  let w := emit (Run SCREENCAP (Completed 0 out ms)) (world v) in
  step (step (step v))
  = set_thread (AtCount cf) (set_current_image (Some img) (set_world w v))
  /\ step (step (step (step v)))
     = set_thread (AtSleep cf)
         (set_frame_count (frame_count v + 1)
            (set_current_image (Some img) (set_world w v))).
Proof.
  intros T R P w.
  pose (v1 := set_thread (AtDecode cf cs {| returncode := 0; stdout := out |})
                (set_world w v)).
  pose (v2 := set_thread (AtStore cf img) v1).
  pose (v3 := set_thread (AtCount cf) (set_current_image (Some img) v2)).
  assert (E1 : step v = v1)
    by (rewrite (step_at_screencap v cf cs 0 out ms T R); reflexivity).
  assert (E2 : step v1 = v2).
  { rewrite (step_at_decode v1 cf cs {| returncode := 0; stdout := out |} eq_refl).
    cbn [stdout]. rewrite P. reflexivity. }
  assert (E3 : step v2 = v3) by (rewrite (step_at_store v2 cf img eq_refl); reflexivity).
  assert (E4 : step v3 = set_thread (AtSleep cf) (set_frame_count (frame_count v3 + 1) v3))
    by (rewrite (step_at_count v3 cf eq_refl); reflexivity).
  rewrite E1, E2, E3. split; [reflexivity|].
  rewrite E4. reflexivity.
Qed.

(** *** The frame counter *)

Lemma act_counts (a : Action) (v : Viewer) :
  frame_count (act host pil a v)
  = match a, thread v with
    | Capture, AtCount _ => frame_count v + 1
    | _, _ => frame_count v
    end.
Proof.
  destruct a;
    try match goal with
        | |- frame_count (act _ _ ?a _) = _ =>
            destruct (gui_action_keeps_frames a v ltac:(discriminate)) as (_ & F & _);
            exact F
        end.
  cbn [act]. destruct (step_shape v) as (t & w & E & _). rewrite E. reflexivity.
Qed.

Lemma act_publishes (a : Action) (v : Viewer) :
  current_image (act host pil a v)
  = match a, thread v with
    | Capture, AtStore _ img => Some img
    | _, _ => current_image v
    end.
Proof.
  destruct a;
    try match goal with
        | |- current_image (act _ _ ?a _) = _ =>
            destruct (gui_action_keeps_frames a v ltac:(discriminate)) as (_ & _ & C);
            exact C
        end.
  cbn [act]. destruct (step_shape v) as (t & w & E & _). rewrite E. reflexivity.
Qed.

Lemma reaches_count_from_store (v : Viewer) (f : Float.float) :
  thread (step v) = AtCount f ->
  exists img, thread v = AtStore f img /\ current_image (step v) = Some img.
Proof.
  assert (Hfail : forall e v', thread (capture_failed e v') <> AtCount f)
    by (intros e v'; destruct (failed_thread e v') as [-> | ->]; discriminate).
  unfold capture_step. destruct (thread v) eqn:T.
  - destruct (active v); fields; discriminate.
  - destruct (control_value (fps_var v) DEFAULT_FPS); [intros X; now apply Hfail in X|].
    destruct (control_value (scale_var v) DEFAULT_SCALE);
      [intros X; now apply Hfail in X|].
    fields. discriminate.
  - destruct (subprocess_run host _ false (world v)) as [[c|e|] w1].
    + destruct (returncode c =? 0); fields; discriminate.
    + intros X; now apply Hfail in X.
    + fields. congruence.
  - destruct (process_image _ _ _); fields; discriminate.
  - fields. intros X. inversion X; subst. eauto.
  - fields. discriminate.
  - destruct ((d <- lift (py_truediv Float.one current_fps);; time_sleep host false d)%py
                (world v)) as [[c|e|] w1].
    + fields. discriminate.
    + intros X; now apply Hfail in X.
    + fields. congruence.
  - congruence.
  - congruence.
Qed.

(** The ledger of one action: what is counted, with the store whose
    count is pending, grows by the stores. *)
Lemma act_ledger (a : Action) (v : Viewer) :
  frame_count (act host pil a v) + uncounted (thread (act host pil a v))
  = frame_count v + uncounted (thread v)
    + match a, thread v with Capture, AtStore _ _ => 1 | _, _ => 0 end.
Proof.
  rewrite act_counts.
  destruct a;
    try match goal with
        | |- context [act _ _ ?a _] =>
            destruct (gui_action_keeps_frames a v ltac:(discriminate)) as (Ht & _);
            rewrite Ht; destruct (thread v); cbn; lia
        end.
  cbn [act].
  destruct (thread v) eqn:T;
    try (rewrite (step_at_store v _ _ T); cbn; lia);
    try (rewrite (step_at_count v _ T); cbn; lia);
    (destruct (thread (step v)) eqn:T'; cbn [uncounted]; try lia;
     apply reaches_count_from_store in T'; destruct T' as (img & T' & _); congruence).
Qed.

Lemma run_ledger (l : list Action) (v : Viewer) :
  frame_count (go l v) + uncounted (thread (go l v))
  = frame_count v + uncounted (thread v) + published host pil l v.
Proof.
  revert v. induction l as [|a l IH]; intros v; [cbn [published]; cbn; lia|].
  change (go (a :: l) v) with (go l (act host pil a v)).
  rewrite IH. cbn [published]. pose proof (act_ledger a v) as L. lia.
Qed.

Lemma published_nonneg (l : list Action) (v : Viewer) : 0 <= published host pil l v.
Proof.
  revert v. induction l as [|a l IH]; intros v; [cbn; lia|].
  cbn [published]. specialize (IH (act host pil a v)).
  destruct a; try lia. destruct (thread v); lia.
Qed.

(** C9.  The shared counter and the published image move in one place
    each: the counter in the step [frame_count[0] += 1] of the capture
    thread, by exactly one, and the image in the step
    [current_image[0] = img] that comes just before it.  A capture that
    exits with 0 and whose bytes pass the inner [try] is published by
    the third step after the command and counted, once, by the fourth; a
    capture with another exit status, or one that fails in the inner
    [try], goes to the wait of the cycle with image and counter as they
    were.  So over any schedule of the viewer the counter is the number
    of frames published so far, less the one whose count is the very
    next step of the thread, and it never comes down. *)
Theorem frame_counter_counts_published_frames :
  (forall a v,
      frame_count (act host pil a v)
      = match a, thread v with
        | Capture, AtCount _ => frame_count v + 1
        | _, _ => frame_count v
        end)
  /\ (forall a v,
         current_image (act host pil a v)
         = match a, thread v with
           | Capture, AtStore _ img => Some img
           | _, _ => current_image v
           end)
  /\ (forall v cf cs out ms img,
         thread v = AtScreencap cf cs ->
         adb host (trace (world v)) SCREENCAP = Completed 0 out ms ->
         process_image pil (Py.replace out CRLF Py.LF) cs = inr img ->
         thread (steps 3 v) = AtCount cf
         /\ current_image (steps 3 v) = Some img
         /\ frame_count (steps 3 v) = frame_count v
         /\ thread (steps 4 v) = AtSleep cf
         /\ current_image (steps 4 v) = Some img
         /\ frame_count (steps 4 v) = frame_count v + 1)
  /\ (forall v cf cs rc out ms,
         thread v = AtScreencap cf cs ->
         adb host (trace (world v)) SCREENCAP = Completed rc out ms ->
         rc <> 0 ->
         thread (steps 1 v) = AtSleep cf
         /\ current_image (steps 1 v) = current_image v
         /\ frame_count (steps 1 v) = frame_count v)
  /\ (forall v cf cs out ms e,
         thread v = AtScreencap cf cs ->
         adb host (trace (world v)) SCREENCAP = Completed 0 out ms ->
         process_image pil (Py.replace out CRLF Py.LF) cs = inl e ->
         thread (steps 2 v) = AtSleep cf
         /\ current_image (steps 2 v) = current_image v
         /\ frame_count (steps 2 v) = frame_count v)
  /\ (forall l v,
         frame_count (go l v) + uncounted (thread (go l v))
         = frame_count v + uncounted (thread v) + published host pil l v)
  /\ (forall l fps scale w,
         frame_count (go l (open_viewer fps scale w))
         = published host pil l (open_viewer fps scale w)
           - uncounted (thread (go l (open_viewer fps scale w))))
  /\ (forall l v, frame_count v <= frame_count (go l v)).
Proof.
  split; [exact act_counts|]. split; [exact act_publishes|]. split.
  { intros v cf cs out ms img T R P. cbn [capture_steps].
    destruct (published_capture v cf cs out ms img T R P) as [E3 E4].
    rewrite E4, E3. repeat split. }
  split.
  { intros v cf cs rc out ms T R N. cbn [capture_steps].
    rewrite (step_at_screencap v cf cs rc out ms T R).
    destruct (Z.eqb_spec rc 0) as [Z|_]; [contradiction|]. repeat split. }
  split.
  { intros v cf cs out ms e T R P. cbn [capture_steps].
    rewrite (failed_capture v cf cs out ms e T R P). repeat split. }
  split; [exact run_ledger|]. split.
  { intros l fps scale w. pose proof (run_ledger l (open_viewer fps scale w)) as L.
    cbn [open_viewer frame_count thread uncounted] in L. lia. }
  induction l as [|a l IH]; intros v; [cbn; lia|].
  change (go (a :: l) v) with (go l (act host pil a v)).
  specialize (IH (act host pil a v)). rewrite act_counts in IH.
  destruct a; try lia. destruct (thread v); lia.
Qed.

(** *** Exceptions in the capture thread *)

Lemma failed_Exception (e : Exn) (v : Viewer) :
  is_Exception e = true ->
  capture_failed e v
  = set_thread Finished
      (set_world (with_self (set_streaming false) (emit (CAPTURE_ERROR e) (world v))) v).
Proof. intros H. unfold capture_failed. rewrite H. reflexivity. Qed.

Lemma steps_after_the_end (n : nat) (v : Viewer) : ended (thread v) = true -> steps n v = v.
Proof.
  intros H. induction n as [|n IH]; [reflexivity|].
  cbn [capture_steps].
  assert (E : step v = v) by (unfold capture_step; destruct (thread v); try discriminate; reflexivity).
  rewrite E. exact IH.
Qed.

Lemma failed_stopped (e : Exn) (ran : list Event) (v : Viewer) (w : World) :
  is_Exception e = true ->
  trace w = (trace (world v) ++ ran)%list ->
  stopped_by host pil e ran v (capture_failed e (set_world w v)).
Proof.
  intros He Hw. rewrite (failed_Exception e _ He). unfold stopped_by. fields.
  split; [reflexivity|]. split; [reflexivity|].
  split; [intros n; now apply steps_after_the_end|].
  split; [reflexivity|]. split; [reflexivity|].
  rewrite Hw, <- app_assoc. reflexivity.
Qed.

Lemma raised_outside_stops (v : Viewer) (e : Exn) :
  is_Exception e = true ->
  step_raises host v e ->
  exists ran, stopped_by host pil e ran v (step v).
Proof.
  intros He Hr.
  assert (Hsame : forall v0 : Viewer, trace (world v0) = (trace (world v0) ++ [])%list)
    by (intros; now rewrite app_nil_r).
  assert (Hid : forall v0 : Viewer, capture_failed e v0
                                    = capture_failed e (set_world (world v0) v0))
    by (intros v0; destruct v0; reflexivity).
  destruct Hr as [T E | f T Ef E | f sc T E | f T E | f d w T Ed E].
  - exists []. unfold capture_step. rewrite T, E, Hid. now apply failed_stopped.
  - exists []. unfold capture_step. rewrite T, Ef, E, Hid. now apply failed_stopped.
  - exists [Run SCREENCAP (Raised e)].
    unfold capture_step, subprocess_run. rewrite T. fold SCREENCAP. fold SCREENCAP in E.
    rewrite E. apply failed_stopped; [exact He | reflexivity].
  - exists []. unfold capture_step, bind, lift, raise. rewrite T, E.
    now apply failed_stopped.
  - exists []. unfold capture_step, bind, lift, ret. rewrite T, Ed, E.
    destruct (time_sleep_cases false d (world v)) as [[_ E'] | [_ (e' & _ & E')]];
      rewrite E' in E; inversion E; subst.
    now apply failed_stopped.
Qed.

(** The handler that clears the flag is entered from outside the inner
    [try] only. *)
Lemma flag_cleared_by_outer_handler (v : Viewer) :
  active v = true ->
  active (step v) = false ->
  exists e, is_Exception e = true /\ step_raises host v e.
Proof.
  intros A.
  assert (Hfail : forall e w,
             self w = self (world v) ->
             active (capture_failed e (set_world w v)) = false ->
             is_Exception e = true).
  { intros e w Hs. unfold capture_failed. destruct (is_Exception e); [reflexivity|].
    fields. rewrite Hs. congruence. }
  assert (Hid : forall e, capture_failed e v = capture_failed e (set_world (world v) v))
    by (intros e; destruct v; reflexivity).
  unfold capture_step. destruct (thread v) eqn:T.
  - rewrite A. fields. congruence.
  - destruct (control_value (fps_var v) DEFAULT_FPS) as [e|cf] eqn:F.
    { rewrite Hid. intros X. exists e. split; [now apply (Hfail e (world v))|].
      now apply raises_fps. }
    destruct (control_value (scale_var v) DEFAULT_SCALE) as [e|cs] eqn:S.
    { rewrite Hid. intros X. exists e. split; [now apply (Hfail e (world v))|].
      now apply (raises_scale host v e cf). }
    fields. congruence.
  - unfold subprocess_run. cbn [andb].
    destruct (adb host (trace (world v)) ["adb"; "shell"; "screencap"; "-p"])
      as [rc out ms|e] eqn:R.
    + cbn [returncode]. destruct (rc =? 0); fields; congruence.
    + intros X. exists e. split.
      { apply (Hfail e (emit (Run ["adb"; "shell"; "screencap"; "-p"] (Raised e)) (world v)));
          [reflexivity | exact X]. }
      now apply (raises_bridge host v e current_fps current_scale).
  - destruct (process_image _ _ _); fields; congruence.
  - fields. congruence.
  - fields. congruence.
  - unfold bind, lift, ret, raise.
    destruct (py_truediv Float.one current_fps) as [e|d] eqn:D.
    { intros X. exists e. split; [now apply (Hfail e (world v))|].
      now apply (raises_division host v e current_fps). }
    destruct (time_sleep host false d (world v)) as [[u|e|] w] eqn:S.
    + destruct (time_sleep_cases false d (world v)) as [[_ E'] | [_ (e' & _ & E')]];
        rewrite E' in S; inversion S; subst. fields. congruence.
    + intros X. exists e. split.
      * destruct (time_sleep_cases false d (world v)) as [[_ E'] | [_ (e' & He' & E')]];
          rewrite E' in S; inversion S; subst. exact He'.
      * now apply (raises_sleep host v e current_fps d w).
    + destruct (time_sleep_cases false d (world v)) as [[_ E'] | [_ (e' & _ & E')]];
        rewrite E' in S; inversion S.
  - congruence.
  - congruence.
Qed.

(** What the inner [try] can raise: the decoder's error, the exception of
    an [int] call of the size computation, or the error of [resize]. *)
Lemma process_image_raises (raw : string) (s : Float.float) (e : Exn) :
  process_image pil raw s = inl e ->
  (exists msg, Image_open pil raw = inl msg /\ e = ImageError msg)
  \/ (exists img,
         Image_open pil raw = inr img
         /\ Float.eqb s Float.one = false
         /\ (scaled_size img s = inl e
             \/ exists size msg,
                 scaled_size img s = inr size
                 /\ Image_resize pil img size = inl msg
                 /\ e = ImageError msg)).
Proof.
  unfold process_image.
  destruct (Image_open pil raw) as [msg|img]; [intros H; inversion H; eauto|].
  destruct (Float.eqb s Float.one); cbn [negb]; [discriminate|].
  intros H. right. exists img. split; [reflexivity|]. split; [reflexivity|].
  destruct (scaled_size img s) as [e'|size]; [left; congruence|].
  destruct (Image_resize pil img size) as [msg|img'] eqn:R; [|discriminate].
  right. exists size, msg. inversion H. auto.
Qed.

(** C8, as amended.  An exception (a subclass of [Exception]) raised by a
    step of the cycle that is outside the inner [try] - reading the
    controls, running the bridge command, computing or taking the wait -
    is logged, sets the streaming flag to false and ends the thread for
    good; nothing is published on the way.  An exception raised inside
    the inner [try], whether it is a decode failure or not (the
    [OverflowError] or [ValueError] of an [int] call of the size
    computation, the error of [resize]), is logged as an image error
    instead: the flag stays as it was and the thread goes to the wait of
    the cycle.  A step of the thread clears the flag in the first case
    only. *)
Theorem unexpected_exception_ends_capture_loop (v : Viewer) :
  (forall e,
      is_Exception e = true ->
      step_raises host v e ->
      exists ran, stopped_by host pil e ran v (step v))
  /\ (forall cf cs out ms e,
         thread v = AtScreencap cf cs ->
         adb host (trace (world v)) SCREENCAP = Completed 0 out ms ->
         process_image pil (Py.replace out CRLF Py.LF) cs = inl e ->
         thread (steps 2 v) = AtSleep cf
         /\ self (world (steps 2 v)) = self (world v)
         /\ trace (world (steps 2 v))
            = (trace (world v) ++ [Run SCREENCAP (Completed 0 out ms); IMAGE_ERROR e])%list
         /\ current_image (steps 2 v) = current_image v
         /\ frame_count (steps 2 v) = frame_count v)
  /\ (forall raw cs e,
         process_image pil raw cs = inl e ->
         (exists msg, Image_open pil raw = inl msg /\ e = ImageError msg)
         \/ (exists img,
                Image_open pil raw = inr img
                /\ Float.eqb cs Float.one = false
                /\ (scaled_size img cs = inl e
                    \/ exists size msg,
                        scaled_size img cs = inr size
                        /\ Image_resize pil img size = inl msg
                        /\ e = ImageError msg)))
  /\ (active v = true ->
      active (step v) = false ->
      exists e, is_Exception e = true /\ step_raises host v e).
Proof.
  split; [exact (raised_outside_stops v)|]. split.
  { intros cf cs out ms e T R P. cbn [capture_steps].
    rewrite (failed_capture v cf cs out ms e T R P). fields.
    split; [reflexivity|]. split; [reflexivity|].
    split; [now rewrite <- app_assoc|]. split; reflexivity. }
  split; [exact process_image_raises|].
  exact (flag_cleared_by_outer_handler v).
Qed.

(** *** Frames that cannot be decoded *)

Lemma process_image_empty (s : Float.float) :
  exists e, process_image pil EmptyString s = inl e.
Proof.
  unfold process_image.
  destruct (Image_open pil EmptyString) as [msg|img] eqn:E; [eauto|].
  now apply open_empty in E.
Qed.


(** *** The controls *)

(** A control text that fails the guard gives the default. *)
Lemma control_value_default (text : string) (default : Float.float) :
  Py.isdigit (Py.replace text "." "") = false ->
  control_value text default = inr default.
Proof. intros H. unfold control_value. now rewrite H. Qed.

(** C2 fails on the code: the FPS text [1.2.3] passes the guard, [float]
    raises on it, and the exception ends the loop with the flag cleared
    before any command is sent. *)
Theorem fps_text_with_two_points_ends_loop (w : World) (scale : string) :
  let v := open_viewer "1.2.3" scale (with_self (set_streaming true) w) in
  Py.isdigit (Py.replace "1.2.3" "." "") = true
  /\ control_value "1.2.3" DEFAULT_FPS
     = inl (ValueError "could not convert string to float: '1.2.3'")
  /\ thread (steps 2 v) = Finished
  /\ active (steps 2 v) = false
  /\ commands (trace (world (steps 2 v))) = commands (trace w).
Proof.
  intros v. split; [reflexivity|]. split; [reflexivity|].
  assert (E : steps 2 v
              = capture_failed
                  (ValueError "could not convert string to float: '1.2.3'")
                  (set_thread AtControls v)) by reflexivity.
  rewrite E, failed_Exception by reflexivity. fields.
  split; [reflexivity|]. split; [reflexivity|].
  rewrite commands_app. cbn. now rewrite app_nil_r.
Qed.

(** The same with the FPS text [0]: the frame is captured, and the wait
    [1.0 / 0.0] ends the loop. *)
Lemma fps_text_zero_ends_loop (v : Viewer) :
  thread v = AtSleep (Float.of_decimal 0 0) ->
  control_value "0" DEFAULT_FPS = inr (Float.of_decimal 0 0)
  /\ thread (step v) = Finished
  /\ active (step v) = false.
Proof.
  intros T. split; [reflexivity|].
  assert (E : step v = capture_failed (ZeroDivisionError "float division by zero")
                                      (set_world (world v) v))
    by (unfold capture_step; rewrite T; reflexivity).
  rewrite E, failed_Exception by reflexivity. fields. split; reflexivity.
Qed.

(** *** The size of the published frame *)

Lemma process_image_size (raw : string) (img img' : Image) (s : Float.float) :
  Image_open pil raw = inr img ->
  process_image pil raw s = inr img' ->
  (Float.eqb s Float.one = true -> img' = img)
  /\ (Float.eqb s Float.one = false ->
      Float.trunc (Float.mul (Float.of_int (width img)) s) = Some (width img')
      /\ Float.trunc (Float.mul (Float.of_int (height img)) s) = Some (height img')).
Proof.
  intros Ho Hp. unfold process_image in Hp. rewrite Ho in Hp.
  destruct (Float.eqb s Float.one) eqn:Q; cbn [negb] in Hp.
  - split; [intros _; congruence | discriminate].
  - split; [discriminate | intros _].
    unfold scaled_size, py_int in Hp.
    destruct (Float.trunc (Float.mul (Float.of_int (width img)) s)) as [w'|] eqn:TW;
      [|destruct (Float.is_nan _); discriminate].
    destruct (Float.trunc (Float.mul (Float.of_int (height img)) s)) as [h'|] eqn:TH;
      [|destruct (Float.is_nan _); discriminate].
    destruct (Image_resize pil img (w', h')) as [msg|r] eqn:R; [discriminate|].
    inversion Hp; subst r. apply resize_size in R. destruct R as [-> ->].
    split; reflexivity.
Qed.

(** C4, as amended.  The frame the cycle publishes is the decoded bitmap
    itself when the scale equals 1.0; otherwise its width and height are
    the integer parts of the double-precision products [W * s] and
    [H * s], the products being rounded to the nearest double before
    they are cut.  At [s = 0.5] the products are exact, so the frame is
    [floor (W / 2)] by [floor (H / 2)]: 1832 by 960 for a 3664 by 1920
    capture. *)
Theorem resize_truncates_double_product
        (v : Viewer) (f s : Float.float) (result : CompletedProcess) (img img' : Image) :
  thread v = AtDecode f s result ->
  let raw_data := Py.replace (stdout result) (Py.CR ++ Py.LF) Py.LF in
  Image_open pil raw_data = inr img ->
  process_image pil raw_data s = inr img' ->
  current_image (steps 2 v) = Some img'
  /\ (Float.eqb s Float.one = true -> img' = img)
  /\ (Float.eqb s Float.one = false ->
      Float.trunc (Float.mul (Float.of_int (width img)) s) = Some (width img')
      /\ Float.trunc (Float.mul (Float.of_int (height img)) s) = Some (height img'))
  /\ (s = Float.half ->
      0 <= width img < 2 ^ 53 -> 0 <= height img < 2 ^ 53 ->
      width img' = width img / 2 /\ height img' = height img / 2)
  /\ (s = Float.half -> width img = 3664 -> height img = 1920 ->
      width img' = 1832 /\ height img' = 960).
Proof.
  intros T raw_data Ho Hp.
  destruct (process_image_size raw_data img img' s Ho Hp) as [Hone Hscaled].
  assert (Hhalf : s = Float.half ->
                  0 <= width img < 2 ^ 53 -> 0 <= height img < 2 ^ 53 ->
                  width img' = width img / 2 /\ height img' = height img / 2).
  { intros -> Hw Hh. destruct (Hscaled eq_refl) as [Ew Eh].
    rewrite (halving_is_exact _ Hw) in Ew. rewrite (halving_is_exact _ Hh) in Eh.
    split; congruence. }
  split.
  { assert (E1 : step v = set_thread (AtStore f img') v)
      by (unfold capture_step; rewrite T; fold raw_data; rewrite Hp; reflexivity).
    cbn [capture_steps]. rewrite E1. reflexivity. }
  split; [exact Hone|]. split; [exact Hscaled|]. split; [exact Hhalf|].
  intros Hs Hw Hh. destruct (Hhalf Hs) as [Ew Eh]; [rewrite Hw; lia | rewrite Hh; lia|].
  rewrite Ew, Eh, Hw, Hh. split; reflexivity.
Qed.

End ViewerFacts.

(** ** Connecting and asking the device *)

Section ConnectFacts.
Variable host : Host.

Lemma check_adb_installed_fails (q : QuestADBCapture) (t : list Event) (r : Reply) :
  adb host t VERSION = r ->
  (exists rc out ms, r = Completed rc out ms /\ rc <> 0)
  \/ (exists what, r = Raised (FileNotFoundError what)) ->
  check_adb_installed host {| self := q; trace := t |}
  = (Val false, {| self := q; trace := (t ++ [Run VERSION r; Print NO_ADB])%list |}).
Proof.
  intros H [(rc & out & ms & -> & Hrc) | (what & ->)];
    unfold check_adb_installed, try_except, bind, subprocess_run, print, emit, ret;
    cbn [trace self]; fold VERSION; rewrite H.
  - apply Z.eqb_neq in Hrc. cbn [andb returncode]. rewrite Hrc.
    cbn [trace self]. rewrite <- app_assoc. reflexivity.
  - cbn [is_FileNotFoundError trace self]. rewrite <- app_assoc. reflexivity.
Qed.

(** X1.  When [adb version] exits non-zero, or [adb] cannot be started
    ([FileNotFoundError]), [connect_device] prints the hint to install
    the platform tools and returns [False]: it has sent no other command
    and the object is unchanged. *)
Theorem connect_device_needs_adb (w : World) (r : Reply) :
  adb host (trace w) VERSION = r ->
  (exists rc out ms, r = Completed rc out ms /\ rc <> 0)
  \/ (exists what, r = Raised (FileNotFoundError what)) ->
  connect_device host w
  = (Val false, {| self := self w; trace := (trace w ++ [Run VERSION r; Print NO_ADB])%list |}).
Proof.
  intros H Hr. destruct w as [q t]. cbn [self trace] in *.
  unfold connect_device, bind. rewrite (check_adb_installed_fails q t r H Hr). reflexivity.
Qed.


(** X2.  With a network address, once [adb version] has passed,
    [connect_device] sends one [adb connect ip:port] and does not retry:
    it returns [True] and sets the flag exactly when the lower-cased
    output of that command contains [connected], whatever its exit
    status; otherwise it returns [False] and leaves the object alone. *)
Theorem wifi_connect_is_decided_by_reply
        (w : World) (ip out0 out : string) (ms0 ms : N) (rc : Z) :
  wifi_target (self w) = Some ip ->
  adb host (trace w) VERSION = Completed 0 out0 ms0 ->
  let tgt := target (self w) ip in
  let t1 := (trace w ++ [Run VERSION (Completed 0 out0 ms0);
                         Print "ADB is installed and accessible";
                         Print ("Connecting to " ++ tgt)])%list in
  adb host t1 (CONNECT tgt) = Completed rc out ms ->
  let ok := Py.contains (Py.lower out) "connected" in
  exists line,
    connect_device host w
    = (Val ok,
       {| self := (if ok then set_connected true (self w) else self w);
          trace := (t1 ++ [Run (CONNECT tgt) (Completed rc out ms); Print line])%list |}).
Proof.
  destruct w as [q t]. cbn [self trace]. intros Hw Hv Hc.
  set (tgt := target q ip) in *.
  set (t1 := (t ++ [Run VERSION (Completed 0 out0 ms0);
                    Print "ADB is installed and accessible";
                    Print ("Connecting to " ++ tgt)])%list) in *.
  set (ok := Py.contains (Py.lower out) "connected").
  unfold connect_device, bind. rewrite (check_adb_installed_ok host q t out0 ms0 Hv).
  cbn [negb]. unfold try_except, bind, get_self. cbn [self trace]. rewrite Hw.
  unfold connect_wifi, bind, get_self, print, subprocess_run, emit. cbn [self trace].
  fold tgt. fold (CONNECT tgt). rewrite <- app_assoc. cbn [app]. fold t1. rewrite Hc.
  cbn [andb stdout]. fold ok.
  destruct ok; unfold update_self, with_self, ret; cbn [self trace];
    eexists; rewrite <- ?app_assoc; reflexivity.
Qed.

Lemma not_Exception (e : Exn) : is_Exception e = false -> e = KeyboardInterrupt.
Proof. destruct e; cbn; congruence. Qed.

Lemma check_adb_installed_cases (w : World) :
  let run := check_adb_installed host w in
  self (snd run) = self w
  /\ (fst run = Val true \/ fst run = Val false
      \/ exists e, fst run = Exc e /\ adb host (trace w) VERSION = Raised e
                   /\ is_FileNotFoundError e = false).
Proof.
  unfold check_adb_installed, try_except, bind, subprocess_run, print, emit, ret.
  fold VERSION. destruct (adb host (trace w) VERSION) as [rc out ms|e]; cbn [andb returncode].
  - destruct (rc =? 0); cbn; auto.
  - destruct (is_FileNotFoundError e) eqn:F; cbn; [auto|].
    split; [reflexivity|]. right. right. exists e. auto.
Qed.

Lemma usb_attempt_cases (attempt : Z) (w : World) :
  let run := usb_attempt host attempt w in
  (fst run = Val Break /\ self (snd run) = set_connected true (self w))
  \/ (self (snd run) = self w
      /\ ((fst run = Val Continue /\ attempt < 2)
          \/ fst run = Val (Return false)
          \/ exists e, fst run = Exc e)).
Proof.
  unfold usb_attempt, bind, subprocess_run, print, emit, ret, update_self, with_self.
  cbn [trace self].
  destruct (adb host (trace w) ["adb"; "devices"]) as [rc out ms|e]; cbn [andb stdout].
  - destruct (devices_of out) as [|d ds]; cbn [trace self].
    + destruct (attempt <? Z.of_nat max_attempts - 1) eqn:L; cbn [trace self].
      * apply Z.ltb_lt in L. cbn in L. fold FIVE. rewrite five_seconds.
        destruct (andb true (ctrl_c host _)); cbn; right; (split; [reflexivity|]); eauto.
      * right. cbn. auto.
    + left. cbn. auto.
  - right. cbn. split; [reflexivity|]. eauto.
Qed.


Lemma connect_wifi_cases (ip : string) (w : World) :
  let run := connect_wifi host ip w in
  (fst run = Val None /\ self (snd run) = set_connected true (self w))
  \/ (self (snd run) = self w
      /\ (fst run = Val (Some false) \/ exists e, fst run = Exc e)).
Proof.
  unfold connect_wifi, bind, get_self, print, subprocess_run, emit, ret, update_self, with_self.
  cbn [trace self].
  destruct (adb host _ _) as [rc out ms|e]; cbn [andb stdout].
  - destruct (Py.contains (Py.lower out) "connected"); cbn; auto.
  - right. cbn. eauto.
Qed.

Lemma usb_loop_cases (w : World) :
  let run := for_in (range max_attempts) (usb_attempt host) w in
  (fst run = Val None /\ self (snd run) = set_connected true (self w))
  \/ (self (snd run) = self w
      /\ (fst run = Val (Some false) \/ exists e, fst run = Exc e)).
Proof.
  change (range max_attempts) with [0; 1; 2]. cbn [for_in]. unfold bind.
  pose proof (usb_attempt_cases 0 w) as H0.
  destruct (usb_attempt host 0 w) as [r0 w0]. cbn [fst snd] in H0.
  destruct H0 as [[-> S0] | [S0 [[-> _] | [-> | [e ->]]]]]; cbn [fst snd ret]; eauto.
  pose proof (usb_attempt_cases 1 w0) as H1.
  destruct (usb_attempt host 1 w0) as [r1 w1]. cbn [fst snd] in H1. rewrite S0 in H1.
  destruct H1 as [[-> S1] | [S1 [[-> _] | [-> | [e ->]]]]]; cbn [fst snd ret]; eauto.
  pose proof (usb_attempt_cases 2 w1) as H2.
  destruct (usb_attempt host 2 w1) as [r2 w2]. cbn [fst snd] in H2. rewrite S1 in H2.
  destruct H2 as [[-> S2] | [S2 [[-> L] | [-> | [e ->]]]]]; cbn [fst snd ret]; eauto.
  lia.
Qed.

(** X3.  Whatever the bridge answers, [connect_device] either returns
    [True] with the connected flag set, or leaves the object as it was
    and returns [False], or is left by an exception: [KeyboardInterrupt],
    or what [adb version] raised other than [FileNotFoundError] (the
    check of the installation stands outside the [try]). *)
Theorem connect_device_outcomes (w : World) :
  let run := connect_device host w in
  (fst run = Val true /\ self (snd run) = set_connected true (self w))
  \/ (self (snd run) = self w
      /\ (fst run = Val false
          \/ fst run = Exc KeyboardInterrupt
          \/ exists e, fst run = Exc e
                       /\ adb host (trace w) VERSION = Raised e
                       /\ is_FileNotFoundError e = false)).
Proof.
  unfold connect_device, bind.
  pose proof (check_adb_installed_cases w) as Hc.
  destruct (check_adb_installed host w) as [rc wc]. cbn [fst snd] in Hc.
  destruct Hc as [Sc [-> | [-> | (e & -> & He)]]]; cbn [negb fst snd ret].
  2: { right. auto. }
  2: { right. split; [exact Sc|]. right. right. exists e. auto. }
  unfold try_except, bind, get_self.
  assert (Hbody :
            let run := (match wifi_target (self wc) with
                        | Some ip => connect_wifi host ip
                        | None => for_in (range max_attempts) (usb_attempt host)
                        end) wc in
            (fst run = Val None /\ self (snd run) = set_connected true (self wc))
            \/ (self (snd run) = self wc
                /\ (fst run = Val (Some false) \/ exists e, fst run = Exc e))).
  { destruct (wifi_target (self wc)); [apply connect_wifi_cases | apply usb_loop_cases]. }
  cbv zeta in Hbody.
  destruct ((match wifi_target (self wc) with
             | Some ip => connect_wifi host ip
             | None => for_in (range max_attempts) (usb_attempt host)
             end) wc) as [rb wb].
  cbn [fst snd] in Hbody. rewrite Sc in Hbody.
  destruct Hbody as [[-> Sb] | [Sb [-> | [e ->]]]]; cbn [fst snd ret].
  - left. auto.
  - right. auto.
  - destruct (is_Exception e) eqn:E.
    + unfold print, emit, ret. cbn. right. auto.
    + apply not_Exception in E. subst e. cbn. right. auto.
Qed.

End ConnectFacts.

(** ** Device information and recordings *)

Section MoreMethodFacts.
Variable host : Host.

(** X4.  On a connected session whose three queries return,
    [get_device_info] gives their outputs, stripped, as model, Android
    version and resolution, whatever their exit statuses; it sends these
    three commands in this order and prints the four lines of the
    report. *)
Theorem device_info_is_three_stripped_answers
        (w : World) (rc1 rc2 rc3 : Z) (o1 o2 o3 : string) (m1 m2 m3 : N) :
  connected (self w) = true ->
  adb host (trace w) GET_MODEL = Completed rc1 o1 m1 ->
  adb host (trace w ++ [Run GET_MODEL (Completed rc1 o1 m1)]) GET_RELEASE
  = Completed rc2 o2 m2 ->
  adb host (trace w ++ [Run GET_MODEL (Completed rc1 o1 m1);
                        Run GET_RELEASE (Completed rc2 o2 m2)]) WM_SIZE
  = Completed rc3 o3 m3 ->
  exists new,
    get_device_info host w
    = (Val (Some {| model := Py.strip o1; android_version := Py.strip o2;
                    resolution := Py.strip o3 |}),
       {| self := self w; trace := (trace w ++ new)%list |})
    /\ commands new = [GET_MODEL; GET_RELEASE; WM_SIZE]
    /\ printed new = ["Device Info:"; "  Model: " ++ Py.strip o1;
                      "  Android Version: " ++ Py.strip o2; "  " ++ Py.strip o3].
Proof.
  destruct w as [q t]. cbn [self trace]. intros Hc H1 H2 H3.
  unfold get_device_info, bind, get_self. cbn [self]. rewrite Hc. cbn [negb].
  unfold try_except, bind, subprocess_run, print, emit, ret. cbn [trace self].
  fold GET_MODEL. rewrite H1. cbn [andb trace self stdout]. fold GET_RELEASE. rewrite H2.
  cbn [andb trace self stdout]. fold WM_SIZE. rewrite <- app_assoc. cbn [app]. rewrite H3.
  cbn [andb trace self stdout].
  eexists. split; [rewrite <- !app_assoc; cbn [app]; reflexivity|].
  split; reflexivity.
Qed.

(** X5.  When one of the three queries of [get_device_info] raises an
    [Exception], the method prints the error and returns [None] with the
    object unchanged, and the failing query is the last command it has
    sent: the model query alone when that one raises, the model and the
    release queries when the second raises, all three when the third
    does. *)
Theorem device_info_gives_up_on_exception (w : World) (e : Exn) :
  connected (self w) = true ->
  is_Exception e = true ->
  (adb host (trace w) GET_MODEL = Raised e ->
   gives_up host w e [Run GET_MODEL (Raised e)])
  /\ (forall rc1 o1 m1,
         adb host (trace w) GET_MODEL = Completed rc1 o1 m1 ->
         (adb host (trace w ++ [Run GET_MODEL (Completed rc1 o1 m1)]) GET_RELEASE
          = Raised e ->
          gives_up host w e [Run GET_MODEL (Completed rc1 o1 m1);
                             Run GET_RELEASE (Raised e)])
         /\ (forall rc2 o2 m2,
                adb host (trace w ++ [Run GET_MODEL (Completed rc1 o1 m1)]) GET_RELEASE
                = Completed rc2 o2 m2 ->
                adb host (trace w ++ [Run GET_MODEL (Completed rc1 o1 m1);
                                      Run GET_RELEASE (Completed rc2 o2 m2)]) WM_SIZE
                = Raised e ->
                gives_up host w e [Run GET_MODEL (Completed rc1 o1 m1);
                                   Run GET_RELEASE (Completed rc2 o2 m2);
                                   Run WM_SIZE (Raised e)])).
Proof.
  destruct w as [q t]. cbn [self trace]. intros Hc He.
  unfold gives_up, get_device_info, bind, get_self. cbn [self]. rewrite Hc. cbn [negb].
  unfold try_except, bind, subprocess_run, print, emit, ret. cbn [trace self].
  fold GET_MODEL. split.
  - intros H1. rewrite H1, He. cbn [trace self].
    rewrite <- !app_assoc. reflexivity.
  - intros rc1 o1 m1 H1. rewrite H1. cbn [andb trace self stdout]. fold GET_RELEASE. split.
    + intros H2. rewrite H2, He. cbn [trace self].
      rewrite <- !app_assoc. reflexivity.
    + intros rc2 o2 m2 H2 H3. rewrite H2. cbn [andb trace self stdout]. fold WM_SIZE.
      rewrite <- app_assoc. cbn [app]. rewrite H3, He. cbn [trace self].
      rewrite <- !app_assoc. reflexivity.
Qed.

(** *** Recording *)

Lemma start_screen_recording_planned (w : World) (filename : option string) (duration : Z) :
  connected (self w) = true ->
  exists name,
    output_name host "quest_recording" ".mp4" filename w = (Val name, w)
    /\ planned_recording host filename w = Py.path_join (output_folder (self w)) name
    /\ Py.endswith (Py.lower (planned_recording host filename w)) ".mp4" = true.
Proof.
  intros Hc.
  destruct (output_name_run host "quest_recording" ".mp4" filename w eq_refl)
    as (name & Hn & He & _).
  exists name. unfold planned_recording. rewrite Hn. split; [reflexivity|].
  split; [reflexivity|].
  destruct (path_join_suffix (output_folder (self w)) name) as [d ->].
  rewrite lower_app. now apply endswith_app_l.
Qed.

(** X6.  [start_screen_recording] does not look at the exit status of
    [screenrecord]: when the pull and the removal pass, it returns the
    path of the recording under the output folder, a path that ends in
    [.mp4]; the commands are record, pull, remove, and the file is
    written. *)
Theorem recording_is_pulled_whatever_recorder_exit
        (w : World) (filename : option string) (duration rcr : Z)
        (o1 o2 o3 : string) (m1 m2 m3 : N) :
  connected (self w) = true ->
  let p := planned_recording host filename w in
  let t1 := recording duration w in
  adb host t1 (SCREENRECORD duration) = Completed rcr o1 m1 ->
  let t2 := (t1 ++ [Run (SCREENRECORD duration) (Completed rcr o1 m1);
                    Print "Recording complete, downloading..."])%list in
  adb host t2 (PULL_REC p) = Completed 0 o2 m2 ->
  adb host (t2 ++ [Run (PULL_REC p) (Completed 0 o2 m2)]) RM_REC = Completed 0 o3 m3 ->
  exists new,
    start_screen_recording host filename duration w
    = (Val (Path p), {| self := self w; trace := (trace w ++ new)%list |})
    /\ commands new = [SCREENRECORD duration; PULL_REC p; RM_REC]
    /\ files_written new = [p]
    /\ Py.endswith (Py.lower p) ".mp4" = true.
Proof.
  intros Hc p t1 H1 t2 H2 H3.
  destruct (start_screen_recording_planned w filename duration Hc) as (name & Hn & Hp & He).
  fold p in Hp, He.
  unfold start_screen_recording, bind, get_self. rewrite Hc. cbn [negb]. rewrite Hn.
  rewrite <- Hp.
  unfold try_except, bind, popen_wait, bind, subprocess_run, print, emit, ret.
  cbn [trace self]. fold (SCREENRECORD duration). fold (recording duration w). fold t1.
  rewrite H1. cbn [andb trace self]. fold (PULL_REC p). fold t2.
  assert (E2 : ((t1 ++ [Run (SCREENRECORD duration) (Completed rcr o1 m1)]) ++
                [Print "Recording complete, downloading..."])%list = t2)
    by (unfold t2; now rewrite <- app_assoc).
  rewrite E2, H2. cbn [andb negb Z.eqb trace self]. fold RM_REC. rewrite H3.
  cbn [andb negb Z.eqb trace self].
  exists ([Print ("Starting screen recording for " ++ Py.str_of_int duration ++ " seconds...");
           Run (SCREENRECORD duration) (Completed rcr o1 m1);
           Print "Recording complete, downloading...";
           Run (PULL_REC p) (Completed 0 o2 m2);
           Run RM_REC (Completed 0 o3 m3);
           Print ("Recording saved as: " ++ p)]).
  split.
  - unfold t2, t1, recording. rewrite <- !app_assoc. reflexivity.
  - split; [reflexivity|]. split; [reflexivity | exact He].
Qed.

(** X7.  When the pull of a recording exits non-zero,
    [start_screen_recording] returns [False]: no file is written and the
    remote recording is not removed, the pull being the last command. *)
Theorem recording_pull_failure_skips_cleanup
        (w : World) (filename : option string) (duration rcr rc : Z)
        (o1 o2 : string) (m1 m2 : N) :
  connected (self w) = true ->
  rc <> 0 ->
  let p := planned_recording host filename w in
  let t1 := recording duration w in
  adb host t1 (SCREENRECORD duration) = Completed rcr o1 m1 ->
  let t2 := (t1 ++ [Run (SCREENRECORD duration) (Completed rcr o1 m1);
                    Print "Recording complete, downloading..."])%list in
  adb host t2 (PULL_REC p) = Completed rc o2 m2 ->
  exists new,
    start_screen_recording host filename duration w
    = (Val PyFalse, {| self := self w; trace := (trace w ++ new)%list |})
    /\ commands new = [SCREENRECORD duration; PULL_REC p]
    /\ files_written new = [].
Proof.
  intros Hc Hrc p t1 H1 t2 H2. apply Z.eqb_neq in Hrc.
  destruct (start_screen_recording_planned w filename duration Hc) as (name & Hn & Hp & He).
  fold p in Hp, He.
  unfold start_screen_recording, bind, get_self. rewrite Hc. cbn [negb]. rewrite Hn.
  rewrite <- Hp.
  unfold try_except, bind, popen_wait, bind, subprocess_run, print, emit, ret.
  cbn [trace self]. fold (SCREENRECORD duration). fold (recording duration w). fold t1.
  rewrite H1. cbn [andb trace self]. fold (PULL_REC p). fold t2.
  assert (E2 : ((t1 ++ [Run (SCREENRECORD duration) (Completed rcr o1 m1)]) ++
                [Print "Recording complete, downloading..."])%list = t2)
    by (unfold t2; now rewrite <- app_assoc).
  rewrite E2, H2. cbn [andb]. rewrite Hrc. cbn [negb is_CalledProcessError trace self].
  exists ([Print ("Starting screen recording for " ++ Py.str_of_int duration ++ " seconds...");
           Run (SCREENRECORD duration) (Completed rcr o1 m1);
           Print "Recording complete, downloading...";
           Run (PULL_REC p) (Completed rc o2 m2);
           Print ("Error recording screen: " ++ str_of_exn (CalledProcessError (PULL_REC p) rc))]).
  split.
  - unfold t2, t1, recording. rewrite <- !app_assoc. reflexivity.
  - split; [reflexivity|].
    cbn [files_written pulled_to SCREENRECORD PULL_REC String.eqb Ascii.eqb Bool.eqb andb].
    rewrite Hrc. reflexivity.
Qed.

End MoreMethodFacts.

(** ** File names, disconnecting, and the live stream *)

Section StreamFacts.
Variable host : Host.

(** *** Names given by the clock *)

(** X8.  With no file name (or the empty one) a screenshot or a
    recording is named prefix, underscore, time stamp, extension: the
    test for the extension that follows never adds it a second time. *)
Theorem unnamed_capture_is_named_by_the_clock
        (pre ext : string) (filename : option string) (w : World) :
  Py.lower ext = ext ->
  filename = None \/ filename = Some EmptyString ->
  output_name host pre ext filename w
  = (Val (pre ++ "_" ++ strftime host (trace w) "%Y%m%d_%H%M%S" ++ ext), w).
Proof.
  intros Hext Hf.
  assert (E : Py.endswith
                (Py.lower (pre ++ "_" ++ strftime host (trace w) "%Y%m%d_%H%M%S" ++ ext))
                ext = true).
  { rewrite !lower_app, Hext.
    apply endswith_app_l, endswith_app_l, endswith_app. }
  unfold output_name, bind, now_strftime, ret.
  destruct Hf as [-> | ->]; cbn [Py.truthy]; rewrite E; reflexivity.
Qed.

(** *** [disconnect] *)

(** X9.  With a network address, [disconnect] sends one
    [adb disconnect ip:port], prints that it has disconnected and clears
    the connected flag, whatever the exit status of the command. *)
Theorem disconnect_ignores_exit_status
        (w : World) (ip : string) (rc : Z) (out : string) (ms : N) :
  wifi_target (self w) = Some ip ->
  let cmd := DISCONNECT (target (self w) ip) in
  adb host (trace w) cmd = Completed rc out ms ->
  disconnect host w
  = (Val tt,
     {| self := set_connected false (self w);
        trace := (trace w ++ [Run cmd (Completed rc out ms);
                              Print "Disconnected from device"])%list |}).
Proof.
  intros Hip cmd Hr.
  unfold disconnect, bind, get_self. rewrite Hip.
  unfold subprocess_run, print, update_self, with_self, emit.
  cbn [trace self]. fold (DISCONNECT (target (self w) ip)). fold cmd. rewrite Hr.
  cbn [andb trace self]. rewrite <- app_assoc. reflexivity.
Qed.

(** X10.  When [adb disconnect] cannot be run, the exception leaves
    [disconnect]: nothing is printed and the connected flag is not
    cleared. *)
Theorem disconnect_failure_keeps_flag (w : World) (ip : string) (e : Exn) :
  wifi_target (self w) = Some ip ->
  let cmd := DISCONNECT (target (self w) ip) in
  adb host (trace w) cmd = Raised e ->
  disconnect host w
  = (Exc e, {| self := self w; trace := (trace w ++ [Run cmd (Raised e)])%list |}).
Proof.
  intros Hip cmd Hr.
  unfold disconnect, bind, get_self. rewrite Hip.
  unfold subprocess_run, print, update_self, with_self, emit.
  cbn [trace self]. fold (DISCONNECT (target (self w) ip)). fold cmd. rewrite Hr.
  reflexivity.
Qed.

Lemma disconnect_returns (w w' : World) :
  disconnect host w = (Val tt, w') ->
  self w' = set_connected false (self w)
  /\ exists new, trace w' = (trace w ++ new)%list
                 /\ files_written new = []
                 /\ (forall argv, In argv (commands new) ->
                                  exists ip, wifi_target (self w) = Some ip
                                             /\ argv = DISCONNECT (target (self w) ip)).
Proof.
  unfold disconnect, bind, get_self.
  destruct (wifi_target (self w)) as [ip|] eqn:Hip.
  - unfold subprocess_run, print, update_self, with_self, emit. cbn [trace self].
    destruct (adb host (trace w) _) as [rc out ms|e] eqn:Hr; cbn [andb trace self];
      intros H; inversion H; subst; clear H. cbn [self trace].
    split; [reflexivity|]. eexists. split; [rewrite <- app_assoc; reflexivity|].
    split; [reflexivity|].
    intros argv [<- | []]. exists ip. split; reflexivity.
  - unfold ret, update_self, with_self. intros H; inversion H; subst; clear H.
    cbn [self trace]. split; [reflexivity|]. exists []. rewrite app_nil_r.
    split; [reflexivity|]. split; [reflexivity|]. intros argv [].
Qed.

(** X11.  After a [disconnect] that has returned, the connected flag is
    false and each of the five operations refuses: it prints that the
    device is not connected and returns its failure value, and that is
    all it does.  The viewer returns [False] with no window opened; it
    prints its two lines about the missing packages instead when the
    GUI modules are not there. *)
Theorem operations_refuse_after_disconnect
        (pil : Pillow) (w w' : World) (filename : option string) (duration fps : Z)
        (fuel : nat) (vfps vscale : string) (sched : list Action) :
  disconnect host w = (Val tt, w') ->
  connected (self w') = false
  /\ get_device_info host w' = (Val None, emit (Print "Device not connected") w')
  /\ take_screenshot host filename w' = (Val PyFalse, emit (Print "Device not connected") w')
  /\ start_screen_recording host filename duration w'
     = (Val PyFalse, emit (Print "Device not connected") w')
  /\ start_live_stream host fuel fps w'
     = (Val (Some false), emit (Print "Device not connected") w')
  /\ view_screen_realtime host pil vfps vscale sched w'
     = (Val false,
        if GUI_AVAILABLE host
        then emit (Print "Device not connected") w'
        else emit (Print "pip install pillow")
               (emit (Print "Real-time viewer not available. Please install required packages:")
                  w'),
        None).
Proof.
  intros H. destruct (disconnect_returns w w' H) as (Hs & _).
  assert (Hc : connected (self w') = false) by (rewrite Hs; reflexivity).
  split; [exact Hc|].
  unfold get_device_info, take_screenshot, start_screen_recording, start_live_stream,
    view_screen_realtime, bind, get_self, print, ret.
  rewrite Hc. cbn [negb].
  repeat (split; [reflexivity|]).
  destruct (GUI_AVAILABLE host); reflexivity.
Qed.

(** *** [start_live_stream] *)

Lemma sleeps_app (a b : list Event) : sleeps (a ++ b) = (sleeps a + sleeps b)%nat.
Proof.
  induction a as [|e a IH]; [reflexivity|].
  destruct e; cbn [app sleeps]; rewrite IH; reflexivity.
Qed.

Lemma live_stream_loop_S (fuel : nat) (fps n : Z) (w : World) :
  streaming (self w) = true ->
  live_stream_loop host (S fuel) fps n w
  = (timestamp <- now_strftime host "%H:%M:%S" ;;
     subprocess_run host CAP_FRAME true ;;;
     subprocess_run host (PULL_FRAME (frame_path (self w) n)) true ;;;
     print ("Frame " ++ Py.str_of_int n ++ " captured at " ++ timestamp) ;;;
     f <- lift (float_of_int fps) ;;
     d <- lift (py_truediv Float.one f) ;;
     time_sleep host true d ;;;
     live_stream_loop host fuel fps (n + 1)) w.
Proof.
  intros Hs. cbn [live_stream_loop]. unfold bind at 1. unfold get_self at 1.
  rewrite Hs. reflexivity.
Qed.

Section Rate.

Variable fps : Z.
Variables f d : Float.float.
Hypothesis fps_float : float_of_int fps = inr f.
Hypothesis fps_wait : py_truediv Float.one f = inr d.
Hypothesis wait_ok : can_sleep d = true.

(** One cycle with both commands passing. *)
Lemma cycle_passes (fuel : nat) (n : Z) (w : World) (o1 o2 : string) (m1 m2 : N) :
  streaming (self w) = true ->
  adb host (trace w) CAP_FRAME = Completed 0 o1 m1 ->
  adb host (trace w ++ [Run CAP_FRAME (Completed 0 o1 m1)]) (PULL_FRAME (frame_path (self w) n))
  = Completed 0 o2 m2 ->
  let new := cycle_events host d (self w) n (trace w) o1 o2 m1 m2 in
  let w' := {| self := self w; trace := (trace w ++ new)%list |} in
  live_stream_loop host (S fuel) fps n w
  = if ctrl_c host (trace w ++ removelast new)
    then (Exc KeyboardInterrupt, w')
    else live_stream_loop host fuel fps (n + 1) w'.
Proof.
  intros Hs H1 H2 new w'.
  rewrite (live_stream_loop_S fuel fps n w Hs).
  unfold bind, now_strftime, subprocess_run, print, emit. cbn [trace self].
  rewrite H1. cbn [andb negb Z.eqb trace self]. rewrite H2.
  cbn [andb negb Z.eqb trace self].
  rewrite fps_float. cbn [lift]. unfold ret at 1. rewrite fps_wait. cbn [lift].
  unfold ret at 1.
  match goal with
  | |- context [time_sleep host true d ?x] =>
      destruct (time_sleep_cases host true d x) as [[_ E] | [E _]];
      [rewrite E; clear E | congruence]
  end.
  unfold emit. cbn [andb trace self].
  subst new w'. unfold cycle_events. cbn [removelast].
  rewrite <- !app_assoc. cbn [app].
  destruct (ctrl_c host _); reflexivity.
Qed.

Lemma frames_from_S (q : QuestADBCapture) (n : Z) (k : nat) :
  frames_from q n (S k) = frame_path q n :: frames_from q (n + 1) k.
Proof.
  unfold frames_from. cbn [seq map]. rewrite Z.add_0_r. f_equal.
  rewrite <- seq_shift, map_map. apply map_ext. intros i.
  replace (n + Z.of_nat (S i)) with (n + 1 + Z.of_nat i) by lia. reflexivity.
Qed.

Lemma frame_commands_S (q : QuestADBCapture) (n : Z) (k : nat) :
  frame_commands q n (S k)
  = CAP_FRAME :: PULL_FRAME (frame_path q n) :: frame_commands q (n + 1) k.
Proof.
  unfold frame_commands. cbn [seq flat_map app]. rewrite Z.add_0_r. do 2 f_equal.
  rewrite <- seq_shift, !flat_map_concat_map, map_map. f_equal.
  apply map_ext. intros i.
  replace (n + Z.of_nat (S i)) with (n + 1 + Z.of_nat i) by lia. reflexivity.
Qed.

Lemma cycle_events_read (q : QuestADBCapture) (n : Z) (t : list Event)
      (o1 o2 : string) (m1 m2 : N) :
  files_written (cycle_events host d q n t o1 o2 m1 m2) = [frame_path q n]
  /\ commands (cycle_events host d q n t o1 o2 m1 m2) = [CAP_FRAME; PULL_FRAME (frame_path q n)]
  /\ sleeps (cycle_events host d q n t o1 o2 m1 m2) = 1%nat
  /\ sleeps (removelast (cycle_events host d q n t o1 o2 m1 m2)) = 0%nat.
Proof. repeat split. Qed.

(** [k] cycles pass while the bridge answers and nobody interrupts: the
    loop is then where it would be had it started at frame [n + k]. *)
Lemma cycles_pass (k : nat) :
  forall (fuel : nat) (n : Z) (w : World) (K : nat),
    streaming (self w) = true ->
    (sleeps (trace w) + k = K)%nat ->
    (forall t argv, (sleeps t < K)%nat -> exists out ms, adb host t argv = Completed 0 out ms) ->
    (forall t, (sleeps t < K)%nat -> ctrl_c host t = false) ->
    exists new,
      live_stream_loop host (k + fuel) fps n w
      = live_stream_loop host fuel fps (n + Z.of_nat k)
          {| self := self w; trace := (trace w ++ new)%list |}
      /\ files_written new = frames_from (self w) n k
      /\ commands new = frame_commands (self w) n k
      /\ sleeps new = k.
Proof.
  induction k as [|k IH]; intros fuel n w K Hs HK Hb Hq.
  - exists []. rewrite app_nil_r, Z.add_0_r. destruct w; repeat split.
  - destruct (Hb (trace w) CAP_FRAME ltac:(lia)) as (o1 & m1 & H1).
    destruct (Hb (trace w ++ [Run CAP_FRAME (Completed 0 o1 m1)])%list
                 (PULL_FRAME (frame_path (self w) n))
                 ltac:(rewrite sleeps_app; cbn [sleeps]; lia)) as (o2 & m2 & H2).
    cbn [Nat.add].
    rewrite (cycle_passes (k + fuel) n w o1 o2 m1 m2 Hs H1 H2).
    destruct (cycle_events_read (self w) n (trace w) o1 o2 m1 m2) as (F & C & S1 & S0).
    rewrite Hq by (rewrite sleeps_app, S0; lia).
    set (new := cycle_events host d (self w) n (trace w) o1 o2 m1 m2) in *.
    destruct (IH fuel (n + 1) {| self := self w; trace := (trace w ++ new)%list |} K)
      as (new' & E & F' & C' & S');
      [exact Hs | cbn [trace]; rewrite sleeps_app, S1; lia | exact Hb | exact Hq |].
    cbn [self trace] in *.
    exists (new ++ new')%list. rewrite E.
    split; [rewrite <- app_assoc;
            replace (n + Z.of_nat (S k)) with (n + 1 + Z.of_nat k) by lia; reflexivity|].
    rewrite files_written_app, commands_app, sleeps_app, F, C, S1, F', C', S'.
    rewrite frames_from_S, frame_commands_S. repeat split.
Qed.

Lemma start_live_stream_connected (fuel : nat) (w : World) :
  connected (self w) = true ->
  let w1 := {| self := set_streaming true (self w);
               trace := (trace w ++ [Print ("Starting live stream at " ++ Py.str_of_int fps
                                              ++ " FPS. Press Ctrl+C to stop.");
                                     Print ("Frames will be saved to: "
                                              ++ output_folder (self w))])%list |} in
  start_live_stream host fuel fps w
  = try_except
      (live_stream_loop host fuel fps 0 ;;; ret None)
      is_KeyboardInterrupt
      (fun _ =>
         print STOPPING ;;;
         update_self (set_streaming false) ;;;
         subprocess_run host RM_FRAME false ;;;
         ret None) w1.
Proof.
  intros Hc w1. unfold start_live_stream. unfold bind at 1. unfold get_self at 1.
  rewrite Hc. cbn [negb].
  unfold bind at 1. unfold print at 1. unfold bind at 1. unfold print at 1.
  unfold bind at 1. unfold update_self at 1. unfold with_self, emit. cbn [self trace].
  rewrite <- app_assoc. reflexivity.
Qed.

(** X12.  With a bridge that always succeeds and a rate whose wait can
    be taken, when Ctrl+C arrives during the wait after frame [k],
    [start_live_stream] has saved the frames [frame_000000.png] to frame
    [k] under the output folder, one screenshot and one pull each, in
    order; it then prints that it stops, clears the streaming flag,
    removes the remote temporary file and returns [None]. *)
Theorem live_stream_saves_numbered_frames_until_interrupt
        (w : World) (k fuel : nat) :
  connected (self w) = true ->
  (k < fuel)%nat ->
  (forall t argv, exists out ms, adb host t argv = Completed 0 out ms) ->
  (forall t, ctrl_c host t = Nat.eqb (sleeps t) (sleeps (trace w) + k)) ->
  exists new,
    start_live_stream host fuel fps w
    = (Val None, {| self := set_streaming false (self w); trace := (trace w ++ new)%list |})
    /\ files_written new = frames_from (self w) 0 (S k)
    /\ commands new = (frame_commands (self w) 0 (S k) ++ [RM_FRAME])%list
    /\ sleeps new = S k
    /\ In STOPPING (printed new).
Proof.
  intros Hc Hk Hb Hi.
  rewrite (start_live_stream_connected fuel w Hc).
  set (w1 := {| self := set_streaming true (self w); trace := _ |}).
  assert (S1 : sleeps (trace w1) = sleeps (trace w))
    by (unfold w1; cbn [trace]; rewrite sleeps_app; cbn; lia).
  destruct (cycles_pass k (fuel - k) 0 w1 (sleeps (trace w) + k)%nat)
    as (new & E & F & C & Sn);
    [reflexivity | lia | intros; apply Hb
    | intros t Ht; rewrite Hi; apply Nat.eqb_neq; lia |].
  replace (k + (fuel - k))%nat with fuel in E by lia.
  destruct (fuel - k)%nat as [|fuel'] eqn:Ef; [lia|].
  set (wk := {| self := self w1; trace := (trace w1 ++ new)%list |}) in *.
  destruct (Hb (trace wk) CAP_FRAME) as (o1 & m1 & H1).
  destruct (Hb (trace wk ++ [Run CAP_FRAME (Completed 0 o1 m1)])%list
               (PULL_FRAME (frame_path (self wk) (0 + Z.of_nat k)))) as (o2 & m2 & H2).
  rewrite (cycle_passes fuel' (0 + Z.of_nat k) wk o1 o2 m1 m2 eq_refl H1 H2) in E.
  destruct (cycle_events_read (self wk) (0 + Z.of_nat k) (trace wk) o1 o2 m1 m2)
    as (F' & C' & S' & S0).
  set (last := cycle_events host d (self wk) (0 + Z.of_nat k) (trace wk) o1 o2 m1 m2) in *.
  rewrite Hi in E.
  replace (sleeps (trace wk ++ removelast last)) with (sleeps (trace w) + k)%nat in E
    by (rewrite sleeps_app, S0; unfold wk; cbn [trace]; rewrite sleeps_app; lia).
  rewrite Nat.eqb_refl in E.
  unfold try_except, bind at 1. rewrite E. cbn [is_KeyboardInterrupt].
  unfold bind, print, update_self, subprocess_run, with_self, emit, ret. cbn [trace self].
  match goal with
  | |- context [adb host ?t RM_FRAME] =>
      destruct (Hb t RM_FRAME) as (o3 & m3 & H3); rewrite H3
  end.
  cbn [andb trace self].
  exists ([Print ("Starting live stream at " ++ Py.str_of_int fps
                    ++ " FPS. Press Ctrl+C to stop.");
           Print ("Frames will be saved to: " ++ output_folder (self w))]
            ++ new ++ last ++ [Print STOPPING; Run RM_FRAME (Completed 0 o3 m3)])%list.
  split.
  { unfold wk, w1. cbn [self trace set_streaming device_ip adb_port connected streaming
                         output_folder].
    f_equal. f_equal. rewrite <- !app_assoc. reflexivity. }
  rewrite !files_written_app, !commands_app, !sleeps_app, !printed_app.
  rewrite F, C, Sn, F', C', S'. cbn [files_written commands sleeps printed pulled_to app].
  unfold wk, w1. cbn [self].
  assert (Fr : frames_from (set_streaming true (self w)) 0 (S k)
               = (frames_from (set_streaming true (self w)) 0 k
                    ++ [frame_path (set_streaming true (self w)) (0 + Z.of_nat k)])%list).
  { unfold frames_from. rewrite seq_S, map_app. reflexivity. }
  assert (Cm : frame_commands (set_streaming true (self w)) 0 (S k)
               = (frame_commands (set_streaming true (self w)) 0 k
                    ++ [CAP_FRAME;
                        PULL_FRAME (frame_path (set_streaming true (self w))
                                               (0 + Z.of_nat k))])%list).
  { unfold frame_commands. rewrite seq_S, flat_map_app. cbn [flat_map app].
    reflexivity. }
  split; [symmetry; exact Fr|].
  split; [change (frame_commands (self w)) with (frame_commands (set_streaming true (self w)));
          rewrite Cm, <- !app_assoc; reflexivity|].
  split; [lia|].
  right. right. apply in_or_app. right. apply in_or_app. right. left. reflexivity.
Qed.

(** X13.  When, after [k] frames saved, the screenshot or the pull of
    the next frame exits non-zero, the [CalledProcessError] leaves
    [start_live_stream] (it handles [KeyboardInterrupt] only): the
    streaming flag stays set, the remote temporary file is not removed,
    and the frames saved are the first [k]. *)
Theorem live_stream_failure_escapes
        (w : World) (k fuel : nat) (cmd : list string) (rc : Z) (out : string) (ms : N) :
  connected (self w) = true ->
  (k < fuel)%nat ->
  rc <> 0 ->
  let K := (sleeps (trace w) + k)%nat in
  let p := frame_path (self w) (Z.of_nat k) in
  (forall t argv, (sleeps t < K)%nat -> exists o m, adb host t argv = Completed 0 o m) ->
  (forall t, (sleeps t < K)%nat -> ctrl_c host t = false) ->
  (forall t, sleeps t = K -> adb host t cmd = Completed rc out ms) ->
  cmd = CAP_FRAME
  \/ (cmd = PULL_FRAME p
      /\ forall t, sleeps t = K -> exists o m, adb host t CAP_FRAME = Completed 0 o m) ->
  exists new,
    start_live_stream host fuel fps w
    = (Exc (CalledProcessError cmd rc),
       {| self := set_streaming true (self w); trace := (trace w ++ new)%list |})
    /\ files_written new = frames_from (self w) 0 k
    /\ (commands new = (frame_commands (self w) 0 k ++ [CAP_FRAME])%list
        \/ commands new = (frame_commands (self w) 0 k ++ [CAP_FRAME; PULL_FRAME p])%list)
    /\ last (commands new) [] = cmd
    /\ ~ In RM_FRAME (commands new).
Proof.
  intros Hc Hk Hrc K p Hb Hq Hfail Hcmd. apply Z.eqb_neq in Hrc.
  rewrite (start_live_stream_connected fuel w Hc).
  set (w1 := {| self := set_streaming true (self w); trace := _ |}).
  assert (S1 : sleeps (trace w1) = sleeps (trace w))
    by (unfold w1; cbn [trace]; rewrite sleeps_app; cbn; lia).
  destruct (cycles_pass k (fuel - k) 0 w1 K) as (new & E & F & C & Sn);
    [reflexivity | unfold K; lia | exact Hb | exact Hq |].
  replace (k + (fuel - k))%nat with fuel in E by lia.
  destruct (fuel - k)%nat as [|fuel'] eqn:Ef; [lia|].
  set (wk := {| self := self w1; trace := (trace w1 ++ new)%list |}) in *.
  assert (Sk : sleeps (trace wk) = K)
    by (unfold wk; cbn [trace]; rewrite sleeps_app; unfold K; lia).
  rewrite (live_stream_loop_S fuel' fps (0 + Z.of_nat k) wk eq_refl) in E.
  assert (Nin : forall l, ~ In RM_FRAME (frame_commands (self w) 0 k ++ l)%list
                          <-> ~ In RM_FRAME l).
  { intros l. rewrite in_app_iff. unfold frame_commands. rewrite in_flat_map.
    split; [tauto|].
    intros H [(i & _ & [D | [D | []]]) | D]; [discriminate D | discriminate D | tauto]. }
  change (frame_commands (self w1) 0 k) with (frame_commands (self w) 0 k) in C.
  change (frames_from (self w1) 0 k) with (frames_from (self w) 0 k) in F.
  change (frame_path (self wk) (0 + Z.of_nat k)) with p in E.
  destruct Hcmd as [-> | [-> Hcap]].
  - (* the screenshot fails *)
    unfold bind, now_strftime, subprocess_run, emit in E. cbn [trace self] in E.
    rewrite (Hfail _ Sk) in E. cbn [andb] in E. rewrite Hrc in E. cbn [negb] in E.
    unfold try_except, bind. rewrite E.
    exists ([Print ("Starting live stream at " ++ Py.str_of_int fps
                      ++ " FPS. Press Ctrl+C to stop.");
             Print ("Frames will be saved to: " ++ output_folder (self w))]
              ++ new ++ [Run CAP_FRAME (Completed rc out ms)])%list.
    split.
    { cbn [is_KeyboardInterrupt]. unfold wk, w1. cbn [self trace].
      rewrite <- !app_assoc. reflexivity. }
    rewrite !files_written_app, !commands_app, F, C.
    cbn [files_written commands pulled_to app]. rewrite app_nil_r.
    split; [reflexivity|]. split; [left; reflexivity|].
    split; [apply last_last|].
    apply Nin. intros [D | []]. discriminate D.
  - (* the pull fails *)
    destruct (Hcap _ Sk) as (o1 & m1 & H1).
    unfold bind, now_strftime, subprocess_run, emit in E. cbn [trace self] in E.
    rewrite H1 in E. cbn [andb negb Z.eqb trace self] in E.
    rewrite (Hfail (trace wk ++ [Run CAP_FRAME (Completed 0 o1 m1)])%list) in E
      by (rewrite sleeps_app; cbn [sleeps]; lia).
    cbn [andb] in E. rewrite Hrc in E. cbn [negb] in E.
    unfold try_except, bind. rewrite E.
    exists ([Print ("Starting live stream at " ++ Py.str_of_int fps
                      ++ " FPS. Press Ctrl+C to stop.");
             Print ("Frames will be saved to: " ++ output_folder (self w))]
              ++ new ++ [Run CAP_FRAME (Completed 0 o1 m1);
                         Run (PULL_FRAME p) (Completed rc out ms)])%list.
    split.
    { cbn [is_KeyboardInterrupt]. unfold wk, w1. cbn [self trace].
      rewrite <- !app_assoc. reflexivity. }
    rewrite !files_written_app, !commands_app, F, C.
    cbn [files_written commands pulled_to app PULL_FRAME String.eqb Ascii.eqb Bool.eqb andb].
    rewrite Hrc. rewrite app_nil_r.
    split; [reflexivity|]. split; [right; reflexivity|].
    split.
    { assert (L2 : forall (l : list (list string)) a b, last (l ++ [a; b])%list [] = b).
      { intros l a b. change [a; b] with ([a] ++ [b])%list.
        rewrite app_assoc. apply last_last. }
      apply L2. }
    apply Nin. intros [D | [D | []]]; discriminate D.
Qed.

End Rate.


(** The loop of [start_live_stream] does not end by itself: the flag it
    tests is cleared by the handler only. *)
Lemma live_stream_loop_never_returns (fps : Z) (fuel : nat) :
  forall (n : Z) (w w' : World) (r : Res unit),
    streaming (self w) = true ->
    live_stream_loop host fuel fps n w = (r, w') ->
    self w' = self w /\ (forall u, r <> Val u).
Proof.
  induction fuel as [|fuel IH]; intros n w w' r Hs.
  - cbn [live_stream_loop]. unfold bind, get_self. rewrite Hs. cbn [negb].
    unfold out_of_fuel. intros H; inversion H; subst. split; [reflexivity | discriminate].
  - rewrite (live_stream_loop_S fuel fps n w Hs).
    unfold bind at 1. unfold now_strftime at 1.
    unfold bind at 1.
    destruct (subprocess_run host CAP_FRAME true w) as [[c1|e1|] w1] eqn:E1;
      destruct (subprocess_run_effect host _ _ _ _ _ E1) as (Hs1 & _ & _);
      try (intros H; inversion H; subst; split; [assumption | discriminate]).
    unfold bind at 1.
    destruct (subprocess_run host _ true w1) as [[c2|e2|] w2] eqn:E2;
      destruct (subprocess_run_effect host _ _ _ _ _ E2) as (Hs2 & _ & _);
      try (intros H; inversion H; subst; split; [congruence | discriminate]).
    unfold bind at 1. unfold print at 1.
    set (w3 := emit _ w2).
    assert (Hs3 : self w3 = self w) by (unfold w3, emit; cbn [self]; congruence).
    unfold bind at 1.
    destruct (float_of_int fps) as [e|f]; cbn [lift]; unfold raise, ret;
      [intros H; inversion H; subst; split; [assumption | discriminate]|].
    unfold bind at 1.
    destruct (py_truediv Float.one f) as [e|d]; cbn [lift]; unfold raise, ret;
      [intros H; inversion H; subst; split; [assumption | discriminate]|].
    unfold bind at 1.
    destruct (time_sleep_cases host true d w3) as [[_ E] | [_ (e & _ & E)]]; rewrite E.
    + destruct (andb true (ctrl_c host (trace w3))).
      * intros H; inversion H; subst. split; [exact Hs3 | discriminate].
      * intros H. apply IH in H; [|unfold emit; cbn [self]; congruence].
        destruct H as [H1 H2]. split; [|exact H2].
        rewrite H1. unfold emit. cbn [self]. exact Hs3.
    + intros H; inversion H; subst. split; [exact Hs3 | discriminate].
Qed.

(** X14.  [start_live_stream] on a connected session returns only
    through its Ctrl+C handler: a returned run has the value [None], the
    streaming flag cleared and the removal of the remote file as its
    last command; a run left by an exception has the flag still set,
    unless the exception is the one the removal itself raised; a run
    still going has the flag set.  The connected flag is never
    touched. *)
Theorem live_stream_returns_only_after_interrupt (fuel : nat) (fps : Z) (w : World) :
  connected (self w) = true ->
  let run := start_live_stream host fuel fps w in
  let q := self (snd run) in
  connected q = true
  /\ match fst run with
     | Val r =>
         r = None /\ streaming q = false
         /\ exists t reply, trace (snd run) = (t ++ [Run RM_FRAME reply])%list
                            /\ In STOPPING (printed t)
     | Exc e =>
         (streaming q = true /\ is_KeyboardInterrupt e = false)
         \/ (streaming q = false
             /\ exists t, trace (snd run) = (t ++ [Run RM_FRAME (Raised e)])%list)
     | OutOfFuel => streaming q = true
     end.
Proof.
  intros Hc run q. subst q run.
  rewrite (start_live_stream_connected fps fuel w Hc).
  set (w1 := {| self := set_streaming true (self w); trace := _ |}).
  unfold try_except, bind, print, update_self, subprocess_run, with_self, emit, ret.
  destruct (live_stream_loop host fuel fps 0 w1) as [r w2] eqn:E.
  destruct (live_stream_loop_never_returns fps fuel 0 w1 w2 r eq_refl E) as [Hs Hr].
  destruct r as [u|e|].
  - exfalso. exact (Hr u eq_refl).
  - destruct (is_KeyboardInterrupt e) eqn:Ke.
    + cbn [trace self].
      destruct (adb host _ RM_FRAME) as [rc out ms|e'] eqn:Hr3;
        cbn [andb fst snd self trace]; rewrite Hs.
      * split; [exact Hc|]. split; [reflexivity|]. split; [reflexivity|].
        do 2 eexists. split; [reflexivity|].
        rewrite printed_app. apply in_or_app. right. left. reflexivity.
      * split; [exact Hc|]. right. split; [reflexivity|].
        eexists. reflexivity.
    + cbn [fst snd]. rewrite Hs. split; [exact Hc|]. left. split; [reflexivity | exact Ke].
  - cbn [fst snd]. rewrite Hs. split; [exact Hc | reflexivity].
Qed.

End StreamFacts.

(** ** More on the live viewer *)

Section MoreViewerFacts.

Variable host : Host.
Variable pil : Pillow.

Local Abbreviation step := (capture_step host pil).
Local Abbreviation go := (run_actions host pil).

Ltac fields :=
  unfold active in *;
  cbn [world current_image frame_count fps_var scale_var label_image status_text
       timer in_mainloop thread set_world set_thread set_current_image
       set_frame_count set_controls set_label set_timer set_in_mainloop
       self trace with_self emit set_streaming streaming connected] in *.

Lemma reads_screen_read (new : list Event) :
  Forall reads_screen new ->
  Forall (eq SCREENCAP) (commands new) /\ files_written new = [].
Proof.
  induction 1 as [|e new He _ [IH1 IH2]]; [split; [constructor | reflexivity]|].
  destruct e as [argv r| |]; cbn [commands files_written pulled_to]; try (split; assumption).
  cbn in He. subst argv. split; [constructor; [reflexivity | exact IH1]|].
  destruct r; exact IH2.
Qed.

(** What a step of the thread adds to the trace. *)
Lemma step_trace (v : Viewer) :
  exists new,
    trace (world (step v)) = (trace (world v) ++ new)%list
    /\ Forall reads_screen new
    /\ connected (self (world (step v))) = connected (self (world v)).
Proof.
  destruct v as [w0 ci fc fv sv li st tm ml th].
  assert (Hfail : forall th' e w1 new,
             trace w1 = (trace w0 ++ new)%list ->
             Forall reads_screen new ->
             connected (self w1) = connected (self w0) ->
             exists new',
               trace (world (capture_failed e
                 {| world := w1; current_image := ci; frame_count := fc; fps_var := fv;
                    scale_var := sv; label_image := li; status_text := st; timer := tm;
                    in_mainloop := ml; thread := th' |}))
               = (trace w0 ++ new')%list
               /\ Forall reads_screen new'
               /\ connected (self (world (capture_failed e
                 {| world := w1; current_image := ci; frame_count := fc; fps_var := fv;
                    scale_var := sv; label_image := li; status_text := st; timer := tm;
                    in_mainloop := ml; thread := th' |})))
                  = connected (self w0)).
  { intros th' e w1 new Hnew Hq Hcn. unfold capture_failed.
    destruct (is_Exception e); fields.
    - exists (new ++ [Print ("Error in capture thread: " ++ str_of_exn e)])%list.
      rewrite Hnew, <- app_assoc. split; [reflexivity|].
      split; [|exact Hcn].
      apply Forall_app. split; [exact Hq | repeat constructor].
    - exists new. auto. }
  assert (Hnil : trace w0 = (trace w0 ++ [])%list) by now rewrite app_nil_r.
  unfold capture_step. fields.
  destruct th; fields.
  - destruct (streaming (self w0)); fields; exists []; auto.
  - destruct (control_value fv DEFAULT_FPS) as [e|f]; [now apply (Hfail _ _ _ [])|].
    destruct (control_value sv DEFAULT_SCALE) as [e|sc]; [now apply (Hfail _ _ _ [])|].
    fields. exists []; auto.
  - unfold subprocess_run, emit. fields. fold SCREENCAP.
    destruct (adb host (trace w0) SCREENCAP) as [rc out ms|e] eqn:Er; cbn [andb returncode].
    + destruct (rc =? 0); fields; eexists; (split; [reflexivity|]);
        (split; [repeat constructor | reflexivity]).
    + apply (Hfail _ _ _ [Run SCREENCAP (Raised e)]);
        [reflexivity | repeat constructor | reflexivity].
  - destruct (process_image _ _ _) as [e|img]; fields.
    + eexists. split; [reflexivity|]. split; [repeat constructor | reflexivity].
    + exists []; auto.
  - exists []; auto.
  - exists []; auto.
  - unfold bind, lift.
    destruct (py_truediv Float.one current_fps) as [e|d].
    + unfold raise. now apply (Hfail _ _ _ []).
    + unfold ret.
      destruct (time_sleep_cases host false d w0) as [[_ ->] | [_ (e & _ & ->)]].
      * cbn [andb]. fields. eexists. split; [reflexivity|].
        split; [repeat constructor | reflexivity].
      * now apply (Hfail _ _ _ []).
  - exists []; auto.
  - exists []; auto.
Qed.

(** The window's own actions leave the trace alone. *)
Lemma gui_action_trace (a : Action) (v : Viewer) :
  a <> Capture ->
  trace (world (act host pil a v)) = trace (world v)
  /\ connected (self (world (act host pil a v))) = connected (self (world v)).
Proof.
  intros Ha. unfold act.
  destruct a; try congruence; destruct (in_mainloop v); fields; auto.
  destruct (timer v) eqn:T; auto.
  unfold update_display; fields.
  destruct (current_image v) eqn:C; fields;
    repeat match goal with
           | |- context [if ?c then _ else _] => destruct c; fields
           | |- context [match ?c with _ => _ end] => destruct c; fields
           end; auto.
Qed.

Lemma act_trace (a : Action) (v : Viewer) :
  exists new,
    trace (world (act host pil a v)) = (trace (world v) ++ new)%list
    /\ Forall reads_screen new
    /\ connected (self (world (act host pil a v))) = connected (self (world v)).
Proof.
  destruct a;
    try match goal with
        | |- context [act _ _ ?a _] =>
            destruct (gui_action_trace a v ltac:(discriminate)) as [T C];
            exists []; rewrite T, C, app_nil_r; auto
        end.
  apply step_trace.
Qed.

Lemma run_trace (l : list Action) :
  forall v,
    exists new,
      trace (world (go l v)) = (trace (world v) ++ new)%list
      /\ Forall reads_screen new
      /\ connected (self (world (go l v))) = connected (self (world v)).
Proof.
  induction l as [|a l IH]; intros v.
  - exists []. rewrite app_nil_r. auto.
  - destruct (act_trace a v) as (n1 & T1 & Q1 & C1).
    destruct (IH (act host pil a v)) as (n2 & T2 & Q2 & C2).
    change (go (a :: l) v) with (go l (act host pil a v)).
    exists (n1 ++ n2)%list. rewrite T2, T1, C2, C1, <- app_assoc.
    split; [reflexivity|]. split; [|reflexivity]. apply Forall_app. auto.
Qed.

(** [mainloop] runs a prefix of its schedule. *)
Lemma mainloop_runs_prefix (sched : list Action) :
  forall v, exists done rest, sched = (done ++ rest)%list
                              /\ mainloop host pil sched v = go done v.
Proof.
  induction sched as [|a sched IH]; intros v.
  - exists [], []. split; [reflexivity|]. cbn. destruct (in_mainloop v); reflexivity.
  - cbn [mainloop]. destruct (in_mainloop v).
    + destruct (IH (act host pil a v)) as (done & rest & -> & E).
      exists (a :: done), rest. split; [reflexivity | exact E].
    + exists [], (a :: sched). split; reflexivity.
Qed.

(** X15.  Whatever the schedule, and whatever the capture thread still
    does after the window is gone, the viewer sends no command to the
    bridge but [adb shell screencap -p], writes no file, and leaves the
    connected flag as it was. *)
Theorem viewer_only_reads_the_screen
        (fps scale : string) (sched more : list Action) (w : World) :
  let run := view_screen_realtime host pil fps scale sched w in
  let final := match snd run with
               | Some v => world (go more v)
               | None => snd (fst run)
               end in
  exists new,
    trace final = (trace w ++ new)%list
    /\ Forall (eq SCREENCAP) (commands new)
    /\ files_written new = []
    /\ connected (self final) = connected (self w).
Proof.
  intros run final. subst final run. unfold view_screen_realtime.
  destruct (GUI_AVAILABLE host); cbn [negb].
  2:{ cbn [fst snd]. eexists. unfold emit. cbn [trace self].
      split; [rewrite <- app_assoc; reflexivity|]. repeat split; constructor. }
  destruct (connected (self w)) eqn:Hc; cbn [negb].
  2:{ cbn [fst snd]. eexists. unfold emit. cbn [trace self].
      split; [reflexivity|]. repeat split; [constructor | exact Hc]. }
  set (w3 := emit _ (emit _ _)).
  destruct (mainloop_runs_prefix sched (open_viewer fps scale w3)) as (done & rest & _ & ->).
  destruct (run_trace done (open_viewer fps scale w3)) as (n1 & T1 & Q1 & C1).
  set (v := go done (open_viewer fps scale w3)) in *.
  assert (T3 : trace w3
               = (trace w ++ [Print ("Starting real-time viewer at " ++ fps
                                       ++ " FPS, scale " ++ scale);
                              Print "Close the window or click 'Stop' to exit"])%list).
  { unfold w3, emit, with_self. cbn [trace self]. rewrite <- app_assoc. reflexivity. }
  assert (C3 : connected (self w3) = true) by (unfold w3, emit, with_self; cbn; exact Hc).
  cbn [world open_viewer] in T1, C1.
  destruct (in_mainloop v); cbn [fst snd].
  - destruct (run_trace more v) as (n2 & T2 & Q2 & C2).
    exists ([Print ("Starting real-time viewer at " ++ fps ++ " FPS, scale " ++ scale);
             Print "Close the window or click 'Stop' to exit"] ++ n1 ++ n2)%list.
    rewrite T2, T1, T3, C2, C1, C3, <- !app_assoc.
    split; [reflexivity|]. split; [|split; [|reflexivity]];
      apply reads_screen_read; repeat constructor; apply Forall_app; auto.
  - set (w4 := emit _ (with_self _ (world v))).
    destruct (run_trace more (set_world w4 v)) as (n2 & T2 & Q2 & C2).
    cbn [world set_world] in T2, C2.
    exists ([Print ("Starting real-time viewer at " ++ fps ++ " FPS, scale " ++ scale);
             Print "Close the window or click 'Stop' to exit"] ++ n1
              ++ [Print "Real-time viewer stopped"] ++ n2)%list.
    rewrite T2, C2. unfold w4, emit, with_self. cbn [trace self connected set_streaming].
    rewrite T1, T3, C1, C3, <- !app_assoc.
    split; [reflexivity|]. split; [|split; [|reflexivity]];
      apply reads_screen_read; repeat constructor; apply Forall_app; split; auto;
      repeat constructor; auto.
Qed.

(** *** When the viewer returns *)

Lemma act_in_mainloop (a : Action) (v : Viewer) :
  in_mainloop v = true ->
  in_mainloop (act host pil a v) = negb (ends_mainloop a).
Proof.
  intros H. destruct a; cbn [act ends_mainloop negb]; rewrite ?H; fields; auto.
  - destruct (step_shape host pil v) as (t & w & E & _). rewrite E. exact H.
  - destruct (timer v); [|exact H].
    unfold update_display; fields.
    destruct (current_image v); fields;
      repeat match goal with
             | |- context [if ?c then _ else _] => destruct c; fields
             | |- context [match ?c with _ => _ end] => destruct c; fields
             end; auto.
Qed.

Lemma mainloop_ends (sched : list Action) :
  forall v, in_mainloop v = true ->
            in_mainloop (mainloop host pil sched v) = negb (existsb ends_mainloop sched).
Proof.
  induction sched as [|a sched IH]; intros v H; cbn [mainloop existsb]; rewrite H.
  - exact H.
  - pose proof (act_in_mainloop a v H) as Ha.
    destruct (ends_mainloop a); cbn [negb orb] in *.
    + destruct sched; cbn [mainloop]; rewrite Ha; exact Ha.
    + now apply IH.
Qed.

(** X16.  On a connected session with the GUI available,
    [view_screen_realtime] returns exactly when the user ends the window
    (Stop, closing it, or Ctrl+C): it then returns [True] with the
    streaming flag cleared and [Real-time viewer stopped] as its last
    line, also when the capture thread has failed before; without such
    an action the window stays up, whatever the thread does. *)
Theorem viewer_returns_when_the_user_ends_it
        (fps scale : string) (sched : list Action) (w : World) :
  GUI_AVAILABLE host = true ->
  connected (self w) = true ->
  let run := view_screen_realtime host pil fps scale sched w in
  let w' := snd (fst run) in
  if existsb ends_mainloop sched
  then fst (fst run) = Val true
       /\ streaming (self w') = false
       /\ last (printed (trace w')) EmptyString = "Real-time viewer stopped"
  else fst (fst run) = OutOfFuel
       /\ exists v, snd run = Some v /\ in_mainloop v = true.
Proof.
  intros Hg Hc run w'. subst w' run. unfold view_screen_realtime.
  rewrite Hg, Hc. cbn [negb].
  set (w3 := emit _ (emit _ _)).
  rewrite (mainloop_ends sched (open_viewer fps scale w3) eq_refl).
  destruct (existsb ends_mainloop sched) eqn:E; cbn [negb fst snd].
  - split; [reflexivity|]. split; [reflexivity|].
    unfold emit. cbn [trace]. rewrite printed_app. apply last_last.
  - split; [reflexivity|]. eexists. split; [reflexivity|].
    now rewrite (mainloop_ends sched (open_viewer fps scale w3) eq_refl), E.
Qed.

(** *** The preview *)

Lemma act_first_frame (a : Action) (v : Viewer) :
  current_image (act host pil a v) = None ->
  current_image v = None
  /\ label_image (act host pil a v) = label_image v
  /\ status_text (act host pil a v) = status_text v.
Proof.
  destruct a.
  - cbn [act]. destruct (step_shape host pil v) as (t & w & E & _). rewrite E. fields.
    destruct (thread v); intros H; try discriminate H; auto.
  - destruct (gui_action_keeps_frames host pil Tick v ltac:(discriminate)) as (_ & _ & C).
    rewrite C. intros H. split; [exact H|].
    cbn [act]. destruct (in_mainloop v); [|auto]. destruct (timer v); [|auto].
    unfold update_display. fields. rewrite H. fields.
    destruct (streaming (self (world v))) eqn:A; fields; rewrite ?A; fields; auto.
  - cbn [act]. destruct (in_mainloop v); fields; auto.
  - cbn [act]. destruct (in_mainloop v); fields; auto.
  - cbn [act]. destruct (in_mainloop v); fields; auto.
  - cbn [act]. destruct (in_mainloop v); fields; auto.
  - cbn [act]. destruct (in_mainloop v); fields; auto.
Qed.

(** X17.  As long as the capture thread has published no frame, the
    window shows none and keeps its status text: over any schedule that
    ends with [current_image] still empty, image label and status text
    are as they were at the start. *)
Theorem nothing_is_shown_before_the_first_frame (l : list Action) :
  forall v : Viewer,
    current_image (go l v) = None ->
    current_image v = None
    /\ label_image (go l v) = label_image v
    /\ status_text (go l v) = status_text v.
Proof.
  induction l as [|a l IH]; intros v H; [auto|].
  change (go (a :: l) v) with (go l (act host pil a v)) in *.
  destruct (IH _ H) as (C & L & S).
  destruct (act_first_frame a v C) as (C' & L' & S').
  split; [exact C'|]. split; congruence.
Qed.

Lemma act_keeps_ticking (a : Action) (v : Viewer) :
  timer v <> None \/ active v = false ->
  timer (act host pil a v) <> None \/ active (act host pil a v) = false.
Proof.
  intros H. destruct a.
  - cbn [act]. destruct (step_shape host pil v) as (t & w & E & _ & Hs). rewrite E. fields.
    destruct H as [H | H]; [left; exact H|]. right.
    destruct Hs as [-> | [-> _]]; [exact H | reflexivity].
  - cbn [act]. destruct (in_mainloop v); [|exact H].
    destruct (timer v) eqn:T; [|rewrite T; exact H]. clear H.
    unfold update_display. fields.
    destruct (current_image v) as [img|]; fields.
    + destruct (streaming (self (world v))) eqn:A; fields.
      * destruct (PhotoImage pil img); fields; rewrite A; fields; left; discriminate.
      * rewrite A. fields. right. exact A.
    + destruct (streaming (self (world v))) eqn:A; fields;
        [left; discriminate | right; exact A].
  - cbn [act]. destruct (in_mainloop v); fields; auto.
  - cbn [act]. destruct (in_mainloop v); fields; auto.
  - cbn [act]. destruct (in_mainloop v); fields; auto.
  - cbn [act]. destruct (in_mainloop v); fields; auto.
  - cbn [act]. destruct (in_mainloop v); fields; auto.
Qed.

(** X18.  In a viewer session, while the streaming flag is set a
    refresh of the preview is always pending: no schedule of thread
    steps, ticks and user actions loses the timer. *)
Theorem preview_refresh_is_pending_while_streaming
        (fps scale : string) (w : World) (l : list Action) :
  let v := go l (open_viewer fps scale w) in
  active v = true -> exists ms, timer v = Some ms.
Proof.
  intros v Ha.
  assert (G : forall l v0, (timer v0 <> None \/ active v0 = false) ->
                           timer (go l v0) <> None \/ active (go l v0) = false).
  { clear. intros l. induction l as [|a l IH]; intros v0 H; [exact H|].
    change (go (a :: l) v0) with (go l (act host pil a v0)).
    apply IH, act_keeps_ticking, H. }
  destruct (G l (open_viewer fps scale w)) as [H | H].
  - left. discriminate.
  - fold v in H. destruct (timer v) as [ms|]; [eauto | congruence].
  - fold v in H. congruence.
Qed.

End MoreViewerFacts.

(** ** Line endings and the list of devices *)

Section LineFacts.

(** *** Line endings (the [replace] of [capture_frames]) *)

Lemma startswith_nil (s : string) : Py.startswith s EmptyString = true.
Proof. destruct s; reflexivity. Qed.

(** One character of the translation and of its inverse. *)
Lemma translate_cons (c : ascii) (s : string) :
  Py.replace (String c s) Py.LF CRLF
  = if Ascii.eqb (ascii_of_nat 10) c
    then CRLF ++ Py.replace s Py.LF CRLF
    else String c (Py.replace s Py.LF CRLF).
Proof.
  unfold Py.replace. cbn [Py.replace_from]. cbn [Py.startswith Py.LF].
  rewrite startswith_nil, andb_true_r. reflexivity.
Qed.

Lemma untranslate_crlf (s : string) :
  Py.replace (CRLF ++ s) CRLF Py.LF = Py.LF ++ Py.replace s CRLF Py.LF.
Proof.
  unfold Py.replace.
  change (CRLF ++ s) with (String (ascii_of_nat 13) (String (ascii_of_nat 10) s)).
  cbn [Py.replace_from].
  change (Py.startswith (String (ascii_of_nat 13) (String (ascii_of_nat 10) s)) CRLF)
    with (Py.startswith s EmptyString).
  rewrite startswith_nil. reflexivity.
Qed.

Lemma untranslate_other (c : ascii) (s : string) :
  Py.startswith (String c s) CRLF = false ->
  Py.replace (String c s) CRLF Py.LF = String c (Py.replace s CRLF Py.LF).
Proof. intros H. unfold Py.replace. cbn [Py.replace_from]. now rewrite H. Qed.

Lemma startswith_crlf (s : string) :
  Py.startswith s CRLF = true -> exists r, s = CRLF ++ r.
Proof.
  destruct s as [|c [|d r]]; cbn [CRLF Py.CR Py.LF append Py.startswith];
    try discriminate.
  - rewrite andb_false_r. discriminate.
  - intros H. apply andb_true_iff in H. destruct H as [H1 H].
    apply andb_true_iff in H. destruct H as [H2 _].
    apply Ascii.eqb_eq in H1, H2. subst. exists r. reflexivity.
Qed.

Lemma translated_head (s : string) :
  Py.startswith (Py.replace s Py.LF CRLF) Py.LF = false.
Proof.
  destruct s as [|c s]; [reflexivity|].
  rewrite translate_cons.
  destruct (Ascii.eqb (ascii_of_nat 10) c) eqn:E; [reflexivity|].
  cbn [Py.startswith Py.LF]. rewrite E. reflexivity.
Qed.

(** X19.  The replacement of CR LF by LF that [capture_frames] applies
    to the output of [screencap -p] undoes the translation of LF into
    CR LF exactly: for every byte string, translating and then replacing
    gives the string back. *)
Theorem crlf_translation_is_undone (s : string) :
  Py.replace (Py.replace s Py.LF CRLF) CRLF Py.LF = s.
Proof.
  induction s as [|c s IH]; [reflexivity|].
  rewrite translate_cons.
  destruct (Ascii.eqb (ascii_of_nat 10) c) eqn:E.
  - apply Ascii.eqb_eq in E. subst c.
    rewrite untranslate_crlf, IH. reflexivity.
  - rewrite untranslate_other, IH; [reflexivity|].
    cbn [CRLF Py.CR Py.LF append Py.startswith].
    destruct (Ascii.eqb (ascii_of_nat 13) c); [|reflexivity].
    exact (translated_head s).
Qed.

Lemma untranslate_length (s : string) :
  (String.length (Py.replace s CRLF Py.LF) <= String.length s)%nat.
Proof.
  remember (String.length s) as n eqn:Hn. revert s Hn.
  induction n as [n IH] using lt_wf_ind. intros s Hn.
  destruct s as [|c s]; [cbn; lia|].
  destruct (Py.startswith (String c s) CRLF) eqn:E.
  - destruct (startswith_crlf _ E) as [r Hr]. rewrite Hr in *.
    rewrite untranslate_crlf.
    cbn [CRLF Py.CR Py.LF append String.length] in *.
    specialize (IH (String.length r) ltac:(lia) r eq_refl). lia.
  - rewrite (untranslate_other c s E). cbn [String.length] in *.
    specialize (IH (String.length s) ltac:(lia) s eq_refl). lia.
Qed.

(** X20.  An output of [screencap -p] that is a PNG as it stands (it
    starts with the PNG signature, which contains CR LF) is altered by
    that replacement: what is handed to [Image.open] is shorter and no
    longer starts with the signature. *)
Theorem untranslated_png_loses_its_signature (out : string) :
  Py.startswith out PNG_SIGNATURE = true ->
  Py.startswith (Py.replace out CRLF Py.LF) PNG_SIGNATURE = false
  /\ (String.length (Py.replace out CRLF Py.LF) < String.length out)%nat.
Proof.
  intros H. unfold PNG_SIGNATURE in H.
  do 8 (destruct out as [|? out];
        [discriminate H|];
        cbn [Py.startswith append Py.CR Py.LF] in H;
        apply andb_true_iff in H; destruct H as [Hc H];
        apply Ascii.eqb_eq in Hc; subst).
  clear H.
  do 4 (rewrite untranslate_other by reflexivity).
  match goal with
  | |- context [Py.replace (String ?a (String ?b ?r)) CRLF Py.LF] =>
      change (String a (String b r)) with (CRLF ++ r)
  end.
  rewrite untranslate_crlf.
  do 2 (rewrite untranslate_other by reflexivity).
  split; [reflexivity|].
  pose proof (untranslate_length out) as L.
  cbn [CRLF Py.CR Py.LF append String.length] in *. lia.
Qed.

(** *** The list of devices *)

Lemma startswith_contains (s p : string) :
  Py.startswith s p = true -> Py.contains s p = true.
Proof.
  destruct s; cbn [Py.contains]; intros ->; reflexivity.
Qed.

Lemma no_tab_then (s rest : string) :
  Py.contains s Py.TAB = false -> Py.contains s (Py.TAB ++ rest) = false.
Proof.
  induction s as [|c s IH]; [reflexivity|].
  cbn [Py.contains Py.TAB append Py.startswith].
  intros H. apply orb_false_iff in H. destruct H as [Hc Hs].
  rewrite startswith_nil, andb_true_r in Hc. rewrite Hc. cbn [andb orb]. exact (IH Hs).
Qed.

Lemma tab_device_in_line (serial state : string) :
  Py.contains serial Py.TAB = false ->
  Py.contains state Py.TAB = false ->
  Py.contains (serial ++ Py.TAB ++ state) (Py.TAB ++ "device")
  = Py.startswith state "device".
Proof.
  intros Hs Ht. induction serial as [|c serial IH].
  - change (EmptyString ++ Py.TAB ++ state) with (String (ascii_of_nat 9) state).
    change (Py.TAB ++ "device") with (String (ascii_of_nat 9) "device").
    cbn [Py.contains]. cbn [Py.startswith]. rewrite Ascii.eqb_refl.
    cbn [andb].
    pose proof (no_tab_then state "device" Ht) as N.
    change (Py.TAB ++ "device") with (String (ascii_of_nat 9) "device") in N.
    rewrite N. apply orb_false_r.
  - cbn [Py.contains Py.TAB append Py.startswith] in Hs.
    apply orb_false_iff in Hs. destruct Hs as [Hc Hs].
    rewrite startswith_nil, andb_true_r in Hc.
    change ((String c serial) ++ Py.TAB ++ state) with (String c (serial ++ Py.TAB ++ state)).
    cbn [Py.contains]. rewrite (IH Hs).
    change (Py.TAB ++ "device") with (String (ascii_of_nat 9) "device").
    cbn [Py.startswith]. rewrite Hc. reflexivity.
Qed.

Lemma serial_of_line (serial state : string) :
  Py.contains serial Py.TAB = false ->
  hd EmptyString (Py.split (ascii_of_nat 9) (serial ++ Py.TAB ++ state)) = serial.
Proof.
  induction serial as [|c serial IH]; intros Hs.
  - cbn [append Py.TAB Py.split]. rewrite Ascii.eqb_refl. reflexivity.
  - cbn [Py.contains Py.TAB append Py.startswith] in Hs.
    apply orb_false_iff in Hs. destruct Hs as [Hc Hs]. rewrite startswith_nil, andb_true_r in Hc.
    cbn [append Py.split]. rewrite Ascii.eqb_sym, Hc.
    specialize (IH Hs).
    destruct (Py.split (ascii_of_nat 9) (serial ++ Py.TAB ++ state)) as [|x xs];
      cbn [hd] in *; now rewrite IH.
Qed.

(** X21.  Of the lines of [adb devices] after the header, each a serial
    number, a tab and a state, the USB branch of [connect_device] counts
    those whose state starts with [device], by their serial numbers and
    in order: a headset listed as [unauthorized] or [offline] is not
    found. *)
Theorem only_lines_in_device_state_count (out : string) (entries : list (string * string)) :
  device_lines out = map device_line entries ->
  Forall (fun e => Py.contains (fst e) Py.TAB = false
                   /\ Py.contains (snd e) Py.TAB = false) entries ->
  devices_of out
  = map fst (filter (fun e => Py.startswith (snd e) "device") entries).
Proof.
  intros Hl Hf. unfold devices_of. rewrite Hl. clear Hl.
  induction Hf as [|[serial state] entries [Hs Ht] _ IH]; [reflexivity|].
  cbn [map filter fst snd] in *.
  change (device_line (serial, state)) with (serial ++ Py.TAB ++ state).
  rewrite (tab_device_in_line serial state Hs Ht).
  destruct (Py.startswith state "device"); cbn [map fst]; rewrite IH;
    [rewrite (serial_of_line serial state Hs)|]; reflexivity.
Qed.

End LineFacts.

(** ** Starting up and the menu *)

Section StartupFacts.

Variable m : Machine.
Variable host : Host.
Variable pil : Pillow.
Variable stream_fuel : nat.
Variable gui_user : list Event -> list Action.

Lemma setup_output_folder_fails (s : Process) :
  setup_output_folder m s = (Crashed (UnboundLocalError "os"), s).
Proof.
  unfold setup_output_folder.
  destruct (String.eqb (Py.lower (platform_system m)) "windows"); [reflexivity|].
  destruct (String.eqb (Py.lower (platform_system m)) "darwin"); reflexivity.
Qed.

(** X22.  [setup_output_folder] raises [UnboundLocalError] for its
    local variable [os] on every platform, before it has touched the
    disk or printed a line: the [import os] of its handler makes the
    name local to the function.  So the constructor [__init__] raises
    the same for every argument. *)
Theorem construction_always_raises
        (device_ip : option string) (adb_port : Z) (s : Process) :
  setup_output_folder m s = (Crashed (UnboundLocalError "os"), s)
  /\ __init__ m device_ip adb_port s = (Crashed (UnboundLocalError "os"), s).
Proof.
  split; [apply setup_output_folder_fails|].
  unfold __init__, andthen. now rewrite setup_output_folder_fails.
Qed.

(** X23.  [main] ends where it constructs the object, with
    [UnboundLocalError] (or with [EOFError] when the input ends before):
    it has printed its two banner lines and nothing else, has sent no
    command to the bridge and has left the disk alone. *)
Theorem main_never_reaches_the_bridge (fuel : nat) (s : Process) :
  let run := main m host pil stream_fuel gui_user fuel s in
  screen (snd run)
  = (screen s ++ [Print "Oculus Quest ADB Screen Capture Tool";
                  Print "====================================="])%list
  /\ disk (snd run) = disk s
  /\ (fst run = Crashed (UnboundLocalError "os")
      \/ (fst run = Crashed EOFError /\ typed (snd run) = [])).
Proof.
  unfold main, andthen, say, input. cbn [screen typed asked disk].
  destruct (typed s) as [|c rest].
  - cbn [fst snd screen disk typed]. rewrite <- app_assoc.
    split; [reflexivity|]. split; [reflexivity|]. right. split; reflexivity.
  - destruct (String.eqb (Py.strip c) "2").
    + cbn [screen typed asked disk]. destruct rest as [|ip rest].
      * cbn [fst snd screen disk typed]. rewrite <- app_assoc.
        split; [reflexivity|]. split; [reflexivity|]. right. split; reflexivity.
      * unfold __init__, andthen. rewrite setup_output_folder_fails.
        cbn [fst snd screen disk typed]. rewrite <- app_assoc.
        split; [reflexivity|]. split; [reflexivity|]. left. reflexivity.
    + unfold __init__, andthen. rewrite setup_output_folder_fails.
      cbn [fst snd screen disk typed]. rewrite <- app_assoc.
      split; [reflexivity|]. split; [reflexivity|]. left. reflexivity.
Qed.

(** *** The menu *)

Lemma say_all_run (lines : list string) :
  forall s, say_all lines s
            = (Returned tt,
               {| screen := (screen s ++ map Print lines)%list; typed := typed s;
                  asked := asked s; disk := disk s |}).
Proof.
  induction lines as [|l lines IH]; intros s.
  - cbn. rewrite app_nil_r. destruct s; reflexivity.
  - cbn [say_all map]. unfold andthen, say. rewrite IH. cbn [screen typed asked disk].
    rewrite <- app_assoc. reflexivity.
Qed.

Lemma not_a_choice (c : string) :
  ~ In c CHOICES ->
  String.eqb c "1" = false /\ String.eqb c "2" = false /\ String.eqb c "3" = false
  /\ String.eqb c "4" = false /\ String.eqb c "5" = false /\ String.eqb c "6" = false.
Proof.
  intros H. repeat split; apply String.eqb_neq; intros ->; apply H; cbn; tauto.
Qed.

(** X24.  A choice other than [1] to [6] costs a round of the menu
    only: the options, the line read, the message [Invalid choice], and
    the menu goes on with the object untouched. *)
Theorem invalid_choice_asks_again
        (fuel : nat) (capture : QuestADBCapture) (s : Process) (c : string)
        (rest : list string) :
  typed s = c :: rest ->
  ~ In (Py.strip c) CHOICES ->
  menu m host pil stream_fuel gui_user (S fuel) capture s
  = menu m host pil stream_fuel gui_user fuel capture
      {| screen := (screen s ++ map Print OPTIONS
                      ++ [Print "Invalid choice. Please enter 1-6."])%list;
         typed := rest;
         asked := (asked s ++ ["Enter your choice (1-6): "])%list;
         disk := disk s |}.
Proof.
  intros Ht Hc. destruct (not_a_choice _ Hc) as (E1 & E2 & E3 & E4 & E5 & E6).
  cbn [menu]. unfold andthen at 1. rewrite say_all_run.
  unfold andthen at 1. unfold input at 1. cbn [screen typed asked disk]. rewrite Ht.
  rewrite E1, E2, E3, E4, E5, E6.
  unfold andthen at 1. unfold say at 1. cbn [screen typed asked disk].
  rewrite <- app_assoc. reflexivity.
Qed.

Lemma disconnect_cases (w : World) :
  exists r new,
    disconnect host w = (r, {| self := (if match r with Val _ => true | _ => false end
                                        then set_connected false (self w) else self w);
                               trace := (trace w ++ new)%list |})
    /\ r <> OutOfFuel
    /\ files_written new = []
    /\ (forall argv, In argv (commands new) ->
                     exists ip, wifi_target (self w) = Some ip
                                /\ argv = DISCONNECT (target (self w) ip)).
Proof.
  unfold disconnect, bind, get_self.
  destruct (wifi_target (self w)) as [ip|] eqn:Hip.
  - unfold subprocess_run, print, update_self, with_self, emit. cbn [trace self].
    destruct (adb host (trace w) _) as [rc out ms|e] eqn:Hr; cbn [andb trace self].
    + exists (Val tt), [Run (DISCONNECT (target (self w) ip)) (Completed rc out ms);
                        Print "Disconnected from device"].
      split; [rewrite <- app_assoc; reflexivity|].
      split; [discriminate|]. split; [reflexivity|].
      intros argv [<- | []]. exists ip. split; reflexivity.
    + exists (Exc e), [Run (DISCONNECT (target (self w) ip)) (Raised e)].
      split; [reflexivity|].
      split; [discriminate|]. split; [reflexivity|].
      intros argv [<- | []]. exists ip. split; reflexivity.
  - unfold ret, update_self, with_self. cbn [trace self].
    exists (Val tt), []. rewrite app_nil_r.
    split; [reflexivity|]. split; [discriminate|]. split; [reflexivity|]. intros argv [].
Qed.

(** X25.  Choice [6] ends the menu, whatever follows in the input: it
    reads no further line, writes no file, and sends at most the one
    [adb disconnect] of the object's network address. *)
Theorem choice_6_disconnects_and_ends
        (fuel : nat) (capture : QuestADBCapture) (s : Process) (c : string)
        (rest : list string) :
  typed s = c :: rest ->
  Py.strip c = "6" ->
  exists r new,
    menu m host pil stream_fuel gui_user (S fuel) capture s
    = (r, {| screen := (screen s ++ map Print OPTIONS ++ new)%list;
             typed := rest;
             asked := (asked s ++ ["Enter your choice (1-6): "])%list;
             disk := disk s |})
    /\ (r = Returned tt \/ exists e, r = Crashed (Escaped e))
    /\ files_written new = []
    /\ (forall argv, In argv (commands new) ->
                     exists ip, wifi_target capture = Some ip
                                /\ argv = DISCONNECT (target capture ip)).
Proof.
  intros Ht Hc.
  cbn [menu]. unfold andthen at 1. rewrite say_all_run.
  unfold andthen at 1. unfold input at 1. cbn [screen typed asked disk]. rewrite Ht.
  rewrite Hc. cbn [String.eqb Ascii.eqb Bool.eqb andb].
  unfold andthen, call. cbn [screen typed asked disk].
  destruct (disconnect_cases {| self := capture;
                                trace := (screen s ++ map Print OPTIONS)%list |})
    as (r & new & E & Hr & Hf & Hcmd).
  rewrite E. cbn [self trace] in *.
  destruct r as [[]|e|]; [| |congruence].
  - exists (Returned tt), new. rewrite <- app_assoc.
    split; [reflexivity|]. split; [left; reflexivity|]. split; assumption.
  - exists (Crashed (Escaped e)), new. rewrite <- app_assoc.
    split; [reflexivity|]. split; [right; eauto|]. split; assumption.
Qed.

(** X26.  In choice [4] of the menu a scale factor that passes the
    digit test but is no number (two points, as [1.2.3]) is not replaced
    by the default: [float] raises [ValueError] in [main], which no
    handler catches; the viewer is not opened and no command is sent. *)
Theorem menu_scale_with_two_points_crashes
        (fuel : nat) (capture : QuestADBCapture) (s : Process)
        (c fps scale : string) (rest : list string) (e : Exn) :
  GUI_AVAILABLE host = true ->
  typed s = c :: fps :: scale :: rest ->
  Py.strip c = "4" ->
  (String.length (Py.strip fps) <= int_max_str_digits m)%nat ->
  Py.isdigit (Py.replace (Py.strip scale) "." "") = true ->
  py_float (Py.strip scale) = inl e ->
  menu m host pil stream_fuel gui_user (S fuel) capture s
  = (Crashed (Escaped e),
     {| screen := (screen s ++ map Print OPTIONS)%list;
        typed := rest;
        asked := (asked s ++ ["Enter your choice (1-6): "; "Enter FPS (default 10): ";
                              "Enter scale factor (default 0.5): "])%list;
        disk := disk s |}).
Proof.
  intros Hg Ht Hc Hlen Hd Hf.
  cbn [menu]. unfold andthen at 1. rewrite say_all_run.
  unfold andthen at 1. unfold input at 1. cbn [screen typed asked disk]. rewrite Ht.
  rewrite Hc. cbn [String.eqb Ascii.eqb Bool.eqb andb]. rewrite Hg. cbn [negb].
  unfold andthen at 1. unfold input at 1. cbn [screen typed asked disk].
  assert (Hint : exists n, int_or m (Py.strip fps) 10 = yield n).
  { unfold int_or, int_of_digits.
    destruct (Py.isdigit (Py.strip fps)); [|eauto].
    assert (L : Nat.ltb (int_max_str_digits m) (String.length (Py.strip fps)) = false)
      by (apply Nat.ltb_ge; exact Hlen).
    rewrite L, andb_false_r. cbn [lift_exn]. eauto. }
  destruct Hint as [n Hn]. unfold andthen at 1. rewrite Hn. unfold yield at 1.
  unfold andthen at 1. unfold input at 1. cbn [screen typed asked disk].
  unfold andthen at 1. unfold control_value. rewrite Hd, Hf. cbn [lift_exn]. unfold crash.
  rewrite <- !app_assoc. reflexivity.
Qed.

End StartupFacts.

(** ** Worked instances *)

Section Instances.

Import Lab.

(** C1 as stated fails: the screenshot command exits with status 1, the
    method returns [False], and no [rm] of the remote file is among the
    commands it issued. *)
Lemma cleanup_not_issued_after_failed_screencap :
  let run := take_screenshot (scripted [Completed 1 EmptyString 0] true)
                             (Some "shot") (fresh true) in
  fst run = Val PyFalse
  /\ commands (trace (snd run)) = [SHOT]
  /\ ~ In RM (commands (trace (snd run))).
Proof.
  cbv zeta. split; [reflexivity|]. split; [reflexivity|].
  intros [E|[]]. discriminate E.
Qed.

Lemma screenshot_failure_skips_cleanup_witness :
  connected (self (fresh true)) = true
  /\ 1 <> 0
  /\ exists new,
      take_screenshot (scripted [Completed 1 EmptyString 0] true) (Some "shot") (fresh true)
      = (Val PyFalse, {| self := self (fresh true); trace := new |})
      /\ files_written new = []
      /\ ~ In RM (commands new).
Proof.
  split; [reflexivity|]. split; [discriminate|].
  destruct (screenshot_failure_skips_cleanup
              (scripted [Completed 1 EmptyString 0] true) (fresh true) (Some "shot")
              1 EmptyString 0 eq_refl ltac:(discriminate) (or_introl eq_refl))
    as (new & E & F & R & _).
  exists new. split; [exact E|]. split; [exact F | exact R].
Defined.

Lemma screenshot_name_gets_one_png_suffix_witness :
  connected (self (fresh true)) = true
  /\ Py.truthy "shot" = true
  /\ take_screenshot (scripted [] true) (Some "shot") (fresh true)
     = save_screenshot (scripted [] true) "/home/user/Quest Screen Capture/shot.png"
                       (fresh true)
  /\ exists w',
      take_screenshot (scripted [] true) (Some "shot") (fresh true)
      = (Val (Path "/home/user/Quest Screen Capture/shot.png"), w')
      /\ files_written (trace w') = ["/home/user/Quest Screen Capture/shot.png"].
Proof.
  split; [reflexivity|]. split; [reflexivity|].
  destruct (screenshot_name_gets_one_png_suffix
              (scripted [] true) (fresh true) "shot" eq_refl eq_refl)
    as (_ & _ & E & S).
  split; [exact E|].
  exact (S EmptyString EmptyString EmptyString 0%N 0%N 0%N eq_refl eq_refl eq_refl).
Defined.





Lemma operations_refuse_when_not_connected_witness :
  connected (self (fresh false)) = false
  /\ get_device_info (scripted [] true) (fresh false)
     = (Val None, emit (Print "Device not connected") (fresh false))
  /\ (exists w', view_screen_realtime (scripted [] true) toy "10" "0.5" [Capture; Tick]
                                      (fresh false)
                 = (Val false, w', None)
                 /\ untouched (fresh false) w').
Proof.
  split; [reflexivity|]. split; [reflexivity|].
  exact (proj2 (proj2 (proj2 (proj2
           (operations_refuse_when_not_connected
              (scripted [] true) toy (fresh false) None 30 10 5 "10" "0.5"
              [Capture; Tick] eq_refl))))).
Defined.

(** C4 as stated fails: a 1440 by 1600 capture at the scale typed as
    [0.7] is published 1007 wide, where [floor (1440 * 7 / 10)] is 1008:
    the double nearest to 0.7 lies below it; and a 10 by 10 capture at
    [0.3] is published 3 wide, where the exact product of 10 and the
    double nearest to 0.3 is below 3. *)
Lemma scaled_size_is_not_floor_of_exact_product :
  (exists s img',
      py_float "0.7" = inr s
      /\ process_image toy "1440x1600:" s = inr img'
      /\ width img' = 1007
      /\ 1440 * 7 / 10 = 1008
      /\ width img' <> 1440 * 7 / 10)
  /\ (exists s img',
         py_float "0.3" = inr s
         /\ process_image toy "10x10:" s = inr img'
         /\ width img' = 3
         /\ Float.floor_mul_exact 10 s = Some 2
         /\ Float.floor_mul_exact 10 s <> Some (width img')).
Proof.
  split; do 2 eexists; (split; [reflexivity|]); (split; [vm_compute; reflexivity|]);
    (split; [reflexivity|]); (split; [reflexivity|]); vm_compute; discriminate.
Qed.

Lemma resize_truncates_double_product_witness :
  thread (viewer "10" "0.5" true (AtDecode DEFAULT_FPS Float.half (capture FRAME)))
  = AtDecode DEFAULT_FPS Float.half (capture FRAME)
  /\ Image_open toy FRAME = inr {| width := 3664; height := 1920; pixels := FRAME |}
  /\ process_image toy FRAME Float.half
     = inr {| width := 1832; height := 960; pixels := FRAME |}
  /\ current_image
       (capture_steps (scripted [] true) toy 2
          (viewer "10" "0.5" true (AtDecode DEFAULT_FPS Float.half (capture FRAME))))
     = Some {| width := 1832; height := 960; pixels := FRAME |}.
Proof.
  split; [reflexivity|]. split; [reflexivity|]. split; [reflexivity|].
  exact (proj1 (resize_truncates_double_product
                  (scripted [] true) toy
                  (viewer "10" "0.5" true (AtDecode DEFAULT_FPS Float.half (capture FRAME)))
                  DEFAULT_FPS Float.half (capture FRAME)
                  {| width := 3664; height := 1920; pixels := FRAME |}
                  {| width := 1832; height := 960; pixels := FRAME |}
                  eq_refl eq_refl eq_refl)).
Defined.


Lemma cleared_flag_stops_capture_and_preview_witness :
  active (viewer "10" "0.5" false (AtScreencap DEFAULT_FPS Float.half)) = false
  /\ let v' := run_actions (scripted [Completed 0 FRAME 30] true) toy
                 [Capture; Tick; Capture; Capture; Capture; Tick; Capture; Capture]
                 (viewer "10" "0.5" false (AtScreencap DEFAULT_FPS Float.half)) in
     active v' = false
     /\ frame_count v' <= 1
     /\ ended (thread v') = true
     /\ label_image v' = None.
Proof.
  split; [reflexivity|].
  destruct (cleared_flag_stops_capture_and_preview
              (scripted [Completed 0 FRAME 30] true) toy
              (viewer "10" "0.5" false (AtScreencap DEFAULT_FPS Float.half))
              [Capture; Tick; Capture; Capture; Capture; Tick; Capture; Capture]
              eq_refl)
    as (A & [_ F] & _ & _ & E & _ & L & _).
  cbv zeta. split; [exact A|]. split; [exact F|].
  split; [apply E; cbn; lia | exact L].
Defined.

Lemma unexpected_exception_ends_capture_loop_witness :
  is_Exception (OSError "adb: device offline") = true
  /\ step_raises (scripted [Raised (OSError "adb: device offline")] true)
                 (viewer "10" "0.5" true (AtScreencap DEFAULT_FPS Float.half))
                 (OSError "adb: device offline")
  /\ exists ran,
      stopped_by (scripted [Raised (OSError "adb: device offline")] true) toy
                 (OSError "adb: device offline") ran
                 (viewer "10" "0.5" true (AtScreencap DEFAULT_FPS Float.half))
                 (capture_step (scripted [Raised (OSError "adb: device offline")] true) toy
                               (viewer "10" "0.5" true (AtScreencap DEFAULT_FPS Float.half))).
Proof.
  assert (R : step_raises (scripted [Raised (OSError "adb: device offline")] true)
                          (viewer "10" "0.5" true (AtScreencap DEFAULT_FPS Float.half))
                          (OSError "adb: device offline"))
    by (eapply raises_bridge; reflexivity).
  split; [reflexivity|]. split; [exact R|].
  exact (proj1 (unexpected_exception_ends_capture_loop
                  (scripted [Raised (OSError "adb: device offline")] true) toy
                  (viewer "10" "0.5" true (AtScreencap DEFAULT_FPS Float.half)))
               (OSError "adb: device offline") eq_refl R).
Defined.

(** C8 fails on the code as it is worded.  With a scale text of 310
    digits [float] gives infinity and the [int] call of the size
    computation raises [OverflowError]; with the scale [0] it is
    [resize] that raises.  Neither is a decode failure - the capture
    opens as an image - yet both are caught by the inner handler: the
    error is logged as an image error, nothing is published, the flag
    stays true and the thread is in its next cycle six steps after the
    loop test. *)
Lemma size_failure_keeps_loop_running :
  (control_value HUGE DEFAULT_SCALE = inr (S754_infinity false)
   /\ Image_open toy FRAME = inr {| width := 3664; height := 1920; pixels := FRAME |}
   /\ process_image toy (Py.replace FRAME CRLF Py.LF) (S754_infinity false)
      = inl (OverflowError "cannot convert float infinity to integer")
   /\ is_Exception (OverflowError "cannot convert float infinity to integer") = true
   /\ active oversized = true
   /\ thread oversized = AtWhile
   /\ capture_steps (scripted [Completed 0 FRAME 30] true) toy 6 oversized
      = set_thread AtControls
          (set_world
             {| self := self (world oversized);
                trace := [Run SCREENCAP (Completed 0 FRAME 30);
                          Print "Error processing image: cannot convert float infinity to integer";
                          Sleep (Float.div Float.one DEFAULT_FPS)] |}
             oversized)
   /\ active (capture_steps (scripted [Completed 0 FRAME 30] true) toy 6 oversized) = true)
  /\ (control_value "0" DEFAULT_SCALE = inr (S754_zero false)
      /\ process_image toy (Py.replace FRAME CRLF Py.LF) (S754_zero false)
         = inl (ImageError "height and width must be > 0")
      /\ capture_steps (scripted [Completed 0 FRAME 30] true) toy 6 flattened
         = set_thread AtControls
             (set_world
                {| self := self (world flattened);
                   trace := [Run SCREENCAP (Completed 0 FRAME 30);
                             Print "Error processing image: height and width must be > 0";
                             Sleep (Float.div Float.one DEFAULT_FPS)] |}
                flattened)
      /\ active (capture_steps (scripted [Completed 0 FRAME 30] true) toy 6 flattened) = true).
Proof.
  split.
  - split; [vm_compute; reflexivity|]. split; [reflexivity|].
    split; [vm_compute; reflexivity|]. split; [reflexivity|].
    split; [reflexivity|]. split; [reflexivity|].
    split; vm_compute; reflexivity.
  - split; [vm_compute; reflexivity|]. split; [vm_compute; reflexivity|].
    split; vm_compute; reflexivity.
Qed.

(** *** Instances of the further properties *)

Lemma connect_device_needs_adb_witness :
  connect_device (scripted [Raised (FileNotFoundError "adb")] true) (fresh false)
  = (Val false,
     {| self := quest false;
        trace := [Run VERSION (Raised (FileNotFoundError "adb")); Print NO_ADB] |}).
Proof.
  exact (connect_device_needs_adb
           (scripted [Raised (FileNotFoundError "adb")] true) (fresh false)
           (Raised (FileNotFoundError "adb")) eq_refl
           (or_intror (ex_intro _ "adb" eq_refl))).
Defined.

Lemma wifi_connect_is_decided_by_reply_witness :
  wifi_target (self (wifi false)) = Some "192.168.1.20"
  /\ fst (connect_device
            (scripted [Completed 0 "Android Debug Bridge" 5;
                       Completed 1 "already connected to 192.168.1.20:5555" 9] true)
            (wifi false))
     = Val true.
Proof.
  split; [reflexivity|].
  destruct (wifi_connect_is_decided_by_reply
              (scripted [Completed 0 "Android Debug Bridge" 5;
                         Completed 1 "already connected to 192.168.1.20:5555" 9] true)
              (wifi false) "192.168.1.20" "Android Debug Bridge"
              "already connected to 192.168.1.20:5555" 5 9 1 eq_refl eq_refl eq_refl)
    as [line E].
  rewrite E. reflexivity.
Defined.

Lemma device_info_is_three_stripped_answers_witness :
  connected (self (fresh true)) = true
  /\ fst (get_device_info
            (scripted [Completed 0 ("Quest 3" ++ Py.LF) 8;
                       Completed 1 ("12" ++ Py.LF) 8;
                       Completed 0 ("Physical size: 3664x1920" ++ Py.LF) 8] true)
            (fresh true))
     = Val (Some {| model := "Quest 3"; android_version := "12";
                    resolution := "Physical size: 3664x1920" |}).
Proof.
  split; [reflexivity|].
  destruct (device_info_is_three_stripped_answers
              (scripted [Completed 0 ("Quest 3" ++ Py.LF) 8;
                         Completed 1 ("12" ++ Py.LF) 8;
                         Completed 0 ("Physical size: 3664x1920" ++ Py.LF) 8] true)
              (fresh true) 0 1 0 ("Quest 3" ++ Py.LF) ("12" ++ Py.LF)
              ("Physical size: 3664x1920" ++ Py.LF) 8 8 8
              eq_refl eq_refl eq_refl eq_refl)
    as (new & E & _).
  rewrite E. reflexivity.
Defined.

Lemma device_info_gives_up_on_exception_witness :
  is_Exception (OSError "adb: device offline") = true
  /\ get_device_info
       (scripted [Completed 0 "Quest 3" 8; Raised (OSError "adb: device offline")] true)
       (fresh true)
     = (Val None,
        {| self := self (fresh true);
           trace := [Run GET_MODEL (Completed 0 "Quest 3" 8);
                     Run GET_RELEASE (Raised (OSError "adb: device offline"));
                     Print "Error getting device info: adb: device offline"] |}).
Proof.
  split; [reflexivity|].
  exact (proj1 (proj2 (device_info_gives_up_on_exception
                         (scripted [Completed 0 "Quest 3" 8;
                                    Raised (OSError "adb: device offline")] true)
                         (fresh true) (OSError "adb: device offline") eq_refl eq_refl)
                      0 "Quest 3" 8%N eq_refl)
               eq_refl).
Defined.

Lemma recording_is_pulled_whatever_recorder_exit_witness :
  connected (self (fresh true)) = true
  /\ exists new,
      start_screen_recording
        (scripted [Completed 1 EmptyString 30000; Completed 0 EmptyString 900;
                   Completed 0 EmptyString 20] true)
        (Some "clip") 30 (fresh true)
      = (Val (Path "/home/user/Quest Screen Capture/clip.mp4"),
         {| self := self (fresh true); trace := new |})
      /\ files_written new = ["/home/user/Quest Screen Capture/clip.mp4"].
Proof.
  split; [reflexivity|].
  destruct (recording_is_pulled_whatever_recorder_exit
              (scripted [Completed 1 EmptyString 30000; Completed 0 EmptyString 900;
                         Completed 0 EmptyString 20] true)
              (fresh true) (Some "clip") 30 1 EmptyString EmptyString EmptyString
              30000 900 20 eq_refl eq_refl eq_refl eq_refl)
    as (new & E & _ & F & _).
  exists new. split; [exact E | exact F].
Defined.

Lemma recording_pull_failure_skips_cleanup_witness :
  connected (self (fresh true)) = true
  /\ 1 <> 0
  /\ exists new,
      start_screen_recording
        (scripted [Completed 0 EmptyString 30000; Completed 1 EmptyString 900] true)
        None 30 (fresh true)
      = (Val PyFalse, {| self := self (fresh true); trace := new |})
      /\ files_written new = [].
Proof.
  split; [reflexivity|]. split; [discriminate|].
  destruct (recording_pull_failure_skips_cleanup
              (scripted [Completed 0 EmptyString 30000; Completed 1 EmptyString 900] true)
              (fresh true) None 30 0 1 EmptyString EmptyString 30000 900
              eq_refl ltac:(discriminate) eq_refl eq_refl)
    as (new & E & _ & F).
  exists new. split; [exact E | exact F].
Defined.

Lemma unnamed_capture_is_named_by_the_clock_witness :
  Py.lower ".png" = ".png"
  /\ output_name (scripted [] true) "quest_screenshot" ".png" None (fresh true)
     = (Val "quest_screenshot_20250101_120000.png", fresh true).
Proof.
  split; [reflexivity|].
  exact (unnamed_capture_is_named_by_the_clock
           (scripted [] true) "quest_screenshot" ".png" None (fresh true)
           eq_refl (or_introl eq_refl)).
Defined.

Lemma disconnect_ignores_exit_status_witness :
  wifi_target (self (wifi true)) = Some "192.168.1.20"
  /\ disconnect (scripted [Completed 1 "error: no such device" 4] true) (wifi true)
     = (Val tt,
        {| self := wifi_quest false;
           trace := [Run (DISCONNECT "192.168.1.20:5555")
                         (Completed 1 "error: no such device" 4);
                     Print "Disconnected from device"] |}).
Proof.
  split; [reflexivity|].
  exact (disconnect_ignores_exit_status
           (scripted [Completed 1 "error: no such device" 4] true) (wifi true)
           "192.168.1.20" 1 "error: no such device" 4 eq_refl eq_refl).
Defined.

Lemma disconnect_failure_keeps_flag_witness :
  wifi_target (self (wifi true)) = Some "192.168.1.20"
  /\ exists w',
      disconnect (scripted [Raised (FileNotFoundError "adb")] true) (wifi true)
      = (Exc (FileNotFoundError "adb"), w')
      /\ connected (self w') = true.
Proof.
  split; [reflexivity|].
  eexists. split.
  - exact (disconnect_failure_keeps_flag
             (scripted [Raised (FileNotFoundError "adb")] true) (wifi true)
             "192.168.1.20" (FileNotFoundError "adb") eq_refl eq_refl).
  - reflexivity.
Defined.

Lemma operations_refuse_after_disconnect_witness :
  disconnect (scripted [] true) (fresh true)
  = (Val tt, {| self := quest false; trace := [] |})
  /\ take_screenshot (scripted [] true) (Some "shot") {| self := quest false; trace := [] |}
     = (Val PyFalse,
        emit (Print "Device not connected") {| self := quest false; trace := [] |})
  /\ view_screen_realtime (scripted [] true) toy "10" "0.5" [Capture; Tick]
       {| self := quest false; trace := [] |}
     = (Val false, {| self := quest false; trace := [Print "Device not connected"] |}, None).
Proof.
  split; [reflexivity|].
  destruct (operations_refuse_after_disconnect
              (scripted [] true) toy (fresh true) {| self := quest false; trace := [] |}
              (Some "shot") 30 10 5 "10" "0.5" [Capture; Tick] eq_refl)
    as (_ & _ & S & _ & _ & V).
  split; [exact S | exact V].
Defined.

Lemma live_stream_saves_numbered_frames_until_interrupt_witness :
  connected (self (fresh true)) = true
  /\ (forall t, ctrl_c (interrupted_at 2) t = Nat.eqb (sleeps t) 2)
  /\ exists new,
      start_live_stream (interrupted_at 2) 5 10 (fresh true)
      = (Val None, {| self := set_streaming false (self (fresh true)); trace := new |})
      /\ files_written new
         = ["/home/user/Quest Screen Capture/frame_000000.png";
            "/home/user/Quest Screen Capture/frame_000001.png";
            "/home/user/Quest Screen Capture/frame_000002.png"]
      /\ sleeps new = 3%nat.
Proof.
  split; [reflexivity|]. split; [reflexivity|].
  destruct (live_stream_saves_numbered_frames_until_interrupt
              (interrupted_at 2) 10 (Float.of_int 10) (Float.div Float.one (Float.of_int 10))
              eq_refl eq_refl eq_refl (fresh true) 2 5 eq_refl
              ltac:(lia)
              (fun _ _ => ex_intro _ EmptyString (ex_intro _ 0%N eq_refl))
              (fun _ => eq_refl))
    as (new & E & F & _ & S & _).
  exists new. split; [exact E|]. split; [exact F | exact S].
Defined.

Lemma failing_at_passes (k : nat) (rc : Z) (t : list Event) (argv : list string) :
  (sleeps t < k)%nat ->
  exists o m, adb (failing_at k rc) t argv = Completed 0 o m.
Proof.
  intros H. exists EmptyString, 0%N. cbn [adb failing_at].
  destruct (Nat.eqb_spec (sleeps t) k); [lia | reflexivity].
Qed.

Lemma failing_at_fails (k : nat) (rc : Z) (t : list Event) (argv : list string) :
  sleeps t = k ->
  adb (failing_at k rc) t argv = Completed rc EmptyString 0.
Proof.
  intros H. cbn [adb failing_at]. now rewrite H, Nat.eqb_refl.
Qed.

Lemma live_stream_failure_escapes_witness :
  connected (self (fresh true)) = true
  /\ 1 <> 0
  /\ exists new,
      start_live_stream (failing_at 2 1) 5 10 (fresh true)
      = (Exc (CalledProcessError CAP_FRAME 1),
         {| self := set_streaming true (self (fresh true)); trace := new |})
      /\ files_written new
         = ["/home/user/Quest Screen Capture/frame_000000.png";
            "/home/user/Quest Screen Capture/frame_000001.png"]
      /\ last (commands new) [] = CAP_FRAME.
Proof.
  split; [reflexivity|]. split; [discriminate|].
  destruct (live_stream_failure_escapes
              (failing_at 2 1) 10 (Float.of_int 10) (Float.div Float.one (Float.of_int 10))
              eq_refl eq_refl eq_refl (fresh true) 2 5 CAP_FRAME 1 EmptyString 0
              eq_refl ltac:(lia) ltac:(discriminate)
              (failing_at_passes 2 1)
              (fun _ _ => eq_refl)
              (fun t => failing_at_fails 2 1 t CAP_FRAME)
              (or_introl eq_refl))
    as (new & E & F & _ & L & _).
  exists new. split; [exact E|]. split; [exact F | exact L].
Defined.

Lemma live_stream_returns_only_after_interrupt_witness :
  connected (self (fresh true)) = true
  /\ fst (start_live_stream (impatient []) 3 10 (fresh true)) = Val None
  /\ streaming (self (snd (start_live_stream (impatient []) 3 10 (fresh true)))) = false.
Proof.
  split; [reflexivity|].
  pose proof (live_stream_returns_only_after_interrupt (impatient []) 3 10 (fresh true)
                                                       eq_refl) as H.
  cbv zeta in H. destruct H as [_ H].
  assert (E : fst (start_live_stream (impatient []) 3 10 (fresh true)) = Val None)
    by (vm_compute; reflexivity).
  rewrite E in H. destruct H as (_ & H & _).
  split; [exact E | exact H].
Defined.

Lemma viewer_returns_when_the_user_ends_it_witness :
  GUI_AVAILABLE (scripted [] true) = true
  /\ connected (self (fresh true)) = true
  /\ fst (fst (view_screen_realtime (scripted [] true) toy "10" "0.5"
                 [Capture; Tick; ClickStop; Capture] (fresh true)))
     = Val true
  /\ fst (fst (view_screen_realtime (scripted [] true) toy "10" "0.5"
                 [Capture; Tick; Capture] (fresh true)))
     = OutOfFuel.
Proof.
  split; [reflexivity|]. split; [reflexivity|]. split.
  - exact (proj1 (viewer_returns_when_the_user_ends_it
                    (scripted [] true) toy "10" "0.5" [Capture; Tick; ClickStop; Capture]
                    (fresh true) eq_refl eq_refl)).
  - exact (proj1 (viewer_returns_when_the_user_ends_it
                    (scripted [] true) toy "10" "0.5" [Capture; Tick; Capture]
                    (fresh true) eq_refl eq_refl)).
Defined.

Lemma nothing_is_shown_before_the_first_frame_witness :
  let v := run_actions (scripted [] true) toy
             [Capture; Capture; Capture; Tick; Capture; TypeFps "5"; Tick]
             (viewer "10" "0.5" true AtWhile) in
  current_image v = None
  /\ label_image v = None
  /\ status_text v = "Initializing...".
Proof.
  cbv zeta.
  assert (C : current_image
                (run_actions (scripted [] true) toy
                   [Capture; Capture; Capture; Tick; Capture; TypeFps "5"; Tick]
                   (viewer "10" "0.5" true AtWhile)) = None)
    by (vm_compute; reflexivity).
  split; [exact C|].
  exact (proj2 (nothing_is_shown_before_the_first_frame
                  (scripted [] true) toy
                  [Capture; Capture; Capture; Tick; Capture; TypeFps "5"; Tick]
                  (viewer "10" "0.5" true AtWhile) C)).
Defined.

Lemma preview_refresh_is_pending_while_streaming_witness :
  let v := run_actions (scripted [Completed 0 FRAME 30] true) toy
             [Tick; Capture; Capture; Capture; Tick]
             (open_viewer "10" "0.5" streaming_world) in
  active v = true /\ exists ms, timer v = Some ms.
Proof.
  cbv zeta.
  assert (A : active
                (run_actions (scripted [Completed 0 FRAME 30] true) toy
                   [Tick; Capture; Capture; Capture; Tick]
                   (open_viewer "10" "0.5" streaming_world)) = true)
    by (vm_compute; reflexivity).
  split; [exact A|].
  exact (preview_refresh_is_pending_while_streaming
           (scripted [Completed 0 FRAME 30] true) toy "10" "0.5" streaming_world
           [Tick; Capture; Capture; Capture; Tick] A).
Defined.

Lemma untranslated_png_loses_its_signature_witness :
  Py.startswith (PNG_SIGNATURE ++ "IHDR") PNG_SIGNATURE = true
  /\ Py.startswith (Py.replace (PNG_SIGNATURE ++ "IHDR") CRLF Py.LF) PNG_SIGNATURE = false.
Proof.
  split; [reflexivity|].
  exact (proj1 (untranslated_png_loses_its_signature (PNG_SIGNATURE ++ "IHDR") eq_refl)).
Defined.

Lemma only_lines_in_device_state_count_witness :
  device_lines TWO_LISTED
  = map device_line [("1WMHH1234", "device"); ("2G0YC5678", "unauthorized")]
  /\ devices_of TWO_LISTED = ["1WMHH1234"].
Proof.
  split; [reflexivity|].
  exact (only_lines_in_device_state_count
           TWO_LISTED [("1WMHH1234", "device"); ("2G0YC5678", "unauthorized")]
           eq_refl ltac:(repeat constructor)).
Defined.

Lemma seven_is_no_choice : ~ In (Py.strip "7") CHOICES.
Proof.
  cbn. intros H. repeat (destruct H as [H | H]; [discriminate H|]). exact H.
Qed.

Lemma invalid_choice_asks_again_witness :
  typed (console ["7"; "6"]) = ["7"; "6"]
  /\ menu linux (scripted [] true) toy 5 (fun _ => [ClickStop]) 2 (quest true)
          (console ["7"; "6"])
     = menu linux (scripted [] true) toy 5 (fun _ => [ClickStop]) 1 (quest true)
            {| screen := map Print OPTIONS ++ [Print "Invalid choice. Please enter 1-6."];
               typed := ["6"];
               asked := ["Enter your choice (1-6): "];
               disk := [] |}.
Proof.
  split; [reflexivity|].
  exact (invalid_choice_asks_again
           linux (scripted [] true) toy 5 (fun _ => [ClickStop]) 1 (quest true)
           (console ["7"; "6"]) "7" ["6"] eq_refl seven_is_no_choice).
Defined.

Lemma choice_6_disconnects_and_ends_witness :
  Py.strip " 6 " = "6"
  /\ exists r new,
      menu linux (scripted [] true) toy 5 (fun _ => [ClickStop]) 1 (wifi_quest true)
           (console [" 6 "; "1"])
      = (r, {| screen := map Print OPTIONS ++ new; typed := ["1"];
               asked := ["Enter your choice (1-6): "]; disk := [] |})
      /\ (r = Returned tt \/ exists e, r = Crashed (Escaped e))
      /\ files_written new = [].
Proof.
  split; [reflexivity|].
  destruct (choice_6_disconnects_and_ends
              linux (scripted [] true) toy 5 (fun _ => [ClickStop]) 0 (wifi_quest true)
              (console [" 6 "; "1"]) " 6 " ["1"] eq_refl eq_refl)
    as (r & new & E & R & F & _).
  exists r, new. split; [exact E|]. split; [exact R | exact F].
Defined.

Lemma menu_scale_with_two_points_crashes_witness :
  Py.isdigit (Py.replace (Py.strip "1.2.3") "." "") = true
  /\ fst (menu linux (scripted [] true) toy 5 (fun _ => [ClickStop]) 1 (quest true)
               (console ["4"; "10"; "1.2.3"; "6"]))
     = Crashed (Escaped (ValueError "could not convert string to float: '1.2.3'")).
Proof.
  split; [reflexivity|].
  rewrite (menu_scale_with_two_points_crashes
             linux (scripted [] true) toy 5 (fun _ => [ClickStop]) 0 (quest true)
             (console ["4"; "10"; "1.2.3"; "6"]) "4" "10" "1.2.3" ["6"]
             (ValueError "could not convert string to float: '1.2.3'")
             eq_refl eq_refl eq_refl (proj1 (Nat.leb_le 2 4300) eq_refl) eq_refl eq_refl).
  reflexivity.
Defined.

End Instances.
